(** * Neo4j-GO: a shallow embedding of the REST client in neo4j.go

    The development follows the source file top to bottom: the string
    escaper ([EscapeString], [escape]), the record decoder
    ([unmarshalNode], [unmarshal]), the status classifier ([NewError],
    [check]) with the error table of every operation, and the operations
    that the verified statements talk about ([send], [GetNode],
    [SetProperty], [CreateProperty], [DelRelationship]).

    Go strings are byte sequences, so they are [string] (lists of 8-bit
    [ascii]); Go's [int] and [uint] are [Z] and [N]; Go maps are [gmap]s;
    a pointer that may be nil is an [option]; [panic] is an explicit
    outcome. What the client takes from encoding/json, strconv.Quote and
    the network is a parameter of the model, the class [Env]. *)

From Stdlib Require Import ZArith NArith Ascii String List Lia Permutation.
From Stdlib Require Import DecimalString DecimalN.
From stdpp Require Import gmap strings list fin_maps.
From Equations Require Import Equations.

Local Open Scope string_scope.
Local Open Scope list_scope.
Local Open Scope Z_scope.

(** The double quote, and [s] between double quotes. *)
Definition double_quote : ascii := ascii_of_nat 34.

Definition quoted (s : string) : string :=
  String double_quote (s +:+ String double_quote EmptyString).

(** ** Outcomes of Go code *)

(** What running a Go function body gives: its return value, or a panic
    with its message. *)
Inductive outcome (A : Type) : Type :=
| Return (a : A)
| Panic (msg : string).
Arguments Return {A} a.
Arguments Panic {A} msg.

(** ** Package [strings] and slices of strings *)

Module strings.

(** [s[i]] for a Go string: the byte at index [i], if in range. *)
Definition index (s : string) (i : Z) : option ascii :=
  if i <? 0 then None else String.get (Z.to_nat i) s.

(** The first [n] bytes of [s], and [s] without them. *)
Fixpoint take (n : nat) (s : string) : string :=
  match n, s with
  | S n', String c s' => String c (take n' s')
  | _, _ => EmptyString
  end.

Fixpoint drop (n : nat) (s : string) : string :=
  match n, s with
  | S n', String _ s' => drop n' s'
  | _, _ => s
  end.

(** [s[0:i]] and [s[i:]], for [0 <= i <= len(s)]. *)
Definition slice_to (s : string) (i : Z) : string := take (Z.to_nat i) s.
Definition slice_from (s : string) (i : Z) : string := drop (Z.to_nat i) s.

(** Is the byte [c] one of the bytes of [chars]? *)
Fixpoint contains_byte (chars : string) (c : ascii) : bool :=
  match chars with
  | EmptyString => false
  | String d chars' => if Ascii.eqb c d then true else contains_byte chars' c
  end.

(** [strings.IndexAny(s, chars)] for an ASCII-only [chars]: the index of
    the first byte of [s] that occurs in [chars], or [-1]. (UTF-8 never
    uses a byte below 128 inside a multi-byte sequence, so scanning bytes
    and scanning code points agree for such [chars].) *)
Fixpoint IndexAny (s chars : string) : Z :=
  match s with
  | EmptyString => -1
  | String c s' =>
      if contains_byte chars c then 0
      else let i := IndexAny s' chars in
           if i =? -1 then -1 else i + 1
  end.

(** [strings.Split(s, sep)] for a one-byte separator: the pieces of [s]
    between the occurrences of [sep]; never an empty list. *)
Fixpoint Split (s : string) (sep : ascii) : list string :=
  match s with
  | EmptyString => [EmptyString]
  | String c s' =>
      if Ascii.eqb c sep then EmptyString :: Split s' sep
      else match Split s' sep with
           | piece :: pieces => String c piece :: pieces
           | [] => [String c EmptyString]
           end
  end.

(** [strings.ToLower] on the ASCII letters; other bytes stay. (No
    non-ASCII letter has a lower case that is a letter of [delete],
    [post], [put] or [get], the only strings it is compared with.) *)
Definition lower_byte (c : ascii) : ascii :=
  let n := nat_of_ascii c in
  if ((65 <=? n) && (n <=? 90))%nat then ascii_of_nat (n + 32) else c.

Fixpoint ToLower (s : string) : string :=
  match s with
  | EmptyString => EmptyString
  | String c s' => String (lower_byte c) (ToLower s')
  end.

(** The string of the bytes with the given codes. *)
Definition of_bytes (codes : list nat) : string :=
  fold_right (fun n s => String (ascii_of_nat n) s) EmptyString codes.

(** The UTF-8 encodings of the code points for which [unicode.IsSpace]
    holds: tab, line feed, vertical tab, form feed, carriage return, space,
    U+0085, U+00A0, U+1680, U+2000 to U+200A, U+2028, U+2029, U+202F,
    U+205F and U+3000. *)
Definition space_encodings : list string :=
  map of_bytes
    [[9]; [10]; [11]; [12]; [13]; [32]; [194; 133]; [194; 160];
     [225; 154; 128];
     [226; 128; 128]; [226; 128; 129]; [226; 128; 130]; [226; 128; 131];
     [226; 128; 132]; [226; 128; 133]; [226; 128; 134]; [226; 128; 135];
     [226; 128; 136]; [226; 128; 137]; [226; 128; 138];
     [226; 128; 168]; [226; 128; 169]; [226; 128; 175];
     [226; 129; 159]; [227; 128; 128]]%nat.

(** [s] without the prefix [p], if it starts with it. *)
Fixpoint strip_prefix (p s : string) : option string :=
  match p, s with
  | EmptyString, _ => Some s
  | String a p', String b s' =>
      if Ascii.eqb a b then strip_prefix p' s' else None
  | String _ _, EmptyString => None
  end.

(** [s] without its first code point, if that is one of [spaces]. *)
Fixpoint strip_space (spaces : list string) (s : string) : option string :=
  match spaces with
  | [] => None
  | p :: spaces' =>
      match strip_prefix p s with
      | Some s' => Some s'
      | None => strip_space spaces' s
      end
  end.

(** Leading code points of [spaces] removed, at most [n] of them. *)
Fixpoint trim_left (spaces : list string) (n : nat) (s : string) : string :=
  match n with
  | O => s
  | S n' =>
      match strip_space spaces s with
      | Some s' => trim_left spaces n' s'
      | None => s
      end
  end.

(** [strings.TrimSpace(s)]: the leading white space goes, then, on the
    reversed string, the trailing one. *)
Definition TrimSpace (s : string) : string :=
  let s1 := trim_left space_encodings (String.length s) s in
  String.rev
    (trim_left (map String.rev space_encodings) (String.length s1)
       (String.rev s1)).

End strings.

(** ** The string escaper (neo4j.go, lines 67-68 and 546-592) *)

(** The constant [escapedChars]: ampersand, apostrophe, less-than,
    greater-than, double quote (byte 34), asterisk, both square brackets,
    colon, percent, space, in the order of the source literal. *)
Definition escapedChars : string :=
  "&'<>" +:+ String double_quote "*[]:% ".

(** The [switch s[i]] of [escape]: the replacement text of a byte, [None]
    standing for the [default] branch, which panics. *)
Definition escapeSwitch (c : ascii) : option string :=
  if Ascii.eqb c "%" then Some "%25"
  else if Ascii.eqb c "&" then Some "&amp;"
  else if Ascii.eqb c "'" then Some "&apos;"
  else if Ascii.eqb c "<" then Some "&lt;"
  else if Ascii.eqb c ">" then Some "&gt;"
  else if Ascii.eqb c double_quote then Some "&quot;"
  else if Ascii.eqb c " " then Some "%20"
  else if Ascii.eqb c "*" then Some "%2A"
  else if Ascii.eqb c ":" then Some "%3A"
  else if Ascii.eqb c "[" then Some "%5B"
  else if Ascii.eqb c "]" then Some "%5D"
  else None.

(** One turn of the [for i != -1] loop of [escape], for the current [s] and
    [i]: the text written to the buffer ([s[0:i]] and the escape) and the
    new [s], or the panic of the turn. *)
Definition escapeStep (s : string) (i : Z) : outcome (string * string) :=
  match strings.index s i with
  | None => Panic "index out of range"
  | Some c =>
      match escapeSwitch c with
      | None => Panic "unrecognized escape character"
      | Some esc =>
          Return (strings.slice_to s i +:+ esc, strings.slice_from s (i + 1))
      end
  end.

(** Matching on a value while keeping the equation that names it. *)
Definition inspect {A : Type} (x : A) : {y : A | x = y} := exist _ x eq_refl.

(** [escape(buf, s)]: the loop, as a function from the buffer's content and
    [s] to the buffer's final content. Each call computes
    [i := strings.IndexAny(s, escapedChars)], which is what the loop holds
    in [i] at every test of [i != -1]. *)
Equations? escape (buf s : string) : outcome string
  by wf (String.length s) lt :=
  escape buf s with inspect (strings.IndexAny s escapedChars) := {
    | exist _ i _ with Z.eqb i (-1) := {
      | true := Return (buf +:+ s)
      | false with inspect (escapeStep s i) := {
        | exist _ (Panic msg) _ := Panic msg
        | exist _ (Return (written, s')) Hstep := escape (buf +:+ written) s'
        }
      }
  }.
Proof.
  unfold escapeStep, strings.index, strings.slice_from in Hstep.
  set (i := strings.IndexAny s escapedChars) in Hstep.
  destruct (Z.ltb_spec i 0) as [|Hi]; [discriminate|].
  destruct (String.get (Z.to_nat i) s) as [c|] eqn:Hc; [|discriminate].
  destruct (escapeSwitch c); [|discriminate].
  injection Hstep as _ <-.
  replace (Z.to_nat (i + 1)) with (S (Z.to_nat i)) by lia.
  revert Hc. generalize (Z.to_nat i) as n. clear. intros n. revert s.
  induction n as [|n IH]; intros [|d s]; simpl; try discriminate.
  - intros _. lia.
  - intros Hc. apply IH in Hc. simpl in Hc. lia.
Qed.

(** [EscapeString(s)]. *)
Definition EscapeString (s : string) : outcome string :=
  if strings.IndexAny s escapedChars =? -1 then Return s
  else escape "" s.

(** ** Errors and results *)

(** The kind of a [*strconv.NumError]: [strconv.ErrSyntax] or
    [strconv.ErrRange]. *)
Inductive NumErrorKind : Type := ErrSyntax | ErrRange.

(** Go [error] values that the client can hold: [errors.New(msg)], the
    [*strconv.NumError] of [ParseUint], the errors of encoding/json (a
    syntax error, a value of the wrong JSON type for the Go target, a value
    that cannot be marshalled) and an error of net/http. A nil [error] is
    [None : option error]. *)
Inductive error : Type :=
| errors_New (msg : string)
| NumError (func num : string) (kind : NumErrorKind)
| json_SyntaxError
| json_UnmarshalTypeError
| json_MarshalError (msg : string)
| http_Error (msg : string).

(** A Go result pair [(T, error)] of which only one side is meaningful:
    [Ok v] is [(v, nil)], [Err e] is [(zero, e)]. *)
Inductive result (A : Type) : Type :=
| Ok (a : A)
| Err (e : error).
Arguments Ok {A} a.
Arguments Err {A} e.

(** ** JSON values as encoding/json stores them in [interface{}] *)

(** [nil] for null, [bool], [float64] (kept as the literal of the number),
    [string], [[]interface{}] and [map[string]interface{}]. A Go map has
    one value per key, so an object is a [gmap]. *)
#[warnings="-register-all"]
Inductive value : Type :=
| Nil
| Bool (b : bool)
| Float64 (literal : string)
| Str (s : string)
| Slice (l : list value)
| Map (m : gmap string value).

(** ** Package [strconv] *)

Module strconv.

(** The width of [uint] ([strconv.IntSize]) on the 64-bit targets. *)
Definition IntSize : N := 64.

(** The value of a decimal digit byte. *)
Definition digit (c : ascii) : option N :=
  let n := N_of_ascii c in
  if ((48 <=? n) && (n <=? 57))%N then Some (n - 48)%N else None.

(** The scanning loop of [ParseUint] in base 10: each byte must be a
    digit, and the number read so far must stay within [maxVal]. The first
    offending byte decides the error. *)
Fixpoint parseUintLoop (maxVal : N) (s : string) (n : N)
  : NumErrorKind + N :=
  match s with
  | EmptyString => inr n
  | String c s' =>
      match digit c with
      | None => inl ErrSyntax
      | Some d =>
          if ((2 ^ 64 - 1) / 10 + 1 <=? n)%N then inl ErrRange
          else
            let n1 := (n * 10 + d)%N in
            if (maxVal <? n1)%N then inl ErrRange
            else parseUintLoop maxVal s' n1
      end
  end.

(** [strconv.ParseUint(s, 10, bitSize)]; [bitSize = 0] means [uint]. *)
Definition ParseUint (s : string) (bitSize : N) : result N :=
  match s with
  | EmptyString => Err (NumError "ParseUint" s ErrSyntax)
  | _ =>
      let bitSize := if (bitSize =? 0)%N then IntSize else bitSize in
      match parseUintLoop (2 ^ bitSize - 1)%N s 0%N with
      | inl kind => Err (NumError "ParseUint" s kind)
      | inr n => Ok n
      end
  end.

(** [strconv.FormatUint(i, 10)]. *)
Definition FormatUint (i : N) : string :=
  NilEmpty.string_of_uint (N.to_uint i).

End strconv.

(** [l[len(l)-1]]: the last element of a slice. Go panics on an empty
    slice; [strings.Split] never returns one, and the empty string stands
    for that case. *)
Definition last_element (l : list string) : string := List.last l EmptyString.

(** ** Records (neo4j.go, lines 45-66) *)

(** [NeoTemplate]. The fields [End] and [Type] are [End_] and [Type_]
    here. A nil map or slice is [None]. *)
Record NeoTemplate : Type := mkNeoTemplate {
  ID : N;
  Relationships : string;
  RelationshipsOut : string;
  RelationshipsIn : string;
  RelationshipsAll : string;
  RelationshipsCreate : string;
  Data : option (gmap string value);
  Traverse : string;
  Property : string;
  Properties : string;
  Self : string;
  Extensions : option (gmap string value);
  Start : string;
  End_ : string;
  Type_ : string;
  Indexed : string;
  Length : string;
  Nodes : option (list value);
  TRelationships : option (list value)

}.

(** [new(NeoTemplate)]: every field at its zero value. *)
Definition new_NeoTemplate : NeoTemplate :=
  {| ID := 0%N; Relationships := ""; RelationshipsOut := "";
     RelationshipsIn := ""; RelationshipsAll := "";
     RelationshipsCreate := ""; Data := None; Traverse := "";
     Property := ""; Properties := ""; Self := ""; Extensions := None;
     Start := ""; End_ := ""; Type_ := ""; Indexed := ""; Length := "";
     Nodes := None; TRelationships := None |}.

(** Field assignments [node.F = x]. *)

Definition set_ID (x : N) (node : NeoTemplate) : NeoTemplate :=
  {| ID := x; Relationships := Relationships node; RelationshipsOut :=
     RelationshipsOut node; RelationshipsIn := RelationshipsIn node;
     RelationshipsAll := RelationshipsAll node; RelationshipsCreate :=
     RelationshipsCreate node; Data := Data node; Traverse := Traverse
     node; Property := Property node; Properties := Properties node; Self
     := Self node; Extensions := Extensions node; Start := Start node;
     End_ := End_ node; Type_ := Type_ node; Indexed := Indexed node;
     Length := Length node; Nodes := Nodes node; TRelationships :=
     TRelationships node |}.

Definition set_RelationshipsOut (x : string) (node : NeoTemplate) : NeoTemplate :=
  {| ID := ID node; Relationships := Relationships node; RelationshipsOut
     := x; RelationshipsIn := RelationshipsIn node; RelationshipsAll :=
     RelationshipsAll node; RelationshipsCreate := RelationshipsCreate
     node; Data := Data node; Traverse := Traverse node; Property :=
     Property node; Properties := Properties node; Self := Self node;
     Extensions := Extensions node; Start := Start node; End_ := End_
     node; Type_ := Type_ node; Indexed := Indexed node; Length := Length
     node; Nodes := Nodes node; TRelationships := TRelationships node |}.

Definition set_RelationshipsIn (x : string) (node : NeoTemplate) : NeoTemplate :=
  {| ID := ID node; Relationships := Relationships node; RelationshipsOut
     := RelationshipsOut node; RelationshipsIn := x; RelationshipsAll :=
     RelationshipsAll node; RelationshipsCreate := RelationshipsCreate
     node; Data := Data node; Traverse := Traverse node; Property :=
     Property node; Properties := Properties node; Self := Self node;
     Extensions := Extensions node; Start := Start node; End_ := End_
     node; Type_ := Type_ node; Indexed := Indexed node; Length := Length
     node; Nodes := Nodes node; TRelationships := TRelationships node |}.

Definition set_RelationshipsAll (x : string) (node : NeoTemplate) : NeoTemplate :=
  {| ID := ID node; Relationships := Relationships node; RelationshipsOut
     := RelationshipsOut node; RelationshipsIn := RelationshipsIn node;
     RelationshipsAll := x; RelationshipsCreate := RelationshipsCreate
     node; Data := Data node; Traverse := Traverse node; Property :=
     Property node; Properties := Properties node; Self := Self node;
     Extensions := Extensions node; Start := Start node; End_ := End_
     node; Type_ := Type_ node; Indexed := Indexed node; Length := Length
     node; Nodes := Nodes node; TRelationships := TRelationships node |}.

Definition set_RelationshipsCreate (x : string) (node : NeoTemplate) : NeoTemplate :=
  {| ID := ID node; Relationships := Relationships node; RelationshipsOut
     := RelationshipsOut node; RelationshipsIn := RelationshipsIn node;
     RelationshipsAll := RelationshipsAll node; RelationshipsCreate := x;
     Data := Data node; Traverse := Traverse node; Property := Property
     node; Properties := Properties node; Self := Self node; Extensions :=
     Extensions node; Start := Start node; End_ := End_ node; Type_ :=
     Type_ node; Indexed := Indexed node; Length := Length node; Nodes :=
     Nodes node; TRelationships := TRelationships node |}.

Definition set_Data (x : option (gmap string value)) (node : NeoTemplate) : NeoTemplate :=
  {| ID := ID node; Relationships := Relationships node; RelationshipsOut
     := RelationshipsOut node; RelationshipsIn := RelationshipsIn node;
     RelationshipsAll := RelationshipsAll node; RelationshipsCreate :=
     RelationshipsCreate node; Data := x; Traverse := Traverse node;
     Property := Property node; Properties := Properties node; Self :=
     Self node; Extensions := Extensions node; Start := Start node; End_
     := End_ node; Type_ := Type_ node; Indexed := Indexed node; Length :=
     Length node; Nodes := Nodes node; TRelationships := TRelationships
     node |}.

Definition set_Traverse (x : string) (node : NeoTemplate) : NeoTemplate :=
  {| ID := ID node; Relationships := Relationships node; RelationshipsOut
     := RelationshipsOut node; RelationshipsIn := RelationshipsIn node;
     RelationshipsAll := RelationshipsAll node; RelationshipsCreate :=
     RelationshipsCreate node; Data := Data node; Traverse := x; Property
     := Property node; Properties := Properties node; Self := Self node;
     Extensions := Extensions node; Start := Start node; End_ := End_
     node; Type_ := Type_ node; Indexed := Indexed node; Length := Length
     node; Nodes := Nodes node; TRelationships := TRelationships node |}.

Definition set_Property (x : string) (node : NeoTemplate) : NeoTemplate :=
  {| ID := ID node; Relationships := Relationships node; RelationshipsOut
     := RelationshipsOut node; RelationshipsIn := RelationshipsIn node;
     RelationshipsAll := RelationshipsAll node; RelationshipsCreate :=
     RelationshipsCreate node; Data := Data node; Traverse := Traverse
     node; Property := x; Properties := Properties node; Self := Self
     node; Extensions := Extensions node; Start := Start node; End_ :=
     End_ node; Type_ := Type_ node; Indexed := Indexed node; Length :=
     Length node; Nodes := Nodes node; TRelationships := TRelationships
     node |}.

Definition set_Properties (x : string) (node : NeoTemplate) : NeoTemplate :=
  {| ID := ID node; Relationships := Relationships node; RelationshipsOut
     := RelationshipsOut node; RelationshipsIn := RelationshipsIn node;
     RelationshipsAll := RelationshipsAll node; RelationshipsCreate :=
     RelationshipsCreate node; Data := Data node; Traverse := Traverse
     node; Property := Property node; Properties := x; Self := Self node;
     Extensions := Extensions node; Start := Start node; End_ := End_
     node; Type_ := Type_ node; Indexed := Indexed node; Length := Length
     node; Nodes := Nodes node; TRelationships := TRelationships node |}.

Definition set_Self (x : string) (node : NeoTemplate) : NeoTemplate :=
  {| ID := ID node; Relationships := Relationships node; RelationshipsOut
     := RelationshipsOut node; RelationshipsIn := RelationshipsIn node;
     RelationshipsAll := RelationshipsAll node; RelationshipsCreate :=
     RelationshipsCreate node; Data := Data node; Traverse := Traverse
     node; Property := Property node; Properties := Properties node; Self
     := x; Extensions := Extensions node; Start := Start node; End_ :=
     End_ node; Type_ := Type_ node; Indexed := Indexed node; Length :=
     Length node; Nodes := Nodes node; TRelationships := TRelationships
     node |}.

Definition set_Extensions (x : option (gmap string value)) (node : NeoTemplate) : NeoTemplate :=
  {| ID := ID node; Relationships := Relationships node; RelationshipsOut
     := RelationshipsOut node; RelationshipsIn := RelationshipsIn node;
     RelationshipsAll := RelationshipsAll node; RelationshipsCreate :=
     RelationshipsCreate node; Data := Data node; Traverse := Traverse
     node; Property := Property node; Properties := Properties node; Self
     := Self node; Extensions := x; Start := Start node; End_ := End_
     node; Type_ := Type_ node; Indexed := Indexed node; Length := Length
     node; Nodes := Nodes node; TRelationships := TRelationships node |}.

Definition set_Start (x : string) (node : NeoTemplate) : NeoTemplate :=
  {| ID := ID node; Relationships := Relationships node; RelationshipsOut
     := RelationshipsOut node; RelationshipsIn := RelationshipsIn node;
     RelationshipsAll := RelationshipsAll node; RelationshipsCreate :=
     RelationshipsCreate node; Data := Data node; Traverse := Traverse
     node; Property := Property node; Properties := Properties node; Self
     := Self node; Extensions := Extensions node; Start := x; End_ := End_
     node; Type_ := Type_ node; Indexed := Indexed node; Length := Length
     node; Nodes := Nodes node; TRelationships := TRelationships node |}.

Definition set_End_ (x : string) (node : NeoTemplate) : NeoTemplate :=
  {| ID := ID node; Relationships := Relationships node; RelationshipsOut
     := RelationshipsOut node; RelationshipsIn := RelationshipsIn node;
     RelationshipsAll := RelationshipsAll node; RelationshipsCreate :=
     RelationshipsCreate node; Data := Data node; Traverse := Traverse
     node; Property := Property node; Properties := Properties node; Self
     := Self node; Extensions := Extensions node; Start := Start node;
     End_ := x; Type_ := Type_ node; Indexed := Indexed node; Length :=
     Length node; Nodes := Nodes node; TRelationships := TRelationships
     node |}.

Definition set_Type_ (x : string) (node : NeoTemplate) : NeoTemplate :=
  {| ID := ID node; Relationships := Relationships node; RelationshipsOut
     := RelationshipsOut node; RelationshipsIn := RelationshipsIn node;
     RelationshipsAll := RelationshipsAll node; RelationshipsCreate :=
     RelationshipsCreate node; Data := Data node; Traverse := Traverse
     node; Property := Property node; Properties := Properties node; Self
     := Self node; Extensions := Extensions node; Start := Start node;
     End_ := End_ node; Type_ := x; Indexed := Indexed node; Length :=
     Length node; Nodes := Nodes node; TRelationships := TRelationships
     node |}.

Definition set_Indexed (x : string) (node : NeoTemplate) : NeoTemplate :=
  {| ID := ID node; Relationships := Relationships node; RelationshipsOut
     := RelationshipsOut node; RelationshipsIn := RelationshipsIn node;
     RelationshipsAll := RelationshipsAll node; RelationshipsCreate :=
     RelationshipsCreate node; Data := Data node; Traverse := Traverse
     node; Property := Property node; Properties := Properties node; Self
     := Self node; Extensions := Extensions node; Start := Start node;
     End_ := End_ node; Type_ := Type_ node; Indexed := x; Length :=
     Length node; Nodes := Nodes node; TRelationships := TRelationships
     node |}.

Definition set_Length (x : string) (node : NeoTemplate) : NeoTemplate :=
  {| ID := ID node; Relationships := Relationships node; RelationshipsOut
     := RelationshipsOut node; RelationshipsIn := RelationshipsIn node;
     RelationshipsAll := RelationshipsAll node; RelationshipsCreate :=
     RelationshipsCreate node; Data := Data node; Traverse := Traverse
     node; Property := Property node; Properties := Properties node; Self
     := Self node; Extensions := Extensions node; Start := Start node;
     End_ := End_ node; Type_ := Type_ node; Indexed := Indexed node;
     Length := x; Nodes := Nodes node; TRelationships := TRelationships
     node |}.

Definition set_Nodes (x : option (list value)) (node : NeoTemplate) : NeoTemplate :=
  {| ID := ID node; Relationships := Relationships node; RelationshipsOut
     := RelationshipsOut node; RelationshipsIn := RelationshipsIn node;
     RelationshipsAll := RelationshipsAll node; RelationshipsCreate :=
     RelationshipsCreate node; Data := Data node; Traverse := Traverse
     node; Property := Property node; Properties := Properties node; Self
     := Self node; Extensions := Extensions node; Start := Start node;
     End_ := End_ node; Type_ := Type_ node; Indexed := Indexed node;
     Length := Length node; Nodes := x; TRelationships := TRelationships
     node |}.

Definition set_TRelationships (x : option (list value)) (node : NeoTemplate) : NeoTemplate :=
  {| ID := ID node; Relationships := Relationships node; RelationshipsOut
     := RelationshipsOut node; RelationshipsIn := RelationshipsIn node;
     RelationshipsAll := RelationshipsAll node; RelationshipsCreate :=
     RelationshipsCreate node; Data := Data node; Traverse := Traverse
     node; Property := Property node; Properties := Properties node; Self
     := Self node; Extensions := Extensions node; Start := Start node;
     End_ := End_ node; Type_ := Type_ node; Indexed := Indexed node;
     Length := Length node; Nodes := Nodes node; TRelationships := x |}.

(** ** What the client takes from outside the repository *)

(** An HTTP request as [send] issues it, and the part of the response that
    [send] reads. *)
Inductive Verb : Type := GET | POST | PUT | DELETE.

Record Request : Type := mkRequest {
  reqVerb : Verb;
  reqURL : string;
  reqBody : string;
  reqContentType : option string
}.

Record Response : Type := mkResponse {
  respStatusCode : Z;
  respBody : string
}.

(** The library functions whose full definition lies outside this
    repository, and the remote server.
    - [json_decode s] is the Go value that encoding/json reads from the
      text [s] into an [interface{}], [None] when [s] is not JSON;
    - [json_Marshal data] is [json.Marshal] on a [map[string]string];
    - [strconv_Quote] is [strconv.Quote], which returns a string literal
      between double quotes;
    - [http_Do earlier req] is the outcome of issuing [req] after the
      requests [earlier] (oldest first): an error of the transport (also
      when the request cannot be built or the body cannot be read) or the
      response;
    - [range_order data] is the order in which a [range] statement visits
      the entries of the map [data], which Go leaves unspecified: some
      arrangement of its entries. *)
Class Env : Type := {
  json_decode : string -> option value;
  json_Marshal : gmap string string -> result string;
  strconv_Quote : string -> string;
  strconv_Quote_quoted : forall s, exists inner, strconv_Quote s = quoted inner;
  http_Do : list Request -> Request -> result Response;
  range_order : gmap string string -> list (string * string);
  range_order_perm : forall data, range_order data ≡ₚ map_to_list data
}.

(** ** The record decoder (neo4j.go, lines 656-766) *)

(** The body of the loop [for k, v := range template] of [unmarshalNode]
    for one entry: the type assertions on [v] in the order of the source
    (object, then array, then string) and the [switch k] under each. A
    value of any other type leaves [node] as it is. Only the key [self]
    can return an error. *)
Definition unmarshalNodeEntry (k : string) (v : value) (node : NeoTemplate)
  : result NeoTemplate :=
  match v with
  | Map vv =>
      if String.eqb k "data" then Ok (set_Data (Some vv) node)
      else if String.eqb k "extensions" then Ok (set_Extensions (Some vv) node)
      else Ok node
  | Slice vv =>
      if String.eqb k "nodes" then Ok (set_Nodes (Some vv) node)
      else if String.eqb k "relationships"
      then Ok (set_TRelationships (Some vv) node)
      else Ok node
  | Str data =>
      if String.eqb k "self" then
        let node := set_Self data node in
        let selfSlice := strings.Split (Self node) "/" in
        match strconv.ParseUint (last_element selfSlice) 0 with
        | Err atouiErr => Err atouiErr
        | Ok id => Ok (set_ID id node)
        end
      else if String.eqb k "traverse" then Ok (set_Traverse data node)
      else if String.eqb k "property" then Ok (set_Property data node)
      else if String.eqb k "properties" then Ok (set_Properties data node)
      else if String.eqb k "outgoing_relationships"
      then Ok (set_RelationshipsOut data node)
      else if String.eqb k "incoming_relationships"
      then Ok (set_RelationshipsIn data node)
      else if String.eqb k "all_relationships"
      then Ok (set_RelationshipsAll data node)
      else if String.eqb k "create_relationship"
      then Ok (set_RelationshipsCreate data node)
      else if String.eqb k "start" then Ok (set_Start data node)
      else if String.eqb k "end" then Ok (set_End_ data node)
      else if String.eqb k "type" then Ok (set_Type_ data node)
      else if String.eqb k "length" then Ok (set_Length data node)
      else if String.eqb k "indexed" then Ok (set_Indexed data node)
      else Ok node
  | _ => Ok node
  end.

(** The loop of [unmarshalNode] over the entries in the order [entries] in
    which [range] visits them; an error returns at once. *)
Fixpoint unmarshalNodeRange (entries : list (string * value))
  (node : NeoTemplate) : result NeoTemplate :=
  match entries with
  | [] => Ok node
  | (k, v) :: entries' =>
      match unmarshalNodeEntry k v node with
      | Err e => Err e
      | Ok node' => unmarshalNodeRange entries' node'
      end
  end.

(** [unmarshalNode(template)]. Go visits the entries of a map in an
    unspecified order; [map_to_list] is one such order, and
    [unmarshalNodeRange_order] below shows that every other order gives the
    same result. *)
Definition unmarshalNode (template : gmap string value) : result NeoTemplate :=
  unmarshalNodeRange (map_to_list template) new_NeoTemplate.

(** The loop [for _, v := range templateSet] of [unmarshal]. *)
Fixpoint unmarshalRange (templateSet : list (gmap string value))
  (dataSet : gmap Z NeoTemplate) : result (gmap Z NeoTemplate) :=
  match templateSet with
  | [] => Ok dataSet
  | v :: templateSet' =>
      match unmarshalNode v with
      | Err e => Err e
      | Ok data =>
          unmarshalRange templateSet'
            (<[Z.of_nat (size dataSet) := data]> dataSet)
      end
  end.

Section Decoder.
Context `{Env}.

(** [json.Unmarshal([]byte(s), &templateNode)] for a nil
    [templateNode map[string]interface{}]: a JSON object fills the map,
    null leaves it nil (no entries), any other JSON value is a type
    error. *)
Definition Unmarshal_templateNode (s : string) : result (gmap string value) :=
  match json_decode s with
  | None => Err json_SyntaxError
  | Some (Map m) => Ok m
  | Some Nil => Ok ∅
  | Some _ => Err json_UnmarshalTypeError
  end.

(** One element of the array, read into a [map[string]interface{}]. *)
Definition element_map (v : value) : option (gmap string value) :=
  match v with
  | Map m => Some m
  | Nil => Some ∅
  | _ => None
  end.

(** [json.Unmarshal([]byte(s), &templateSet)] for a nil
    [templateSet []map[string]interface{}]: a JSON array whose elements
    are objects or null fills the slice in order, null leaves it nil, and
    anything else is a type error. *)
Definition Unmarshal_templateSet (s : string)
  : result (list (gmap string value)) :=
  match json_decode s with
  | None => Err json_SyntaxError
  | Some (Slice l) =>
      match mapM element_map l with
      | Some templateSet => Ok templateSet
      | None => Err json_UnmarshalTypeError
      end
  | Some Nil => Ok []
  | Some _ => Err json_UnmarshalTypeError
  end.

(** [unmarshal(s)]. *)
Definition unmarshal (s : string) : result (gmap Z NeoTemplate) :=
  match Unmarshal_templateNode s with
  | Err _ =>
      match Unmarshal_templateSet s with
      | Err err => Err err
      | Ok templateSet => unmarshalRange templateSet ∅
      end
  | Ok templateNode =>
      match unmarshalNode templateNode with
      | Err err => Err err
      | Ok template => Ok (<[0 := template]> ∅)
      end
  end.

End Decoder.

(** ** The status classifier (neo4j.go, lines 41-44 and 767-782) *)

(** The client, [Neo4j], and the classifier's [Error]. A nil [List] is
    [None]. *)
Record Neo4j : Type := mkNeo4j {
  Method : string;
  StatusCode : Z;
  URL : string
}.

Record Error : Type := mkError {
  List : option (gmap Z error);
  Code : Z
}.

(** [check]: the entry of [List] at [Code] when there is one, otherwise
    nil. *)
Definition check (this : Error) : option error :=
  match List this with
  | Some list =>
      match list !! Code this with
      | Some err => Some err
      | None => None
      end
  | None => None
  end.

(** [NewError(errorList)]: a non-nil table gets the entry for 500, and the
    client's last status code is looked up in it. *)
Definition NewError (this : Neo4j) (errorList : option (gmap Z error))
  : option error :=
  let errorList :=
    match errorList with
    | Some list => Some (<[500 := errors_New "Fatal Error 500."]> list)
    | None => None
    end in
  check {| List := errorList; Code := StatusCode this |}.

(** The operations of the client, one per exported method that classifies
    a status code. *)
Inductive Operation : Type :=
| OpGetProperty | OpGetProperties | OpSetProperty | OpCreateProperty
| OpDelProperty | OpDelNode | OpCreateNode | OpGetNode
| OpGetRelationshipsOnNode | OpSetRelationship | OpDelRelationship
| OpCreateRelationship | OpSearchIdx | OpCreateIdx | OpTraverse
| OpTraversePath.

(** The map literal [errorList] of each operation, as the source writes
    it before the call of [NewError]. *)
Definition errorList (op : Operation) : gmap Z error :=
  match op with
  | OpGetProperty | OpGetProperties =>
      <[404 := errors_New "Node or Property not found."]>
        (<[204 := errors_New "No properties found."]> ∅)
  | OpSetProperty =>
      <[404 := errors_New "Node not found."]>
        (<[400 := errors_New "Invalid data sent."]> ∅)
  | OpCreateProperty =>
      <[404 := errors_New "Node or Property not found."]>
        (<[400 := errors_New "Invalid data sent."]> ∅)
  | OpDelProperty =>
      <[404 := errors_New "Node or Property not found."]> ∅
  | OpDelNode =>
      <[404 := errors_New "Node not found."]>
        (<[409 := errors_New
             "Unable to delete node. May still have relationships."]> ∅)
  | OpCreateNode => <[400 := errors_New "Invalid data sent."]> ∅
  | OpGetNode => <[404 := errors_New "Node not found."]> ∅
  | OpGetRelationshipsOnNode => <[404 := errors_New "Node not found."]> ∅
  | OpSetRelationship =>
      <[404 := errors_New "Relationship not found."]>
        (<[400 := errors_New "Invalid data sent."]> ∅)
  | OpDelRelationship => <[404 := errors_New "Relationship not found."]> ∅
  | OpCreateRelationship =>
      <[404 := errors_New "Node or 'to' node not found."]>
        (<[400 := errors_New "Invalid data sent."]> ∅)
  | OpSearchIdx => <[400 := errors_New "Invalid data sent."]> ∅
  | OpCreateIdx => <[400 := errors_New "Invalid data sent."]> ∅
  | OpTraverse => <[404 := errors_New "Node not found."]> ∅
  | OpTraversePath =>
      <[404 := errors_New
          "No path found using current algorithm and parameters"]> ∅
  end.

(** The status classification that ends an operation:
    [this.NewError(errorList)] with the operation's table. *)
Definition classify (op : Operation) (this : Neo4j) : option error :=
  NewError this (Some (errorList op)).

(** ** The client (neo4j.go, lines 134-200, 266-284, 344-358, 603-655) *)

(** What a method of the client runs on: the client itself and the
    requests issued so far, oldest first. *)
Record State : Type := mkState {
  client : Neo4j;
  wire : list Request
}.

(** A method body: from the state to its return value and the new state,
    or to a panic. *)
Definition M (A : Type) : Type := State -> outcome (A * State).

Definition ret {A : Type} (a : A) : M A := fun st => Return (a, st).

Definition bind {A B : Type} (m : M A) (k : A -> M B) : M B :=
  fun st =>
    match m st with
    | Return (a, st') => k a st'
    | Panic msg => Panic msg
    end.

Definition panic {A : Type} (msg : string) : M A := fun _ => Panic msg.

(** The client after [this.Method = m] and after [this.StatusCode = c]. *)
Definition with_method (this : Neo4j) (m : string) : Neo4j :=
  {| Method := m; StatusCode := StatusCode this; URL := URL this |}.

Definition with_status (this : Neo4j) (c : Z) : Neo4j :=
  {| Method := Method this; StatusCode := c; URL := URL this |}.

(** Read the client; [this.Method = m]; [this.StatusCode = c]. *)
Definition get_this : M Neo4j := fun st => Return (client st, st).

Definition set_Method (m : string) : M unit :=
  fun st =>
    Return (tt, {| client := with_method (client st) m; wire := wire st |}).

Definition set_StatusCode (c : Z) : M unit :=
  fun st =>
    Return (tt, {| client := with_status (client st) c; wire := wire st |}).

Notation "'let*' x ':=' m 'in' k" := (bind m (fun x => k))
  (at level 10, x name, m at level 100, k at level 200).

(** [*node] for a pointer [node]: a nil pointer panics. *)
Definition deref {A : Type} (p : option A) : M A :=
  match p with
  | Some a => ret a
  | None => panic "invalid memory address or nil pointer dereference"
  end.

Section Client.
Context `{Env}.

(** The request that [send] builds for the method [method]: the
    [switch strings.ToLower(this.Method)]. *)
Definition build_request (method url data : string) : Request :=
  let m := strings.ToLower method in
  if String.eqb m "delete" then mkRequest DELETE url "" None
  else if String.eqb m "post"
  then mkRequest POST url data (Some "application/json")
  else if String.eqb m "put"
  then mkRequest PUT url data (Some "application/json")
  else mkRequest GET url "" None.

(** The URL that [send] uses: an empty [url] stands for the default
    path. *)
Definition request_url (this : Neo4j) (url : string) : string :=
  if Z.of_nat (String.length url) <? 1 then URL this +:+ "node" else url.

(** [send(url, data)]: issue the request; on a response, store its status
    code on the client and return its body. *)
Definition send (url data : string) : M (result string) :=
  let* this := get_this in
  let url := request_url this url in
  let req := build_request (Method this) url data in
  fun st =>
    let st' := {| client := client st; wire := wire st ++ [req] |} in
    match http_Do (wire st) req with
    | Err err => Return (Err err, st')
    | Ok resp =>
        (let* _ := set_StatusCode (respStatusCode resp) in
         ret (Ok (respBody resp))) st'
    end.

(** [GetNode(id)]: the node and the error, as the source returns them. *)
Definition GetNode (id : N) : M (option NeoTemplate * option error) :=
  if (id <? 1)%N
  then ret (None, Some (errors_New "Invalid node id specified."))
  else
    let* _ := set_Method "get" in
    let* this := get_this in
    let url := URL this +:+ "/node/" in
    let* r := send (url +:+ strconv.FormatUint id) "" in
    match r with
    | Err err => ret (None, Some err)
    | Ok body =>
        match unmarshal body with
        | Err err => ret (None, Some err)
        | Ok template =>
            let* this := get_this in
            ret (template !! 0, classify OpGetNode this)
        end
    end.

(** The loop [for k, v := range data] of [SetProperty] and
    [CreateProperty], over the entries in the order of the visit: one
    request for each, until one fails. *)
Fixpoint send_each (node : option NeoTemplate)
  (entries : list (string * string)) : M (option error) :=
  match entries with
  | [] => ret None
  | (k, v) :: entries' =>
      let k := strings.TrimSpace k in
      let* n := deref node in
      let* r := send (Properties n +:+ "/" +:+ k) (strconv_Quote v) in
      match r with
      | Err err => ret (Some err)
      | Ok _ => send_each node entries'
      end
  end.

(** The [if replace ... else ...] of both methods. *)
Definition send_properties (node : option NeoTemplate)
  (data : gmap string string) (s : string) (replace : bool)
  : M (option error) :=
  if replace then
    let* n := deref node in
    let* r := send (Properties n) s in
    match r with
    | Err err => ret (Some err)
    | Ok _ => ret None
    end
  else send_each node (range_order data).

(** [SetProperty(id, data, replace)]. *)
Definition SetProperty (id : N) (data : gmap string string) (replace : bool)
  : M (option error) :=
  let* got := GetNode id in
  let node := fst got in
  match snd got with
  | Some err => ret (Some err)
  | None =>
      let* _ := set_Method "put" in
      match json_Marshal data with
      | Err err => ret (Some err)
      | Ok s =>
          let* failed := send_properties node data s replace in
          match failed with
          | Some err => ret (Some err)
          | None =>
              let* this := get_this in
              ret (classify OpSetProperty this)
          end
      end
  end.

(** [CreateProperty(id, data, replace)]. *)
Definition CreateProperty (id : N) (data : gmap string string)
  (replace : bool) : M (option error) :=
  let* got := GetNode id in
  let node := fst got in
  match snd got with
  | Some err => ret (Some err)
  | None =>
      match json_Marshal data with
      | Err err => ret (Some err)
      | Ok s =>
          let* _ := set_Method "put" in
          let* failed := send_properties node data s replace in
          match failed with
          | Some err => ret (Some err)
          | None =>
              let* this := get_this in
              ret (classify OpCreateProperty this)
          end
      end
  end.

(** The loop [for _, i := range id] of [DelRelationship]. *)
Fixpoint delete_each (url : string) (id : list N) : M (option error) :=
  match id with
  | [] => ret None
  | i :: id' =>
      let* r := send (url +:+ strconv.FormatUint i) "" in
      match r with
      | Err err => ret (Some err)
      | Ok _ => delete_each url id'
      end
  end.

(** [DelRelationship(id...)]. *)
Definition DelRelationship (id : list N) : M (option error) :=
  let* _ := set_Method "delete" in
  let* this := get_this in
  let url := URL this +:+ "/relationship/" in
  let* failed := delete_each url id in
  match failed with
  | Some err => ret (Some err)
  | None =>
      let* this := get_this in
      ret (classify OpDelRelationship this)
  end.

End Client.

(** ** A concrete environment, to run the client on examples *)

(** A reader of JSON text, a writer of string maps, a quoting function and
    a small server. The statements below hold for every [Env]; this one
    is used to evaluate the definitions on concrete inputs. *)
Module Example.

(** The backslash. *)
Definition backslash : ascii := ascii_of_nat 92.

Definition is_ws (c : ascii) : bool :=
  let n := nat_of_ascii c in
  ((n =? 32) || (n =? 9) || (n =? 10) || (n =? 13))%nat.

Fixpoint skip_ws (s : string) : string :=
  match s with
  | String c s' => if is_ws c then skip_ws s' else s
  | EmptyString => s
  end.

(** The byte that a one-letter escape stands for. *)
Definition unescape (c : ascii) : option ascii :=
  let n := nat_of_ascii c in
  if (n =? 34)%nat then Some double_quote
  else if (n =? 92)%nat then Some backslash
  else if Ascii.eqb c "/" then Some "/"%char
  else if Ascii.eqb c "b" then Some (ascii_of_nat 8)
  else if Ascii.eqb c "f" then Some (ascii_of_nat 12)
  else if Ascii.eqb c "n" then Some (ascii_of_nat 10)
  else if Ascii.eqb c "r" then Some (ascii_of_nat 13)
  else if Ascii.eqb c "t" then Some (ascii_of_nat 9)
  else None.

Definition cons_fst (c : ascii) (r : option (string * string))
  : option (string * string) :=
  match r with
  | Some (s, rest) => Some (String c s, rest)
  | None => None
  end.

(** A string literal after its opening quote: its content and the text
    after the closing quote. Escapes with a hexadecimal code point are
    not read. *)
Fixpoint read_string (s : string) : option (string * string) :=
  match s with
  | EmptyString => None
  | String c s' =>
      if Ascii.eqb c double_quote then Some (EmptyString, s')
      else if Ascii.eqb c backslash then
        match s' with
        | String e s'' =>
            match unescape e with
            | Some b => cons_fst b (read_string s'')
            | None => None
            end
        | EmptyString => None
        end
      else if (nat_of_ascii c <? 32)%nat then None
      else cons_fst c (read_string s')
  end.

Definition is_digit (c : ascii) : bool :=
  match strconv.digit c with Some _ => true | None => false end.

(** The longest prefix of digits, and the rest. *)
Fixpoint read_digits (s : string) : string * string :=
  match s with
  | String c s' =>
      if is_digit c
      then let '(d, rest) := read_digits s' in (String c d, rest)
      else (EmptyString, s)
  | EmptyString => (EmptyString, s)
  end.

(** A JSON number: sign, integer part without a leading zero, fraction,
    exponent. *)
Definition read_number (s : string) : option (string * string) :=
  let '(sign, s1) :=
    match s with
    | String "-" r => ("-", r)
    | _ => (EmptyString, s)
    end in
  let '(int, s2) := read_digits s1 in
  match int with
  | EmptyString => None
  | String "0" (String _ _) => None
  | _ =>
      let frac :=
        match s2 with
        | String "." r =>
            let '(d, r') := read_digits r in
            match d with
            | EmptyString => None
            | _ => Some ("." +:+ d, r')
            end
        | _ => Some (EmptyString, s2)
        end in
      match frac with
      | None => None
      | Some (f, s3) =>
          let exp :=
            match s3 with
            | String e r =>
                if Ascii.eqb e "e" || Ascii.eqb e "E" then
                  let '(sg, r1) :=
                    match r with
                    | String "+" r' => ("+", r')
                    | String "-" r' => ("-", r')
                    | _ => (EmptyString, r)
                    end in
                  let '(d, r2) := read_digits r1 in
                  match d with
                  | EmptyString => None
                  | _ => Some (String e sg +:+ d, r2)
                  end
                else Some (EmptyString, s3)
            | EmptyString => Some (EmptyString, s3)
            end in
          match exp with
          | None => None
          | Some (x, s4) => Some (sign +:+ int +:+ f +:+ x, s4)
          end
      end
  end.

(** A JSON value at the start of [s] (after white space), and the text
    after it. The members of an object go into the map in order, a later
    one replacing an earlier one of the same key, as in Go. [n] bounds
    the number of calls. *)
Fixpoint read_value (n : nat) (s : string) : option (value * string) :=
  match n with
  | O => None
  | S n' =>
      match skip_ws s with
      | String "{" r =>
          match skip_ws r with
          | String "}" r' => Some (Map ∅, r')
          | _ => read_members n' r ∅
          end
      | String "[" r =>
          match skip_ws r with
          | String "]" r' => Some (Slice [], r')
          | _ => read_elements n' r []
          end
      | String c r as s0 =>
          if Ascii.eqb c double_quote then
            match read_string r with
            | Some (str, r') => Some (Str str, r')
            | None => None
            end
          else
            match strings.strip_prefix "true" s0, strings.strip_prefix "false" s0,
                  strings.strip_prefix "null" s0 with
            | Some r', _, _ => Some (Bool true, r')
            | _, Some r', _ => Some (Bool false, r')
            | _, _, Some r' => Some (Nil, r')
            | _, _, _ =>
                match read_number s0 with
                | Some (lit, r') => Some (Float64 lit, r')
                | None => None
                end
            end
      | EmptyString => None
      end
  end
with read_members (n : nat) (s : string) (acc : gmap string value)
  : option (value * string) :=
  match n with
  | O => None
  | S n' =>
      match skip_ws s with
      | String c r =>
          if Ascii.eqb c double_quote then
            match read_string r with
            | Some (k, r1) =>
                match skip_ws r1 with
                | String ":" r2 =>
                    match read_value n' r2 with
                    | Some (v, r3) =>
                        match skip_ws r3 with
                        | String "," r4 => read_members n' r4 (<[k := v]> acc)
                        | String "}" r4 => Some (Map (<[k := v]> acc), r4)
                        | _ => None
                        end
                    | None => None
                    end
                | _ => None
                end
            | None => None
            end
          else None
      | EmptyString => None
      end
  end
with read_elements (n : nat) (s : string) (acc : list value)
  : option (value * string) :=
  match n with
  | O => None
  | S n' =>
      match read_value n' s with
      | Some (v, r) =>
          match skip_ws r with
          | String "," r' => read_elements n' r' (acc ++ [v])
          | String "]" r' => Some (Slice (acc ++ [v]), r')
          | _ => None
          end
      | None => None
      end
  end.

(** The value of a whole JSON text. *)
Definition decode (s : string) : option value :=
  match read_value (S (String.length s)) s with
  | Some (v, rest) =>
      match skip_ws rest with
      | EmptyString => Some v
      | _ => None
      end
  | None => None
  end.

(** A string literal for [s]: quotes around it, a backslash before each
    quote and backslash in it. *)
Fixpoint escape_quotes (s : string) : string :=
  match s with
  | EmptyString => EmptyString
  | String c s' =>
      if Ascii.eqb c double_quote || Ascii.eqb c backslash
      then String backslash (String c (escape_quotes s'))
      else String c (escape_quotes s')
  end.

Definition Quote (s : string) : string := quoted (escape_quotes s).

(** The members of an object, separated by commas. *)
Fixpoint members (l : list (string * string)) : string :=
  match l with
  | [] => EmptyString
  | [(k, v)] => Quote k +:+ ":" +:+ Quote v
  | (k, v) :: l' => Quote k +:+ ":" +:+ Quote v +:+ "," +:+ members l'
  end.

Definition Marshal (data : gmap string string) : result string :=
  Ok ("{" +:+ members (map_to_list data) +:+ "}").

(** The body of a node, as the server describes it: its own link and
    the link of its properties. *)
Definition node_body (self : string) : string :=
  "{" +:+ quoted "self" +:+ ":" +:+ quoted self +:+ ","
      +:+ quoted "properties" +:+ ":" +:+ quoted (self +:+ "/properties")
      +:+ "}".

(** A server that answers every GET with the description of node 7 and
    status 200, and everything else with status 204 and no body. *)
Definition server (earlier : list Request) (req : Request) : result Response :=
  match reqVerb req with
  | GET => Ok (mkResponse 200 (node_body "http://localhost:7474/db/data/node/7"))
  | _ => Ok (mkResponse 204 EmptyString)
  end.

#[global] Instance env : Env := {|
  json_decode := decode;
  json_Marshal := Marshal;
  strconv_Quote := Quote;
  strconv_Quote_quoted := fun s => ex_intro _ (escape_quotes s) eq_refl;
  http_Do := server;
  range_order := map_to_list;
  range_order_perm := fun data => Permutation_refl (map_to_list data)
|}.

(** A client that has not yet issued a request. *)
Definition fresh : State :=
  {| client := {| Method := ""; StatusCode := 0;
                  URL := "http://localhost:7474/db/data" |};
     wire := [] |}.

End Example.

(** ** The other operations of the client
       (neo4j.go, lines 70-129, 201-262, 285-339, 359-545, 593-602) *)

(** [strings.ToLower(s)], exact whenever the result in Go is ASCII: the
    ASCII capitals, and the two code points outside ASCII whose lower case
    is an ASCII letter (U+0130, bytes 196 176, gives i; U+212A, bytes
    226 132 170, gives k). Every other byte stays as it is, so the result
    holds a byte above 127 exactly when the result in Go does, and a
    comparison with an ASCII word gives the answer of Go. *)
Fixpoint strings_ToLower (s : string) : string :=
  match s with
  | EmptyString => EmptyString
  | String c s' =>
      match strings.strip_prefix (strings.of_bytes [196; 176]%nat) s,
            strings.strip_prefix (strings.of_bytes [226; 132; 170]%nat) s with
      | Some _, _ =>
          match s' with
          | String _ r => String "i" (strings_ToLower r)
          | EmptyString => EmptyString
          end
      | None, Some _ =>
          match s' with
          | String _ (String _ r) => String "k" (strings_ToLower r)
          | _ => EmptyString
          end
      | None, None => String (strings.lower_byte c) (strings_ToLower s')
      end
  end.

(** [strings.Replace(s, old, new, 1)]: the first occurrence of [old] in
    [s] replaced by [new]. *)
Fixpoint strings_Replace (s old new : string) : string :=
  match strings.strip_prefix old s with
  | Some rest => new +:+ rest
  | None =>
      match s with
      | EmptyString => EmptyString
      | String c s' => String c (strings_Replace s' old new)
      end
  end.

(** The values that the client stores in the [map[string]interface{}] of
    a request body: a string, an [int], a [uint], or a
    [map[string]string], which may be nil. *)
Inductive body_value : Type :=
| BString (s : string)
| BInt (i : Z)
| BUint (n : N)
| BMap (m : option (gmap string string)).

(** What these operations take from encoding/json beyond [Env]:
    [json.Marshal] on the map of a request body, and [json.Compact]. *)
Class EnvBody : Type := {
  json_Marshal_body : gmap string body_value -> result string;
  json_Compact : string -> result string
}.

(** A panic of a function without state, inside a method. *)
Definition lift_outcome {A : Type} (o : outcome A) : M A :=
  match o with
  | Return a => ret a
  | Panic msg => panic msg
  end.

(** [len(s) < 1]. *)
Definition is_empty (s : string) : bool := Z.of_nat (String.length s) <? 1.

(** The switch on the lowered [returnType] in [Traverse]: one of the four
    allowed words, anything else becomes [node]. *)
Definition allowed_returnType (returnType : string) : string :=
  let returnType := strings_ToLower returnType in
  if String.eqb returnType "relationship" then returnType
  else if String.eqb returnType "path" then returnType
  else if String.eqb returnType "fullpath" then returnType
  else if String.eqb returnType "node" then returnType
  else "node".

(** The choice between the relationship index and the node index in
    [SearchIdx] and [CreateIdx]. *)
Definition index_kind (idxType : string) : string :=
  if String.eqb (strings_ToLower idxType) "relationship"
  then "relationship" else "node".

Section Operations.
Context `{Env} `{EnvBody}.

(** [NewNeo4j(u)], run after the requests [earlier]: the error of the
    probe, and the new client with the wire. *)
Definition NewNeo4j (u : string) (earlier : list Request)
  : outcome (option error * State) :=
  let n := {| Method := ""; StatusCode := 0; URL := "" |} in
  let u := if is_empty u then "http://127.0.0.1:7474/db/data" else u in
  let n := {| Method := Method n; StatusCode := StatusCode n; URL := u |} in
  match send u "" {| client := n; wire := earlier |} with
  | Return (Ok _, st) => Return (None, st)
  | Return (Err err, st) => Return (Some err, st)
  | Panic msg => Panic msg
  end.

(** [GetProperty(id, name)]. *)
Definition GetProperty (id : N) (name : string) : M (string * option error) :=
  if is_empty name
  then ret ("", Some (errors_New "Property name must be at least 1 character."))
  else
    let* got := GetNode id in
    let node := fst got in
    match snd got with
    | Some err => ret ("", Some err)
    | None =>
        let* _ := set_Method "get" in
        let* n := deref node in
        let* r := send (Properties n +:+ "/" +:+ name) "" in
        match r with
        | Err err => ret ("", Some err)
        | Ok body =>
            let* this := get_this in
            ret (body, classify OpGetProperty this)
        end
    end.

(** [pack(name, data)]. *)
Definition pack (name data : string) : result string :=
  json_Compact
    ("{ " +:+ quoted name +:+ ": " +:+ data +:+ " } ").

(** [GetProperties(id)]. *)
Definition GetProperties (id : N) : M (option NeoTemplate * option error) :=
  let* got := GetNode id in
  let node := fst got in
  match snd got with
  | Some err => ret (None, Some err)
  | None =>
      let* _ := set_Method "get" in
      let* n := deref node in
      let* r := send (Properties n) "" in
      match r with
      | Err err => ret (None, Some err)
      | Ok body =>
          match pack "data" body with
          | Err err => ret (None, Some err)
          | Ok jsonData =>
              match unmarshal jsonData with
              | Err err => ret (None, Some err)
              | Ok template =>
                  let* this := get_this in
                  ret (template !! 0, classify OpGetProperties this)
              end
          end
      end
  end.

(** [DelProperty(id, s)]. *)
Definition DelProperty (id : N) (s : string) : M (option error) :=
  let* got := GetNode id in
  let node := fst got in
  match snd got with
  | Some err => ret (Some err)
  | None =>
      let* _ := set_Method "delete" in
      let* n := deref node in
      let* r := send (Properties n +:+ "/" +:+ s) "" in
      match r with
      | Err err => ret (Some err)
      | Ok _ =>
          let* this := get_this in
          ret (classify OpDelProperty this)
      end
  end.

(** [DelNode(id)]. *)
Definition DelNode (id : N) : M (option error) :=
  let* got := GetNode id in
  let node := fst got in
  match snd got with
  | Some err => ret (Some err)
  | None =>
      let* _ := set_Method "delete" in
      let* n := deref node in
      let* r := send (Self n) "" in
      match r with
      | Err err => ret (Some err)
      | Ok _ =>
          let* this := get_this in
          ret (classify OpDelNode this)
      end
  end.

(** [CreateNode(data)]. *)
Definition CreateNode (data : gmap string string)
  : M (option NeoTemplate * option error) :=
  match json_Marshal data with
  | Err _ => ret (None, Some (errors_New "Unable to Marshal Json data"))
  | Ok s =>
      let* _ := set_Method "post" in
      let* this := get_this in
      let url := URL this +:+ "/node" in
      let* r := send url s in
      match r with
      | Err err => ret (None, Some err)
      | Ok body =>
          match unmarshal body with
          | Err err => ret (None, Some err)
          | Ok template =>
              let* this := get_this in
              ret (template !! 0, classify OpCreateNode this)
          end
      end
  end.

(** The [switch direction] of [GetRelationshipsOnNode]. *)
Definition relationships_url (node : NeoTemplate) (direction : string)
  : string :=
  let direction := strings_ToLower direction in
  if String.eqb direction "in" then RelationshipsIn node
  else if String.eqb direction "out" then RelationshipsOut node
  else RelationshipsAll node.

(** [GetRelationshipsOnNode(id, name, direction)]: the result set (nil,
    [None], together with an error that stops the method) and the
    error. *)
Definition GetRelationshipsOnNode (id : N) (name direction : string)
  : M (option (gmap Z NeoTemplate) * option error) :=
  let* got := GetNode id in
  let node := fst got in
  match snd got with
  | Some err => ret (None, Some err)
  | None =>
      let* _ := set_Method "get" in
      let* n := deref node in
      let url := relationships_url n direction in
      let* r := send (url +:+ "/" +:+ name) "" in
      match r with
      | Err err => ret (None, Some err)
      | Ok body =>
          match unmarshal body with
          | Err err => ret (None, Some err)
          | Ok template =>
              let* this := get_this in
              ret (Some template, classify OpGetRelationshipsOnNode this)
          end
      end
  end.

(** [SetRelationship(id, data)]. *)
Definition SetRelationship (id : N) (data : gmap string string)
  : M (option error) :=
  let* _ := set_Method "put" in
  let* this := get_this in
  let url := URL this +:+ "/relationship/" in
  match json_Marshal data with
  | Err _ => ret (Some (errors_New "Unable to Marshal Json data"))
  | Ok s =>
      let* r := send ((url +:+ strconv.FormatUint id) +:+ "/properties") s in
      match r with
      | Err err => ret (Some err)
      | Ok _ =>
          let* this := get_this in
          ret (classify OpSetRelationship this)
      end
  end.

(** [CreateRelationship(src, dst, data, rType)]. *)
Definition CreateRelationship (src dst : N)
  (data : option (gmap string string)) (rType : string) : M (option error) :=
  let* got := GetNode dst in
  let dstNode := fst got in
  match snd got with
  | Some err => ret (Some err)
  | None =>
      let* got := GetNode src in
      let srcNode := fst got in
      match snd got with
      | Some err => ret (Some err)
      | None =>
          let* d := deref dstNode in
          let j : gmap string body_value := ∅ in
          let j := <["to" := BString (Self d)]> j in
          let j := <["type" := BString rType]> j in
          let j := <["data" := BMap (Some ∅)]> j in
          let j := <["data" := BMap data]> j in
          match json_Marshal_body j with
          | Err _ => ret (Some (errors_New "Unable to Marshal Json data"))
          | Ok s =>
              let* _ := set_Method "post" in
              let* sn := deref srcNode in
              let* r := send (RelationshipsCreate sn) s in
              match r with
              | Err err => ret (Some err)
              | Ok _ =>
                  let* this := get_this in
                  ret (classify OpCreateRelationship this)
              end
          end
      end
  end.

(** The URL that [SearchIdx] builds. [EscapeString] may panic, as far as
    its type goes. *)
Definition search_url (this : Neo4j) (key value query cat idxType : string)
  : outcome string :=
  let url := URL this +:+ "/index/" in
  let url := url +:+ index_kind idxType in
  let url := url +:+ ("/" +:+ cat) in
  if 0 <? Z.of_nat (String.length query) then
    match EscapeString query with
    | Return escaped => Return (url +:+ ("?query=" +:+ escaped))
    | Panic msg => Panic msg
    end
  else
    match EscapeString value with
    | Return escaped =>
        Return (url +:+ (("/" +:+ strings.TrimSpace key) +:+ "/") +:+ escaped)
    | Panic msg => Panic msg
    end.

(** [SearchIdx(key, value, query, cat, idxType)]. *)
Definition SearchIdx (key value query cat idxType : string)
  : M (option (gmap Z NeoTemplate) * option error) :=
  let* this := get_this in
  let* url := lift_outcome (search_url this key value query cat idxType) in
  let* _ := set_Method "get" in
  let* r := send url "" in
  match r with
  | Err err => ret (None, Some err)
  | Ok body =>
      match unmarshal body with
      | Err err => ret (None, Some err)
      | Ok template =>
          let* this := get_this in
          ret (Some template, classify OpSearchIdx this)
      end
  end.

(** The URL that [CreateIdx] builds: an empty [cat] replaces [idxType],
    not [cat]. *)
Definition create_idx_url (this : Neo4j) (key value cat idxType : string)
  : string :=
  let idxType := if is_empty cat then "idx_nodes" else idxType in
  let url := URL this +:+ "/index/" in
  let url := url +:+ index_kind idxType in
  url +:+ ((((((("/" +:+ cat) +:+ "/") +:+ key) +:+ "/") +:+ value) +:+ "/")).

(** [CreateIdx(id, key, value, cat, idxType)]. The error of [send] is
    assigned and never tested. *)
Definition CreateIdx (id : N) (key value cat idxType : string)
  : M (option error) :=
  let* got := GetNode id in
  let template := fst got in
  match snd got with
  | Some err => ret (Some err)
  | None =>
      let* t := deref template in
      let self := Self t in
      let* this := get_this in
      let url := create_idx_url this key value cat idxType in
      let* _ := set_Method "post" in
      let* _ := send url (strconv_Quote self) in
      let* this := get_this in
      ret (classify OpCreateIdx this)
  end.

(** The map [j] of [Traverse]. *)
Definition traverse_body (order uniqueness : string) (depth : Z)
  (relationships prune filter : option (gmap string string))
  : gmap string body_value :=
  let j : gmap string body_value := ∅ in
  let j := <["order" := BString order]> j in
  let j := <["max depth" := BInt depth]> j in
  let j := <["uniqueness" := BString uniqueness]> j in
  let j :=
    match relationships with
    | Some _ =>
        <["relationships" := BMap relationships]>
          (<["relationships" := BMap (Some ∅)]> j)
    | None => j
    end in
  let j :=
    match prune with
    | Some _ =>
        <["prune evaluator" := BMap prune]>
          (<["prune evaluator" := BMap (Some ∅)]> j)
    | None => j
    end in
  match filter with
  | Some _ =>
      <["return filter" := BMap filter]>
        (<["return filter" := BMap (Some ∅)]> j)
  | None => j
  end.

(** [Traverse(id, returnType, order, uniqueness, relationships, depth,
    prune, filter)]; the name [Traverse] is the field of [NeoTemplate]
    here. *)
Definition TraverseNode (id : N) (returnType order uniqueness : string)
  (relationships : option (gmap string string)) (depth : Z)
  (prune filter : option (gmap string string))
  : M (option (gmap Z NeoTemplate) * option error) :=
  let* got := GetNode id in
  let node := fst got in
  match snd got with
  | Some err => ret (None, Some err)
  | None =>
      let j := traverse_body order uniqueness depth relationships prune filter in
      match json_Marshal_body j with
      | Err _ => ret (None, Some (errors_New "Unable to Marshal Json data"))
      | Ok s =>
          let* _ := set_Method "post" in
          let returnType := allowed_returnType returnType in
          let* n := deref node in
          let url := strings_Replace (Traverse n) "{returnType}" returnType in
          let* r := send url s in
          match r with
          | Err err => ret (None, Some err)
          | Ok body =>
              match unmarshal body with
              | Err err => ret (None, Some err)
              | Ok template =>
                  let* this := get_this in
                  ret (Some template, classify OpTraverse this)
              end
          end
      end
  end.

(** [TraversePath(src, dst, relationships, depth, algo, paths)]. *)
Definition TraversePath (src dst : N)
  (relationships : option (gmap string string)) (depth : N) (algo : string)
  (paths : bool) : M (option (gmap Z NeoTemplate) * option error) :=
  let* got := GetNode dst in
  let dstNode := fst got in
  match snd got with
  | Some err => ret (None, Some err)
  | None =>
      let* got := GetNode src in
      let srcNode := fst got in
      match snd got with
      | Some err => ret (None, Some err)
      | None =>
          let* d := deref dstNode in
          let j : gmap string body_value := ∅ in
          let j := <["to" := BString (Self d)]> j in
          let j := <["max depth" := BUint depth]> j in
          let j := <["algorithm" := BString algo]> j in
          let j := <["relationships" := BMap (Some ∅)]> j in
          let j := <["relationships" := BMap relationships]> j in
          match json_Marshal_body j with
          | Err _ => ret (None, Some (errors_New "Unable to Marshal Json data"))
          | Ok s =>
              let* _ := set_Method "post" in
              let* sn := deref srcNode in
              let url := Self sn +:+ (if paths then "/paths" else "/path") in
              let* r := send url s in
              match r with
              | Err err => ret (None, Some err)
              | Ok body =>
                  match unmarshal body with
                  | Err err => ret (None, Some err)
                  | Ok template =>
                      let* this := get_this in
                      ret (Some template, classify OpTraversePath this)
                  end
              end
          end
      end
  end.

End Operations.

(** ** More concrete environments *)

(** Environments that differ from [Example.env] in the server only, a
    server that follows a script, and an instance of [EnvBody]. *)
Module Scripted.

(** [Example.env] with the server [server]. *)
Definition env_of (server : list Request -> Request -> result Response)
  : Env := {|
  json_decode := Example.decode;
  json_Marshal := Example.Marshal;
  strconv_Quote := Example.Quote;
  strconv_Quote_quoted :=
    fun s => ex_intro _ (Example.escape_quotes s) eq_refl;
  http_Do := server;
  range_order := map_to_list;
  range_order_perm := fun data => Permutation_refl (map_to_list data)
|}.

(** The server that answers the request number i with the i-th of
    [answers], and refuses the connection when they have run out. *)
Definition server (answers : list (result Response))
  (earlier : list Request) (req : Request) : result Response :=
  match answers !! length earlier with
  | Some answer => answer
  | None => Err (http_Error "connection refused")
  end.

(** The answer with status [code] and body [body]. *)
Definition answer (code : Z) (body : string) : result Response :=
  Ok (mkResponse code body).


(** The environment of the server that follows [answers]. *)
Definition env (answers : list (result Response)) : Env :=
  env_of (server answers).

(** The text of one value of a request body. *)
Definition value_text (v : body_value) : string :=
  match v with
  | BString s => Example.Quote s
  | BInt i =>
      (if i <? 0 then "-" else "") +:+ strconv.FormatUint (Z.abs_N i)
  | BUint n => strconv.FormatUint n
  | BMap None => "null"
  | BMap (Some m) => "{" +:+ Example.members (map_to_list m) +:+ "}"
  end.

Fixpoint body_members (l : list (string * body_value)) : string :=
  match l with
  | [] => EmptyString
  | [(k, v)] => Example.Quote k +:+ ":" +:+ value_text v
  | (k, v) :: l' =>
      Example.Quote k +:+ ":" +:+ value_text v +:+ "," +:+ body_members l'
  end.

Definition Marshal_body (j : gmap string body_value) : result string :=
  Ok ("{" +:+ body_members (map_to_list j) +:+ "}").

(** [s] without the white space that lies outside its string literals;
    [inside] tells whether [s] starts inside one. *)
Fixpoint drop_space (inside : bool) (s : string) : string :=
  match s with
  | EmptyString => EmptyString
  | String c s' =>
      if inside then
        if Ascii.eqb c Example.backslash then
          match s' with
          | String e s'' => String c (String e (drop_space true s''))
          | EmptyString => String c EmptyString
          end
        else String c (drop_space (negb (Ascii.eqb c double_quote)) s')
      else if Example.is_ws c then drop_space false s'
      else String c (drop_space (Ascii.eqb c double_quote) s')
  end.

Definition Compact (s : string) : result string :=
  match Example.decode s with
  | Some _ => Ok (drop_space false s)
  | None => Err json_SyntaxError
  end.

#[global] Instance env_body : EnvBody := {|
  json_Marshal_body := Marshal_body;
  json_Compact := Compact
|}.

(** A client of the base URL [http://h], before its first request. *)
Definition fresh : State :=
  {| client := {| Method := ""; StatusCode := 0; URL := "http://h" |};
     wire := [] |}.

(** The body that describes the node of link [self], with its links. *)
Definition node_text (self : string) : string :=
  "{" +:+ quoted "self" +:+ ":" +:+ quoted self +:+ ","
      +:+ quoted "properties" +:+ ":" +:+ quoted (self +:+ "/properties") +:+ ","
      +:+ quoted "traverse" +:+ ":"
      +:+ quoted (self +:+ "/traverse/{returnType}") +:+ ","
      +:+ quoted "all_relationships" +:+ ":"
      +:+ quoted (self +:+ "/relationships/all")
      +:+ "}".

End Scripted.

(** * The vocabulary of the verified statements

    Definitions that the statements below use to speak about the model:
    the reference forms that the code is compared with, and the concrete
    inputs of the examples. *)

(** ** For the string escaper *)

(** The reserved characters as the specification lists them. *)
Definition spec_reserved : list ascii :=
  ["&"; "'"; "<"; ">"; double_quote; "*"; "["; "]"; ":"; " "; "%"]%char.

(** The text that one byte contributes to the escaped string. *)
Definition escape_byte (c : ascii) : string :=
  match escapeSwitch c with
  | Some esc => esc
  | None => String c EmptyString
  end.

(** The escaped string, byte by byte. *)
Fixpoint escape_bytes (s : string) : string :=
  match s with
  | EmptyString => EmptyString
  | String c s' => escape_byte c +:+ escape_bytes s'
  end.

(** ** For the record decoder *)

(** The identifier that the decoder reads from a self link. *)
Definition parse_self (self : string) : result N :=
  strconv.ParseUint (last_element (strings.Split self "/")) 0.

(** The string under the key [self] of an object, if there is one. *)
Definition self_link (template : gmap string value) : option string :=
  match template !! "self" with
  | Some (Str self) => Some self
  | _ => None
  end.

(** An object is decodable when its self link, if it has one, ends in a
    segment that [ParseUint] accepts. *)
Definition decodable (template : gmap string value) : Prop :=
  forall self, self_link template = Some self ->
               exists id, parse_self self = Ok id.

(** The pieces [pieces] with the separator between them. *)
Fixpoint join (pieces : list string) (sep : ascii) : string :=
  match pieces with
  | [] => EmptyString
  | [piece] => piece
  | piece :: pieces' => piece +:+ String sep (join pieces' sep)
  end.

(** The number that the digits of [s] denote in base 10 after the digits
    that gave [acc]; [None] when a byte of [s] is not a decimal digit. *)
Fixpoint decimal_value (s : string) (acc : N) : option N :=
  match s with
  | EmptyString => Some acc
  | String c s' =>
      match strconv.digit c with
      | Some d => decimal_value s' (acc * 10 + d)%N
      | None => None
      end
  end.

(** The non-negative integer that [s] is the decimal writing of; [None]
    when [s] is empty or holds a byte that is not a decimal digit. *)
Definition decimal_number (s : string) : option N :=
  match s with
  | EmptyString => None
  | _ => decimal_value s 0
  end.

(** A result set holds the records [records] at the indices from 0, in
    order, and nothing else. *)
Definition indexed (records : list NeoTemplate) (dataSet : gmap Z NeoTemplate)
  : Prop :=
  size dataSet = length records /\
  forall i : Z,
    dataSet !! i = if decide (0 <= i) then records !! Z.to_nat i else None.

(** ** For the status classifier *)

(** The error that [NewError] adds to every table. *)
Definition fatal_error : error := errors_New "Fatal Error 500.".

(** ** For the client *)

(** The requests that a method issues when run from [st]: the wire at
    its return. *)
Definition wire_after {A : Type} (m : M A) (st : State) : option (list Request) :=
  match m st with
  | Return (_, st') => Some (wire st')
  | Panic _ => None
  end.

Section Vocabulary.
Context `{Env}.




End Vocabulary.

(** ** Inputs of the examples *)

(** The text of an object whose only member is a self link. *)
Definition self_object (self : string) : string :=
  "{" +:+ quoted "self" +:+ ":" +:+ quoted self +:+ "}".

(** The text of a JSON array of two objects. *)
Definition array_of_two (first second : string) : string :=
  "[" +:+ first +:+ "," +:+ second +:+ "]".

(** The property map of the examples: one key with white space around it,
    one without. *)
Definition example_data : gmap string string :=
  <[" a " := "x"]> (<["b" := "y"]> ∅).

(** ** For the further properties of the string escaper *)

(** The reserved characters that no escape contains: all of them but the
    ampersand and the percent sign. *)
Definition spec_unsafe : list ascii :=
  ["'"; "<"; ">"; double_quote; "*"; "["; "]"; ":"; " "]%char.

(** The characters of a string. *)
Definition bytes_of (s : string) : list ascii := list_ascii_of_string s.

(** A string without reserved characters. *)
Definition clean (s : string) : Prop :=
  forall c, In c (bytes_of s) -> ~ In c spec_reserved.

(** The byte that the escape at the front of [s] stands for, and the text
    after that escape; a byte other than the percent sign and the
    ampersand stands for itself. *)
Definition unescape_head (s : string) : option (ascii * string) :=
  match s with
  | EmptyString => None
  | String c s' =>
      if Ascii.eqb c "%" then
        match strings.strip_prefix "25" s', strings.strip_prefix "20" s',
              strings.strip_prefix "2A" s', strings.strip_prefix "3A" s',
              strings.strip_prefix "5B" s', strings.strip_prefix "5D" s' with
        | Some r, _, _, _, _, _ => Some ("%"%char, r)
        | _, Some r, _, _, _, _ => Some (" "%char, r)
        | _, _, Some r, _, _, _ => Some ("*"%char, r)
        | _, _, _, Some r, _, _ => Some (":"%char, r)
        | _, _, _, _, Some r, _ => Some ("["%char, r)
        | _, _, _, _, _, Some r => Some ("]"%char, r)
        | _, _, _, _, _, _ => None
        end
      else if Ascii.eqb c "&" then
        match strings.strip_prefix "amp;" s', strings.strip_prefix "apos;" s',
              strings.strip_prefix "lt;" s', strings.strip_prefix "gt;" s',
              strings.strip_prefix "quot;" s' with
        | Some r, _, _, _, _ => Some ("&"%char, r)
        | _, Some r, _, _, _ => Some ("'"%char, r)
        | _, _, Some r, _, _ => Some ("<"%char, r)
        | _, _, _, Some r, _ => Some (">"%char, r)
        | _, _, _, _, Some r => Some (double_quote, r)
        | _, _, _, _, _ => None
        end
      else Some (c, s')
  end.

(** ** For the further properties of the record decoder *)

(** The string, the object and the array under the key [k] of an object;
    the zero value when the key is missing or holds another type. *)
Definition string_at (template : gmap string value) (k : string) : string :=
  match template !! k with
  | Some (Str s) => s
  | _ => EmptyString
  end.

Definition object_at (template : gmap string value) (k : string)
  : option (gmap string value) :=
  match template !! k with
  | Some (Map m) => Some m
  | _ => None
  end.

Definition array_at (template : gmap string value) (k : string)
  : option (list value) :=
  match template !! k with
  | Some (Slice l) => Some l
  | _ => None
  end.

(** The record with identifier [id] whose other fields are read from the
    object, each from its key. *)
Definition record_of (template : gmap string value) (id : N) : NeoTemplate :=
  {| ID := id;
     Relationships := EmptyString;
     RelationshipsOut := string_at template "outgoing_relationships";
     RelationshipsIn := string_at template "incoming_relationships";
     RelationshipsAll := string_at template "all_relationships";
     RelationshipsCreate := string_at template "create_relationship";
     Data := object_at template "data";
     Traverse := string_at template "traverse";
     Property := string_at template "property";
     Properties := string_at template "properties";
     Self := string_at template "self";
     Extensions := object_at template "extensions";
     Start := string_at template "start";
     End_ := string_at template "end";
     Type_ := string_at template "type";
     Indexed := string_at template "indexed";
     Length := string_at template "length";
     Nodes := array_at template "nodes";
     TRelationships := array_at template "relationships" |}.

(** Does the decoder store the value [v] found under the key [k]? It does
    when the key is one that it knows for the type of the value. *)
Definition stored (k : string) (v : value) : bool :=
  match v with
  | Map _ => existsb (String.eqb k) ["data"; "extensions"]
  | Slice _ => existsb (String.eqb k) ["nodes"; "relationships"]
  | Str _ =>
      existsb (String.eqb k)
        ["self"; "traverse"; "property"; "properties";
         "outgoing_relationships"; "incoming_relationships";
         "all_relationships"; "create_relationship"; "start"; "end";
         "type"; "length"; "indexed"]
  | _ => false
  end.



(** ** For the further properties of the client *)

(** The errors of the checks that come before any request. *)
Definition invalid_id : error := errors_New "Invalid node id specified.".

Definition empty_name : error :=
  errors_New "Property name must be at least 1 character.".

(** The panic of a nil pointer. *)
Definition nil_dereference : string :=
  "invalid memory address or nil pointer dereference".

(** The request of [GetNode] for the node [id], and the request of
    [DelRelationship] for the relationship [i]. *)
Definition node_request (this : Neo4j) (id : N) : Request :=
  mkRequest GET ((URL this +:+ "/node/") +:+ strconv.FormatUint id)
    EmptyString None.


(** The words that [Traverse] lets through as return type. *)
Definition return_types : list string :=
  ["relationship"; "path"; "fullpath"; "node"].

(** * Verified statements *)

(** Case analysis on the comparisons of a variable key with the key names
    of the source, and on the result of parsing a self link. *)
Ltac case_key :=
  match goal with
  | |- context [String.eqb ?k ?name] =>
      is_var k; destruct (String.eqb_spec k name); [subst k|]
  end.

Ltac case_keys :=
  repeat (cbn [unmarshalNodeRange unmarshalNodeEntry String.eqb Ascii.eqb
               Bool.eqb Self set_Self];
          try case_key).

(** ** The string escaper *)

Lemma append_String (c : ascii) (s t : string) :
  String c s +:+ t = String c (s +:+ t).
Proof. reflexivity. Qed.

Lemma append_empty_l (s : string) : "" +:+ s = s.
Proof. reflexivity. Qed.

Lemma append_empty_r (s : string) : s +:+ "" = s.
Proof. induction s as [|c s IH]; [reflexivity|]. rewrite append_String. congruence. Qed.

Lemma append_assoc (s t u : string) : (s +:+ t) +:+ u = s +:+ (t +:+ u).
Proof.
  induction s as [|c s IH]; [reflexivity|].
  rewrite !append_String. congruence.
Qed.

(** The bytes of [escapedChars] are the reserved characters of the
    specification. *)
Lemma contains_escapedChars (c : ascii) :
  strings.contains_byte escapedChars c = true <-> In c spec_reserved.
Proof.
  split.
  - intros Hc. destruct c as [[] [] [] [] [] [] [] []];
      vm_compute in Hc; try discriminate Hc; vm_compute; tauto.
  - intros Hin. unfold spec_reserved in Hin. simpl in Hin.
    repeat (destruct Hin as [<-|Hin]; [reflexivity|]). destruct Hin.
Qed.

(** Every byte of [escapedChars] has a case in the switch, and no other
    byte has one. *)
Lemma escapeSwitch_defined (c : ascii) :
  strings.contains_byte escapedChars c = true <-> escapeSwitch c <> None.
Proof.
  destruct c as [[] [] [] [] [] [] [] []]; vm_compute; split;
    first [congruence | discriminate | tauto].
Qed.

Lemma escapeSwitch_undefined (c : ascii) :
  strings.contains_byte escapedChars c = false -> escapeSwitch c = None.
Proof.
  intros Hc. destruct (escapeSwitch c) eqn:He; [|reflexivity].
  assert (Hn : escapeSwitch c <> None) by congruence.
  apply escapeSwitch_defined in Hn. congruence.
Qed.

Lemma IndexAny_String (c : ascii) (s chars : string) :
  strings.IndexAny (String c s) chars =
  if strings.contains_byte chars c then 0
  else if strings.IndexAny s chars =? -1 then -1
       else strings.IndexAny s chars + 1.
Proof. reflexivity. Qed.

(** [IndexAny] answers [-1] exactly on the strings without a byte of
    [chars], and is never below [-1]. *)
Lemma IndexAny_ge (s chars : string) : -1 <= strings.IndexAny s chars.
Proof.
  induction s as [|c s IH]; [simpl; lia|]. rewrite IndexAny_String.
  destruct (strings.contains_byte chars c); [lia|].
  destruct (Z.eqb_spec (strings.IndexAny s chars) (-1)); lia.
Qed.

Lemma IndexAny_none (s chars : string) :
  strings.IndexAny s chars = -1 <->
  forall c, In c (list_ascii_of_string s) -> strings.contains_byte chars c = false.
Proof.
  induction s as [|c s IH].
  - simpl. split; [intros _ ? []|reflexivity].
  - rewrite IndexAny_String. cbn [list_ascii_of_string].
    destruct (strings.contains_byte chars c) eqn:Hc.
    + split; [discriminate|]. intros Hall. specialize (Hall c (or_introl eq_refl)).
      congruence.
    + pose proof (IndexAny_ge s chars).
      destruct (Z.eqb_spec (strings.IndexAny s chars) (-1)) as [Hi|Hi].
      * split; [|reflexivity]. intros _ d [<-|Hd]; [assumption|].
        apply IH; assumption.
      * split; [lia|]. intros Hall. exfalso. apply Hi, IH.
        intros d Hd. apply Hall. right. assumption.
Qed.

(** On a string without reserved bytes the byte-wise escape changes
    nothing. *)
Lemma escape_bytes_clean (s : string) :
  strings.IndexAny s escapedChars = -1 -> escape_bytes s = s.
Proof.
  intros Hs. rewrite IndexAny_none in Hs.
  induction s as [|c s IH]; [reflexivity|]. cbn [escape_bytes].
  cbn [list_ascii_of_string] in Hs.
  unfold escape_byte. rewrite escapeSwitch_undefined.
  - rewrite append_String, append_empty_l, IH; [reflexivity|].
    intros d Hd. apply Hs. right. assumption.
  - apply Hs. left. reflexivity.
Qed.

(** When [IndexAny] finds a byte, that byte has an escape, and the turn of
    the loop writes what the byte-wise escape writes up to that byte. *)
Lemma escapeStep_found (s : string) :
  strings.IndexAny s escapedChars <> -1 ->
  exists written s',
    escapeStep s (strings.IndexAny s escapedChars) = Return (written, s') /\
    escape_bytes s = written +:+ escape_bytes s'.
Proof.
  induction s as [|c s IH]; [simpl; congruence|].
  rewrite IndexAny_String. cbn [escape_bytes].
  destruct (strings.contains_byte escapedChars c) eqn:Hc.
  - intros _. unfold escapeStep, escape_byte. cbv iota.
    change (strings.index (String c s) 0) with (Some c). cbv beta iota.
    destruct (escapeSwitch c) as [esc|] eqn:He.
    + exists esc, s. split; reflexivity.
    + apply escapeSwitch_defined in Hc. congruence.
  - pose proof (IndexAny_ge s escapedChars) as Hge.
    destruct (Z.eqb_spec (strings.IndexAny s escapedChars) (-1)) as [Hi|Hi];
      [congruence|]. intros _.
    destruct (IH Hi) as (written & s' & Hstep & Hbytes).
    exists (String c written), s'. split.
    + revert Hstep. unfold escapeStep, strings.index, strings.slice_to,
        strings.slice_from.
      set (i := strings.IndexAny s escapedChars) in *.
      destruct (Z.ltb_spec i 0); [lia|].
      destruct (Z.ltb_spec (i + 1) 0); [lia|].
      replace (Z.to_nat (i + 1 + 1)) with (S (Z.to_nat (i + 1))) by lia.
      replace (Z.to_nat (i + 1)) with (S (Z.to_nat i)) by lia.
      cbn [String.get strings.take strings.drop].
      destruct (String.get (Z.to_nat i) s) as [d|]; [|discriminate].
      destruct (escapeSwitch d); [|discriminate].
      intros [= <- <-]. reflexivity.
    + unfold escape_byte at 1. rewrite (escapeSwitch_undefined c Hc), Hbytes.
      reflexivity.
Qed.

(** The loop computes the byte-wise escape, appended to the buffer. *)
Lemma escape_spec (buf s : string) :
  escape buf s = Return (buf +:+ escape_bytes s).
Proof.
  funelim (escape buf s).
  - apply Z.eqb_eq in Heq. rewrite escape_bytes_clean by assumption. reflexivity.
  - apply Z.eqb_neq in Heq. destruct (escapeStep_found s Heq) as (w & t & Hw & Hb).
    assert (Hwt : Return (w, t) = Return (written, s')) by congruence.
    injection Hwt as -> ->.
    rewrite H, Hb, append_assoc. reflexivity.
  - apply Z.eqb_neq in Heq. destruct (escapeStep_found s Heq) as (w & t & Hw & _).
    congruence.
Qed.

(** What [EscapeString] returns, on both of its paths. *)
Lemma EscapeString_spec (s : string) :
  EscapeString s = Return (escape_bytes s).
Proof.
  unfold EscapeString.
  destruct (Z.eqb_spec (strings.IndexAny s escapedChars) (-1)) as [Hi|Hi].
  - rewrite escape_bytes_clean by assumption. reflexivity.
  - rewrite escape_spec. reflexivity.
Qed.

(** C7: on a string that contains none of the reserved characters of the
    specification, [EscapeString] returns the string unchanged; so does the
    escaping loop itself, and escaping the result again changes nothing. *)
Theorem EscapeString_clean_identity (s : string) :
  (forall c, In c (list_ascii_of_string s) -> ~ In c spec_reserved) ->
  EscapeString s = Return s /\
  escape "" s = Return s /\
  (forall out, EscapeString s = Return out -> EscapeString out = Return out).
Proof.
  intros Hclean.
  assert (Hi : strings.IndexAny s escapedChars = -1).
  { apply IndexAny_none. intros c Hc.
    destruct (strings.contains_byte escapedChars c) eqn:E; [|reflexivity].
    apply contains_escapedChars in E. destruct (Hclean c Hc E). }
  assert (He : EscapeString s = Return s).
  { rewrite EscapeString_spec, escape_bytes_clean by assumption. reflexivity. }
  split; [assumption|]. split.
  - rewrite escape_spec, escape_bytes_clean by assumption. reflexivity.
  - intros out Hout. rewrite He in Hout. injection Hout as <-. assumption.
Qed.

Lemma EscapeString_clean_identity_witness :
  EscapeString "node42" = Return "node42" /\
  escape "" "node42" = Return "node42" /\
  (forall out, EscapeString "node42" = Return out ->
               EscapeString out = Return out).
Proof.
  apply (EscapeString_clean_identity "node42").
  intros c Hc. simpl in Hc.
  repeat (destruct Hc as [<-|Hc];
          [vm_compute; intros Hr;
           repeat (destruct Hr as [Hr|Hr]; [discriminate Hr|]); exact Hr|]).
  destruct Hc.
Defined.

(** C8: the escaping loop and [EscapeString] return on every input and
    never panic, because every byte of [escapedChars] has a case in the
    switch. *)
Theorem escape_total :
  (forall c, strings.contains_byte escapedChars c = true ->
             exists esc, escapeSwitch c = Some esc) /\
  (forall buf s, exists out, escape buf s = Return out) /\
  (forall s, exists out, EscapeString s = Return out) /\
  (forall buf s msg, escape buf s <> Panic msg) /\
  (forall s msg, EscapeString s <> Panic msg).
Proof.
  split; [|split; [|split; [|split]]].
  - intros c Hc. apply escapeSwitch_defined in Hc.
    destruct (escapeSwitch c) as [esc|]; [eauto|congruence].
  - intros buf s. rewrite escape_spec. eauto.
  - intros s. rewrite EscapeString_spec. eauto.
  - intros buf s msg. rewrite escape_spec. discriminate.
  - intros s msg. rewrite EscapeString_spec. discriminate.
Qed.

Lemma escape_total_witness :
  strings.contains_byte escapedChars "%" = true /\
  (exists esc, escapeSwitch "%" = Some esc) /\
  EscapeString "50% [a:b]" = Return "50%25%20%5Ba%3Ab%5D".
Proof.
  assert (Hc : strings.contains_byte escapedChars "%" = true) by reflexivity.
  split; [exact Hc|]. split; [exact (proj1 escape_total "%"%char Hc)|].
  vm_compute. reflexivity.
Defined.

(** ** The record decoder *)

Lemma Split_nonempty (s : string) (sep : ascii) :
  strings.Split s sep <> [].
Proof.
  induction s as [|c s IH]; simpl; [discriminate|].
  destruct (Ascii.eqb c sep); [discriminate|].
  destruct (strings.Split s sep); [congruence|discriminate].
Qed.

Lemma Split_join (s : string) (sep : ascii) :
  join (strings.Split s sep) sep = s.
Proof.
  induction s as [|c s IH]; [reflexivity|]. simpl.
  pose proof (Split_nonempty s sep) as Hne.
  destruct (Ascii.eqb_spec c sep) as [->|Hc].
  - destruct (strings.Split s sep) as [|p ps]; [congruence|].
    cbn [join]. rewrite append_empty_l. f_equal. exact IH.
  - destruct (strings.Split s sep) as [|p ps]; [congruence|].
    revert IH. cbn [join]. destruct ps; intros <-; reflexivity.
Qed.

Lemma Split_pieces (s : string) (sep : ascii) (piece : string) :
  In piece (strings.Split s sep) -> ~ In sep (list_ascii_of_string piece).
Proof.
  revert piece. induction s as [|c s IH]; simpl; intros piece.
  - intros [<-|[]]. simpl. tauto.
  - destruct (Ascii.eqb_spec c sep) as [->|Hc].
    + intros [<-|Hin]; [simpl; tauto|]. apply IH. assumption.
    + pose proof (Split_nonempty s sep) as Hne.
      destruct (strings.Split s sep) as [|p ps]; [congruence|].
      intros [<-|Hin].
      * simpl. intros [E|Hp]; [congruence|]. apply (IH p); [left; reflexivity|assumption].
      * apply IH. right. assumption.
Qed.

Lemma decimal_value_ge (s : string) (acc n : N) :
  decimal_value s acc = Some n -> (acc <= n)%N.
Proof.
  revert acc. induction s as [|c s IH]; simpl; intros acc.
  - intros [= <-]. lia.
  - destruct (strconv.digit c) as [d|]; [|discriminate].
    intros Hn. apply IH in Hn. lia.
Qed.

Lemma parseUintLoop_spec (s : string) (acc : N) :
  (acc < 2 ^ 64)%N ->
  strconv.parseUintLoop (2 ^ 64 - 1) s acc =
  match decimal_value s acc with
  | None =>
      inl (if strconv.parseUintLoop (2 ^ 64 - 1) s acc
           is inl kind then kind else ErrSyntax)
  | Some n => if (n <? 2 ^ 64)%N then inr n else inl ErrRange
  end.
Proof.
  revert acc. induction s as [|c s IH]; intros acc Hacc.
  - simpl. destruct (N.ltb_spec acc (2 ^ 64)); [reflexivity|lia].
  - cbn [strconv.parseUintLoop decimal_value].
    destruct (strconv.digit c) as [d|] eqn:Hd; [|reflexivity].
    assert (Hd9 : (d <= 9)%N).
    { unfold strconv.digit in Hd.
      destruct ((48 <=? N_of_ascii c) && (N_of_ascii c <=? 57))%N eqn:E;
        [|discriminate]. injection Hd as <-.
      apply andb_true_iff in E as [E1 E2].
      apply N.leb_le in E1, E2. lia. }
    destruct (N.leb_spec ((2 ^ 64 - 1) / 10 + 1) acc) as [Hcut|Hcut].
    + destruct (decimal_value s (acc * 10 + d)) as [n|] eqn:Hn; [|reflexivity].
      apply decimal_value_ge in Hn.
      assert ((2 ^ 64 - 1) / 10 + 1 = 1844674407370955162)%N as Hc by reflexivity.
      rewrite Hc in Hcut.
      destruct (N.ltb_spec n (2 ^ 64)) as [Hlt|]; [|reflexivity].
      change (2 ^ 64)%N with 18446744073709551616%N in Hlt. lia.
    + destruct (N.ltb_spec (2 ^ 64 - 1) (acc * 10 + d)) as [Hmax|Hmax].
      * destruct (decimal_value s (acc * 10 + d)) as [n|] eqn:Hn; [|reflexivity].
        apply decimal_value_ge in Hn.
        destruct (N.ltb_spec n (2 ^ 64)) as [Hlt|]; [|reflexivity].
        change (2 ^ 64)%N with 18446744073709551616%N in *. lia.
      * apply IH. change (2 ^ 64)%N with 18446744073709551616%N in *. lia.
Qed.

Lemma ParseUint_spec (s : string) (n : N) :
  strconv.ParseUint s 0 = Ok n <->
  s <> EmptyString /\ decimal_value s 0 = Some n /\ (n < 2 ^ 64)%N.
Proof.
  unfold strconv.ParseUint. destruct s as [|c s].
  - split; [discriminate|]. intros [E _]. congruence.
  - change (if (0 =? 0)%N then strconv.IntSize else 0%N) with 64%N.
    rewrite parseUintLoop_spec by reflexivity.
    destruct (decimal_value (String c s) 0) as [m|].
    + destruct (N.ltb_spec m (2 ^ 64)) as [Hm|Hm].
      * split; [intros [= <-]; repeat split; [discriminate|assumption]|].
        intros (_ & [= <-] & _). reflexivity.
      * split; [discriminate|]. intros (_ & [= <-] & Hn). lia.
    + split; [discriminate|]. intros (_ & E & _). discriminate.
Qed.

(** [ParseUint] accepts exactly the decimal writings of the numbers below
    2^64, and returns the number. *)
Lemma ParseUint_decimal (s : string) (n : N) :
  strconv.ParseUint s 0 = Ok n <->
  decimal_number s = Some n /\ (n < 2 ^ 64)%N.
Proof.
  rewrite ParseUint_spec. unfold decimal_number. destruct s as [|c s].
  - split; [intros [E _]; congruence|intros [E _]; discriminate].
  - split; [intros (_ & Hn & Hlt); split; assumption|].
    intros [Hn Hlt]. repeat split; [discriminate|assumption|assumption].
Qed.


(** The last of the pieces of [strings.Split] is what follows the last
    separator of the string, or the whole string when it has none. *)
Lemma join_last (pieces : list string) (sep : ascii) :
  pieces <> [] ->
  join pieces sep = List.last pieces EmptyString \/
  exists prefix,
    join pieces sep = prefix +:+ String sep (List.last pieces EmptyString).
Proof.
  induction pieces as [|piece pieces IH]; [congruence|]. intros _.
  destruct pieces as [|piece' pieces]; [left; reflexivity|].
  right. change (join (piece :: piece' :: pieces) sep)
    with (piece +:+ String sep (join (piece' :: pieces) sep)).
  change (List.last (piece :: piece' :: pieces) EmptyString)
    with (List.last (piece' :: pieces) EmptyString).
  destruct IH as [-> | [prefix ->]]; [discriminate| |].
  - exists piece. reflexivity.
  - exists (piece +:+ String sep prefix).
    rewrite append_assoc, append_String. reflexivity.
Qed.

Lemma last_In (pieces : list string) :
  pieces <> [] -> In (List.last pieces EmptyString) pieces.
Proof.
  induction pieces as [|piece pieces IH]; [congruence|]. intros _.
  destruct pieces as [|piece' pieces]; [left; reflexivity|].
  right. apply IH. discriminate.
Qed.

Lemma Split_last_segment (s : string) :
  let segment := last_element (strings.Split s "/") in
  ~ In "/"%char (list_ascii_of_string segment) /\
  (s = segment \/ exists prefix, s = prefix +:+ String "/" segment).
Proof.
  cbv zeta. unfold last_element.
  pose proof (Split_nonempty s "/") as Hne. split.
  - apply (Split_pieces s). apply last_In. exact Hne.
  - destruct (join_last (strings.Split s "/") "/" Hne) as [E|[prefix E]];
      rewrite Split_join in E; [left|right; exists prefix]; exact E.
Qed.

(** One entry of an object: only a string under [self] can fail, and only
    it touches the fields [ID] and [Self]. *)
Lemma unmarshalNodeEntry_self (self : string) (node : NeoTemplate) :
  unmarshalNodeEntry "self" (Str self) node =
  match parse_self self with
  | Err e => Err e
  | Ok id => Ok (set_ID id (set_Self self node))
  end.
Proof. reflexivity. Qed.

Lemma unmarshalNodeEntry_other (k : string) (v : value) (node : NeoTemplate) :
  (forall self, (k, v) <> ("self", Str self)) ->
  exists node', unmarshalNodeEntry k v node = Ok node' /\
                ID node' = ID node /\ Self node' = Self node.
Proof.
  intros Hne. unfold unmarshalNodeEntry. destruct v as [| | |data| |];
    try (repeat case_match; eexists; (split; [reflexivity|]); split; reflexivity).
  destruct (String.eqb_spec k "self") as [->|Hk].
  - destruct (Hne data). reflexivity.
  - repeat case_match; eexists; (split; [reflexivity|]); split; reflexivity.
Qed.

Lemma unmarshalNodeRange_no_self (l : list (string * value)) (node : NeoTemplate) :
  (forall self, ("self", Str self) ∉ l) ->
  exists node', unmarshalNodeRange l node = Ok node' /\
                ID node' = ID node /\ Self node' = Self node.
Proof.
  revert node. induction l as [|[k v] l IH]; intros node Hno.
  - exists node. repeat split.
  - destruct (unmarshalNodeEntry_other k v node) as (n1 & H1 & Hid & Hself).
    { intros self E. apply (Hno self). rewrite E. left. }
    destruct (IH n1) as (n2 & H2 & Hid2 & Hself2).
    { intros self Hin. apply (Hno self). right. assumption. }
    exists n2. cbn [unmarshalNodeRange]. rewrite H1, H2.
    repeat split; congruence.
Qed.

Lemma unmarshalNodeRange_self (l : list (string * value)) (self : string)
  (node : NeoTemplate) :
  NoDup l.*1 -> ("self", Str self) ∈ l ->
  match parse_self self with
  | Err e => unmarshalNodeRange l node = Err e
  | Ok id => exists node', unmarshalNodeRange l node = Ok node' /\
                           ID node' = id /\ Self node' = self
  end.
Proof.
  revert node. induction l as [|[k v] l IH]; intros node Hnd Hin.
  - apply elem_of_nil in Hin. destruct Hin.
  - rewrite fmap_cons in Hnd. apply NoDup_cons in Hnd as [Hk Hnd].
    apply elem_of_cons in Hin as [Hhead|Htail].
    + injection Hhead as <- <-. cbn [unmarshalNodeRange].
      rewrite unmarshalNodeEntry_self.
      destruct (parse_self self) as [id|e]; [|reflexivity].
      destruct (unmarshalNodeRange_no_self l (set_ID id (set_Self self node)))
        as (n2 & H2 & Hid & Hself).
      { intros u Hu. apply Hk. apply (list_elem_of_fmap_2 fst) in Hu. exact Hu. }
      exists n2. repeat split; assumption.
    + destruct (unmarshalNodeEntry_other k v node) as (n1 & H1 & _ & _).
      { intros u [= -> ->]. apply Hk.
        apply (list_elem_of_fmap_2 fst) in Htail. exact Htail. }
      cbn [unmarshalNodeRange]. rewrite H1. apply IH; assumption.
Qed.

(** What [unmarshalNode] does with the self link of an object. *)
Lemma unmarshalNode_self (template : gmap string value) (self : string) :
  self_link template = Some self ->
  match parse_self self with
  | Err e => unmarshalNode template = Err e
  | Ok id => exists node, unmarshalNode template = Ok node /\
                          ID node = id /\ Self node = self
  end.
Proof.
  unfold self_link. intros Hself.
  destruct (template !! "self") as [[| | |u| |]|] eqn:Hl; try discriminate.
  injection Hself as ->.
  apply unmarshalNodeRange_self.
  - apply NoDup_fst_map_to_list.
  - apply elem_of_map_to_list. assumption.
Qed.

Lemma unmarshalNode_no_self (template : gmap string value) :
  self_link template = None ->
  exists node, unmarshalNode template = Ok node /\ ID node = 0%N /\ Self node = "".
Proof.
  unfold self_link. intros Hself.
  apply (unmarshalNodeRange_no_self (map_to_list template) new_NeoTemplate).
  intros u Hu. apply elem_of_map_to_list in Hu. rewrite Hu in Hself. discriminate.
Qed.

(** [unmarshalNode] succeeds exactly on the decodable objects. *)
Lemma unmarshalNode_decodable (template : gmap string value) :
  decodable template <-> exists node, unmarshalNode template = Ok node.
Proof.
  unfold decodable. destruct (self_link template) as [self|] eqn:Hs.
  - pose proof (unmarshalNode_self template self Hs) as Hu. split.
    + intros Hd. destruct (Hd self eq_refl) as [id Hid]. rewrite Hid in Hu.
      destruct Hu as (node & Hn & _). eauto.
    + intros [node Hn] u [= <-]. destruct (parse_self self) as [id|e]; [eauto|].
      congruence.
  - split; [|intros _ ? [=]]. intros _.
    destruct (unmarshalNode_no_self template Hs) as (node & Hn & _). eauto.
Qed.

(** Decodable, without reference to [ParseUint]: the last piece of the
    self link is the decimal writing of a number below 2^64. *)
Lemma decodable_decimal (template : gmap string value) :
  decodable template <->
  forall self,
    template !! "self" = Some (Str self) ->
    exists n, decimal_number (last_element (strings.Split self "/")) = Some n /\
              (n < 2 ^ 64)%N.
Proof.
  unfold decodable, self_link, parse_self. split.
  - intros Hd self Hself. destruct (Hd self) as [id Hid].
    + rewrite Hself. reflexivity.
    + exists id. apply ParseUint_decimal. exact Hid.
  - intros Hd self Hself.
    destruct (template !! "self") as [[| | |u| |]|]; try discriminate.
    injection Hself as ->. destruct (Hd self eq_refl) as (n & Hn).
    exists n. apply ParseUint_decimal. exact Hn.
Qed.

Lemma unmarshalNode_not_decodable (template : gmap string value) :
  ~ decodable template -> exists e, unmarshalNode template = Err e.
Proof.
  intros Hnd. destruct (unmarshalNode template) as [node|e] eqn:Hn; [|eauto].
  destruct Hnd. apply unmarshalNode_decodable. eauto.
Qed.

(** Two entries with different keys can be visited in either order. *)
Lemma unmarshalNodeRange_swap (k1 k2 : string) (v1 v2 : value)
  (node : NeoTemplate) :
  k1 <> k2 ->
  unmarshalNodeRange [(k1, v1); (k2, v2)] node =
  unmarshalNodeRange [(k2, v2); (k1, v1)] node.
Proof.
  intros Hne. destruct node.
  destruct v1, v2; case_keys; try congruence;
    repeat match goal with
           | |- context [strconv.ParseUint ?s ?b] =>
               destruct (strconv.ParseUint s b)
           end; reflexivity.
Qed.

Lemma unmarshalNodeRange_app (l1 l2 : list (string * value)) (node : NeoTemplate) :
  unmarshalNodeRange (l1 ++ l2) node =
  match unmarshalNodeRange l1 node with
  | Err e => Err e
  | Ok node' => unmarshalNodeRange l2 node'
  end.
Proof.
  revert node. induction l1 as [|[k v] l1 IH]; intros node; [reflexivity|].
  cbn [app unmarshalNodeRange].
  destruct (unmarshalNodeEntry k v node); [apply IH|reflexivity].
Qed.

(** The result of the loop of [unmarshalNode] does not depend on the order
    in which the entries of the map are visited. *)
Lemma unmarshalNodeRange_order (l l' : list (string * value)) (node : NeoTemplate) :
  NoDup l.*1 -> l ≡ₚ l' ->
  unmarshalNodeRange l node = unmarshalNodeRange l' node.
Proof.
  intros Hnd Hperm. revert node Hnd.
  induction Hperm as [|[k v] l l' Hperm IH|[k1 v1] [k2 v2] l|l l' l'' H1 IH1 H2 IH2];
    intros node Hnd.
  - reflexivity.
  - rewrite fmap_cons in Hnd. apply NoDup_cons in Hnd as [_ Hnd].
    cbn [unmarshalNodeRange].
    destruct (unmarshalNodeEntry k v node); [apply IH; assumption|reflexivity].
  - rewrite !fmap_cons in Hnd. apply NoDup_cons in Hnd as [Hk _].
    change ((k1, v1) :: (k2, v2) :: l) with ([(k1, v1); (k2, v2)] ++ l)%list.
    change ((k2, v2) :: (k1, v1) :: l) with ([(k2, v2); (k1, v1)] ++ l)%list.
    rewrite !unmarshalNodeRange_app, (unmarshalNodeRange_swap k1 k2); [reflexivity|].
    intros ->. apply Hk. left.
  - rewrite IH1 by assumption. apply IH2.
    rewrite <- H1. assumption.
Qed.

Lemma unmarshalNode_order (template : gmap string value)
  (entries : list (string * value)) :
  entries ≡ₚ map_to_list template ->
  unmarshalNodeRange entries new_NeoTemplate = unmarshalNode template.
Proof.
  intros Hperm. unfold unmarshalNode. symmetry.
  apply unmarshalNodeRange_order; [apply NoDup_fst_map_to_list|].
  symmetry. assumption.
Qed.

Lemma indexed_empty : indexed [] ∅.
Proof.
  split; [reflexivity|]. intros i. rewrite lookup_empty.
  destruct (decide (0 <= i)); reflexivity.
Qed.

Lemma indexed_insert (records : list NeoTemplate) (dataSet : gmap Z NeoTemplate)
  (data : NeoTemplate) :
  indexed records dataSet ->
  indexed (records ++ [data]) (<[Z.of_nat (size dataSet) := data]> dataSet).
Proof.
  intros [Hsize Hlook]. split.
  - rewrite map_size_insert_None, length_app; [simpl; lia|].
    rewrite Hlook, decide_True by lia. apply lookup_ge_None. lia.
  - intros i. destruct (decide (i = Z.of_nat (size dataSet))) as [->|Hi].
    + rewrite lookup_insert_eq, decide_True by lia.
      rewrite Nat2Z.id, Hsize, lookup_app_r, Nat.sub_diag by lia. reflexivity.
    + rewrite lookup_insert_ne, Hlook by congruence.
      destruct (decide (0 <= i)) as [H0|]; [|reflexivity].
      destruct (decide (Z.to_nat i < length records)%nat) as [Hlt|Hge].
      * rewrite lookup_app_l by assumption. reflexivity.
      * rewrite !lookup_ge_None_2; [reflexivity| |lia].
        rewrite length_app. simpl. lia.
Qed.

(** The loop of [unmarshal] over the array: it succeeds exactly when every
    element decodes, and then adds the records in order. *)
Lemma unmarshalRange_ok (templateSet : list (gmap string value))
  (records done : list NeoTemplate) (dataSet : gmap Z NeoTemplate) :
  Forall2 (fun template node => unmarshalNode template = Ok node)
          templateSet records ->
  indexed done dataSet ->
  exists dataSet', unmarshalRange templateSet dataSet = Ok dataSet' /\
                   indexed (done ++ records) dataSet'.
Proof.
  intros Hall. revert done dataSet.
  induction Hall as [|template node templateSet records Hnode _ IH];
    intros done dataSet Hidx.
  - exists dataSet. rewrite app_nil_r. split; [reflexivity|assumption].
  - cbn [unmarshalRange]. rewrite Hnode.
    destruct (IH (done ++ [node]) _ (indexed_insert _ _ node Hidx))
      as (dataSet' & Hrun & Hidx').
    exists dataSet'. split; [assumption|].
    rewrite <- app_assoc in Hidx'. exact Hidx'.
Qed.

Lemma unmarshalRange_inv (templateSet : list (gmap string value))
  (dataSet dataSet' : gmap Z NeoTemplate) :
  unmarshalRange templateSet dataSet = Ok dataSet' ->
  exists records,
    Forall2 (fun template node => unmarshalNode template = Ok node)
            templateSet records.
Proof.
  revert dataSet. induction templateSet as [|template templateSet IH];
    intros dataSet Hrun.
  - exists []. constructor.
  - cbn [unmarshalRange] in Hrun.
    destruct (unmarshalNode template) as [node|e] eqn:Hnode; [|discriminate].
    destruct (IH _ Hrun) as [records Hall].
    exists (node :: records). constructor; assumption.
Qed.

Lemma Forall_decodable_records (templateSet : list (gmap string value)) :
  Forall decodable templateSet <->
  exists records,
    Forall2 (fun template node => unmarshalNode template = Ok node)
            templateSet records.
Proof.
  split.
  - induction 1 as [|template templateSet Hd _ [records IH]].
    + exists []. constructor.
    + apply unmarshalNode_decodable in Hd as [node Hnode].
      exists (node :: records). constructor; assumption.
  - intros [records Hall]. induction Hall as [|template node ? ? Hnode _ IH];
      constructor; [|assumption].
    apply unmarshalNode_decodable. eauto.
Qed.

Section DecoderSpec.
Context `{Env}.


(** C1, as amended: when the text parses as a single JSON object,
    [unmarshal] returns a result set with one record, at index 0, and
    no other entry, provided the object is decodable (its self link, if
    it has one, ends in a segment that [ParseUint] accepts); when the
    object is not decodable, [unmarshal] returns an error. *)
Theorem unmarshal_single_object (s : string) (templateNode : gmap string value) :
  Unmarshal_templateNode s = Ok templateNode ->
  (decodable templateNode ->
   exists template dataSet,
     unmarshalNode templateNode = Ok template /\
     unmarshal s = Ok dataSet /\
     dataSet !! 0 = Some template /\
     size dataSet = 1%nat /\
     forall i, i <> 0 -> dataSet !! i = None) /\
  (~ decodable templateNode -> exists e, unmarshal s = Err e).
Proof.
  intros Hparse. unfold unmarshal. rewrite Hparse. split.
  - intros Hd. apply unmarshalNode_decodable in Hd as [template Hnode].
    rewrite Hnode. exists template, (<[0 := template]> ∅).
    split; [reflexivity|]. split; [reflexivity|].
    split; [apply lookup_insert_eq|]. split; [rewrite insert_empty; apply map_size_singleton|].
    intros i Hi. rewrite lookup_insert_ne by congruence. apply lookup_empty.
  - intros Hd. apply unmarshalNode_not_decodable in Hd as [e He].
    rewrite He. eauto.
Qed.

(** C2, as amended: when the text does not parse as a single JSON object,
    [unmarshal] turns to the array parse. If that fails too, [unmarshal]
    returns its error. If it gives N objects and all are decodable,
    [unmarshal] returns a result set of exactly N entries, the record of
    the i-th object at index i; if some object is not decodable,
    [unmarshal] returns an error. *)
Theorem unmarshal_array (s : string) (e0 : error) :
  Unmarshal_templateNode s = Err e0 ->
  match Unmarshal_templateSet s with
  | Err e1 => unmarshal s = Err e1
  | Ok templateSet =>
      (Forall decodable templateSet ->
       exists records dataSet,
         Forall2 (fun template node => unmarshalNode template = Ok node)
                 templateSet records /\
         unmarshal s = Ok dataSet /\
         size dataSet = length templateSet /\
         forall i : Z,
           dataSet !! i =
           if decide (0 <= i) then records !! Z.to_nat i else None) /\
      (~ Forall decodable templateSet -> exists e, unmarshal s = Err e)
  end.
Proof.
  intros Hparse. unfold unmarshal. rewrite Hparse.
  destruct (Unmarshal_templateSet s) as [templateSet|e1]; [|reflexivity].
  split.
  - intros Hd. apply Forall_decodable_records in Hd as [records Hall].
    destruct (unmarshalRange_ok templateSet records [] ∅ Hall indexed_empty)
      as (dataSet & Hrun & Hsize & Hlook).
    exists records, dataSet. repeat split; try assumption.
    rewrite Hsize. symmetry. eapply Forall2_length, Hall.
  - intros Hd. destruct (unmarshalRange templateSet ∅) as [dataSet|e] eqn:Hrun;
      [|eauto].
    destruct Hd. apply Forall_decodable_records.
    eapply unmarshalRange_inv, Hrun.
Qed.


End DecoderSpec.

(** C1, as stated, fails: this text parses as a single JSON object, and
    [unmarshal] returns an error, not a result set. *)
Lemma unmarshal_single_object_counterexample :
  let s := self_object "http://localhost:7474/db/data/node/abc" in
  Unmarshal_templateNode s =
    Ok {[ "self" := Str "http://localhost:7474/db/data/node/abc" ]} /\
  unmarshal s = Err (NumError "ParseUint" "abc" ErrSyntax) /\
  ~ (exists dataSet, unmarshal s = Ok dataSet).
Proof.
  cbv zeta. split; [vm_compute; reflexivity|]. split; [vm_compute; reflexivity|].
  intros [dataSet Hd]. vm_compute in Hd. discriminate Hd.
Qed.

Lemma unmarshal_single_object_witness :
  let s := self_object "http://localhost:7474/db/data/node/7" in
  let templateNode : gmap string value :=
    {[ "self" := Str "http://localhost:7474/db/data/node/7" ]} in
  Unmarshal_templateNode s = Ok templateNode /\
  decodable templateNode /\
  exists template dataSet,
    unmarshalNode templateNode = Ok template /\
    unmarshal s = Ok dataSet /\
    dataSet !! 0 = Some template /\
    size dataSet = 1%nat /\
    forall i, i <> 0 -> dataSet !! i = None.
Proof.
  cbv zeta.
  assert (Hparse :
    Unmarshal_templateNode (self_object "http://localhost:7474/db/data/node/7")
    = Ok {[ "self" := Str "http://localhost:7474/db/data/node/7" ]}).
  { vm_compute. reflexivity. }
  assert (Hd : decodable
    {[ "self" := Str "http://localhost:7474/db/data/node/7" ]}).
  { intros self Hself. vm_compute in Hself. injection Hself as <-.
    exists 7%N. vm_compute. reflexivity. }
  split; [exact Hparse|]. split; [exact Hd|].
  exact (proj1 (unmarshal_single_object _ _ Hparse) Hd).
Defined.

(** C2, as stated, fails: this text does not parse as a single object, it
    parses as an array of two objects, and [unmarshal] returns an error. *)
Lemma unmarshal_array_counterexample :
  let s := array_of_two (self_object "http://localhost:7474/db/data/node/7")
                        (self_object "http://localhost:7474/db/data/node/x") in
  Unmarshal_templateNode s = Err json_UnmarshalTypeError /\
  Unmarshal_templateSet s =
    Ok [ {[ "self" := Str "http://localhost:7474/db/data/node/7" ]};
         {[ "self" := Str "http://localhost:7474/db/data/node/x" ]} ] /\
  unmarshal s = Err (NumError "ParseUint" "x" ErrSyntax) /\
  ~ (exists dataSet, unmarshal s = Ok dataSet).
Proof.
  cbv zeta. split; [vm_compute; reflexivity|]. split; [vm_compute; reflexivity|].
  split; [vm_compute; reflexivity|].
  intros [dataSet Hd]. vm_compute in Hd. discriminate Hd.
Qed.

Lemma unmarshal_array_witness :
  let s := array_of_two (self_object "http://localhost:7474/db/data/node/7")
                        (self_object "http://localhost:7474/db/data/node/8") in
  Unmarshal_templateNode s = Err json_UnmarshalTypeError /\
  match Unmarshal_templateSet s with
  | Err e1 => unmarshal s = Err e1
  | Ok templateSet =>
      (Forall decodable templateSet ->
       exists records dataSet,
         Forall2 (fun template node => unmarshalNode template = Ok node)
                 templateSet records /\
         unmarshal s = Ok dataSet /\
         size dataSet = length templateSet /\
         forall i : Z,
           dataSet !! i =
           if decide (0 <= i) then records !! Z.to_nat i else None) /\
      (~ Forall decodable templateSet -> exists e, unmarshal s = Err e)
  end.
Proof.
  cbv zeta.
  assert (Hparse :
    Unmarshal_templateNode
      (array_of_two (self_object "http://localhost:7474/db/data/node/7")
                    (self_object "http://localhost:7474/db/data/node/8"))
    = Err json_UnmarshalTypeError).
  { vm_compute. reflexivity. }
  split; [exact Hparse|].
  exact (unmarshal_array _ _ Hparse).
Defined.


(** ** The status classifier *)

(** The table that the classifier looks the status code up in: the
    operation's own, with the entry for 500. *)
Lemma classify_lookup (op : Operation) (this : Neo4j) :
  classify op this = <[500 := fatal_error]> (errorList op) !! StatusCode this.
Proof.
  unfold classify, NewError, check, fatal_error. cbn [List Code].
  destruct (<[500 := errors_New "Fatal Error 500."]> (errorList op)
              !! StatusCode this); reflexivity.
Qed.

(** No table has an entry for 200, 201 or 500. *)
Lemma errorList_success_codes (op : Operation) :
  errorList op !! 200 = None /\ errorList op !! 201 = None /\
  errorList op !! 500 = None.
Proof. destruct op; repeat split; vm_compute; reflexivity. Qed.

(** The codes that have an entry in some table. *)
Lemma errorList_codes (op : Operation) (code : Z) :
  is_Some (errorList op !! code) ->
  code = 400 \/ code = 404 \/ code = 409 \/ code = 204.
Proof.
  intros [e He]. destruct op; unfold errorList in He;
    repeat (apply lookup_insert_Some in He as [[<- _]|[_ He]]; [lia|]);
    rewrite lookup_empty in He; discriminate He.
Qed.

(** C4: for every operation and every client, whatever its method and
    URL, a last status code of 200 or of 201 classifies as no error, and a
    last status code of 500 as the fatal error. *)
Theorem classify_success_and_fatal (op : Operation) (this : Neo4j) :
  classify op (with_status this 200) = None /\
  classify op (with_status this 201) = None /\
  classify op (with_status this 500) = Some (errors_New "Fatal Error 500.").
Proof.
  destruct (errorList_success_codes op) as (H200 & H201 & _).
  rewrite !classify_lookup. cbn [with_status StatusCode].
  rewrite !lookup_insert_ne by discriminate.
  rewrite lookup_insert_eq. repeat split; assumption.
Qed.

(** C5, as stated, fails: the status code 400 has no entry in the table of
    [GetNode], nor has 302, and both classify as no error. *)
Lemma classify_untabulated_counterexample :
  let this := {| Method := "get"; StatusCode := 400; URL := "" |} in
  errorList OpGetNode !! 400 = None /\
  classify OpGetNode this = None /\
  errorList OpGetNode !! 302 = None /\
  classify OpGetNode (with_status this 302) = None.
Proof. cbv zeta. repeat split; vm_compute; reflexivity. Qed.

(** C5, as amended: for every operation and every status code other than
    500 that has no entry in the operation's table, the classifier returns
    no error, whether the code is one of 400, 404, 409, 204 or any other
    code. *)
Theorem classify_untabulated (op : Operation) (this : Neo4j) :
  errorList op !! StatusCode this = None ->
  StatusCode this <> 500 ->
  classify op this = None.
Proof.
  intros Hnone H500. rewrite classify_lookup, lookup_insert_ne by congruence.
  exact Hnone.
Qed.

Lemma classify_untabulated_witness :
  let this := {| Method := "get"; StatusCode := 409; URL := "" |} in
  errorList OpGetNode !! StatusCode this = None /\
  StatusCode this <> 500 /\
  classify OpGetNode this = None.
Proof.
  cbv zeta.
  assert (Hnone : errorList OpGetNode
                    !! StatusCode {| Method := "get"; StatusCode := 409; URL := "" |}
                  = None) by (vm_compute; reflexivity).
  assert (H500 : StatusCode {| Method := "get"; StatusCode := 409; URL := "" |}
                 <> 500) by (simpl; lia).
  split; [exact Hnone|]. split; [exact H500|].
  exact (classify_untabulated OpGetNode _ Hnone H500).
Defined.

(** C6, as stated, fails: the table of [Traverse] has no entry for 204,
    and neither has that of [TraversePath]; a traversal that ends with
    status 204 classifies as no error. *)
Lemma errorList_traverse_counterexample :
  let this := {| Method := "post"; StatusCode := 204; URL := "" |} in
  errorList OpTraverse !! 204 = None /\
  classify OpTraverse this = None /\
  errorList OpTraversePath !! 204 = None /\
  classify OpTraversePath this = None.
Proof. cbv zeta. repeat split; vm_compute; reflexivity. Qed.

(** C6, as amended: only the table of [DelNode] has an entry for 409, and
    only the tables of [GetProperty] and [GetProperties] have one for 204.
    For [DelNode], 409 classifies as its error; for the two get-property
    operations, 204 classifies as their error; for every other operation
    these codes classify as no error. *)
Theorem errorList_409_204 (op : Operation) (this : Neo4j) :
  (is_Some (errorList op !! 409) <-> op = OpDelNode) /\
  (is_Some (errorList op !! 204) <->
   op = OpGetProperty \/ op = OpGetProperties) /\
  classify OpDelNode (with_status this 409) =
    Some (errors_New "Unable to delete node. May still have relationships.") /\
  classify OpGetProperty (with_status this 204) =
    Some (errors_New "No properties found.") /\
  classify OpGetProperties (with_status this 204) =
    Some (errors_New "No properties found.") /\
  (op <> OpDelNode -> classify op (with_status this 409) = None) /\
  (op <> OpGetProperty -> op <> OpGetProperties ->
   classify op (with_status this 204) = None).
Proof.
  assert (H409 : is_Some (errorList op !! 409) <-> op = OpDelNode).
  { split.
    - intros [e He]. destruct op; try reflexivity; vm_compute in He;
        discriminate He.
    - intros ->. eexists. vm_compute. reflexivity. }
  assert (H204 : is_Some (errorList op !! 204) <->
                 op = OpGetProperty \/ op = OpGetProperties).
  { split.
    - intros [e He]. destruct op; try (left; reflexivity);
        try (right; reflexivity); vm_compute in He; discriminate He.
    - intros [-> | ->]; eexists; vm_compute; reflexivity. }
  split; [exact H409|]. split; [exact H204|].
  rewrite !classify_lookup. cbn [with_status StatusCode].
  split; [vm_compute; reflexivity|]. split; [vm_compute; reflexivity|].
  split; [vm_compute; reflexivity|]. split.
  - intros Hop. rewrite lookup_insert_ne by discriminate.
    apply eq_None_not_Some. rewrite H409. exact Hop.
  - intros Hop1 Hop2. rewrite lookup_insert_ne by discriminate.
    apply eq_None_not_Some. rewrite H204. tauto.
Qed.

Lemma errorList_409_204_witness :
  let this := {| Method := "delete"; StatusCode := 0; URL := "" |} in
  OpDelRelationship <> OpDelNode /\
  classify OpDelRelationship (with_status this 409) = None.
Proof.
  cbv zeta.
  assert (Hop : OpDelRelationship <> OpDelNode) by discriminate.
  split; [exact Hop|].
  exact (proj1 (proj2 (proj2 (proj2 (proj2 (proj2
           (errorList_409_204 OpDelRelationship
              {| Method := "delete"; StatusCode := 0; URL := "" |}))))))
         Hop).
Defined.

(** ** The client *)

Section ClientSpec.
Context `{Env}.

(** What [send] does: one request on the wire, and the status code of
    the response, if there is one, on the client. *)
Lemma send_spec (url data : string) (st : State) :
  send url data st =
  let req := build_request (Method (client st))
               (request_url (client st) url) data in
  match http_Do (wire st) req with
  | Err err =>
      Return (Err err, {| client := client st; wire := wire st ++ [req] |})
  | Ok resp =>
      Return (Ok (respBody resp),
              {| client := with_status (client st) (respStatusCode resp);
                 wire := wire st ++ [req] |})
  end.
Proof.
  cbv zeta. unfold send, bind, get_this.
  destruct (http_Do _ _); reflexivity.
Qed.

Lemma request_url_slash (this : Neo4j) (a b : string) :
  request_url this (a +:+ "/" +:+ b) = a +:+ "/" +:+ b.
Proof.
  unfold request_url.
  assert (Hlen : (1 <= String.length (a +:+ "/" +:+ b))%nat).
  { destruct a as [|c a].
    - change ("" +:+ "/" +:+ b) with (String "/" b). cbn [String.length]. lia.
    - rewrite append_String. cbn [String.length]. lia. }
  destruct (Z.ltb_spec (Z.of_nat (String.length (a +:+ "/" +:+ b))) 1);
    [lia|reflexivity].
Qed.


(** [GetNode] with an identifier above zero issues one GET, to the node
    link of the identifier, and leaves the method at [get]. *)
Lemma GetNode_wire (id : N) (st : State) :
  (1 <= id)%N ->
  exists r st1,
    GetNode id st = Return (r, st1) /\
    wire st1 = wire st ++
      [mkRequest GET ((URL (client st) +:+ "/node/") +:+ strconv.FormatUint id)
         "" None] /\
    Method (client st1) = "get".
Proof.
  intros Hid. unfold GetNode. destruct (N.ltb_spec id 1) as [|_]; [lia|].
  unfold bind at 1. cbn [set_Method]. unfold bind at 1. cbn [get_this client].
  unfold bind at 1. rewrite send_spec. cbv zeta.
  cbn [client wire with_method Method URL].
  assert (Hurl : forall this,
    request_url this ((URL (client st) +:+ "/node/") +:+ strconv.FormatUint id)
    = (URL (client st) +:+ "/node/") +:+ strconv.FormatUint id).
  { intros this. rewrite append_assoc.
    change ("/node/" +:+ strconv.FormatUint id)
      with ("/" +:+ ("node/" +:+ strconv.FormatUint id)).
    apply request_url_slash. }
  rewrite Hurl.
  change (build_request "get" ?u ?d) with (mkRequest GET u "" None).
  destruct (http_Do _ _) as [resp|err].
  - unfold bind, ret. cbn [get_this].
    destruct (unmarshal (respBody resp)) as [template|e];
      eexists _, _; (split; [reflexivity|]); split; reflexivity.
  - eexists _, _. split; [reflexivity|]. split; reflexivity.
Qed.

(** When [GetNode] returns a nil node without an error (the server sent an
    empty array), replace mode dereferences it: the method panics. *)
Lemma SetProperty_nil_node (id : N) (data : gmap string string)
  (st st1 : State) (s : string) :
  GetNode id st = Return ((None, None), st1) ->
  json_Marshal data = Ok s ->
  SetProperty id data true st =
    Panic "invalid memory address or nil pointer dereference".
Proof.
  intros Hget Hs. unfold SetProperty, bind. rewrite Hget.
  cbn [fst snd set_Method]. rewrite Hs. reflexivity.
Qed.

(** C9: [DelRelationship] with no identifier issues no request, sets the
    method to [delete], and returns the classification of the status
    code that the client already held: the error of 404 for 404, the
    fatal error for 500, nil for any other code. *)
Theorem DelRelationship_no_ids (st : State) :
  DelRelationship [] st =
    Return (classify OpDelRelationship (client st),
            {| client := with_method (client st) "delete";
               wire := wire st |}) /\
  classify OpDelRelationship (client st) =
    if decide (StatusCode (client st) = 404)
    then Some (errors_New "Relationship not found.")
    else if decide (StatusCode (client st) = 500)
         then Some (errors_New "Fatal Error 500.")
         else None.
Proof.
  split; [reflexivity|].
  rewrite classify_lookup. unfold errorList, fatal_error.
  destruct (decide (StatusCode (client st) = 404)) as [->|H404];
    [reflexivity|].
  destruct (decide (StatusCode (client st) = 500)) as [->|H500];
    [reflexivity|].
  rewrite !lookup_insert_ne by congruence. apply lookup_empty.
Qed.


End ClientSpec.

(** Merge mode on the example server: after the request of [GetNode], one
    PUT for each key, to the trimmed key, with the quoted value. *)
Example SetProperty_merge_example :
  wire_after (SetProperty 7 example_data false) Example.fresh =
  Some [ mkRequest GET "http://localhost:7474/db/data/node/7" "" None;
         mkRequest PUT "http://localhost:7474/db/data/node/7/properties/b"
           (quoted "y") (Some "application/json");
         mkRequest PUT "http://localhost:7474/db/data/node/7/properties/a"
           (quoted "x") (Some "application/json") ].
Proof. vm_compute. reflexivity. Qed.

(** Replace mode on the example server: one PUT, with the whole map and
    its keys as they are. *)
Example CreateProperty_replace_example :
  wire_after (CreateProperty 7 example_data true) Example.fresh =
  Some [ mkRequest GET "http://localhost:7474/db/data/node/7" "" None;
         mkRequest PUT "http://localhost:7474/db/data/node/7/properties"
           ("{" +:+ quoted "b" +:+ ":" +:+ quoted "y" +:+ ","
                +:+ quoted " a " +:+ ":" +:+ quoted "x" +:+ "}")
           (Some "application/json") ].
Proof. vm_compute. reflexivity. Qed.


(** [strings.TrimSpace] on examples: ASCII white space, a no-break space
    in UTF-8, and white space inside the string, which stays. *)
Example TrimSpace_examples :
  strings.TrimSpace "  key  " = "key" /\
  strings.TrimSpace (strings.of_bytes [9; 194; 160; 107; 226; 128; 137; 10]%nat) = "k" /\
  strings.TrimSpace " a b " = "a b" /\
  strings.TrimSpace "   " = "".
Proof. repeat split; vm_compute; reflexivity. Qed.

(** * Further verified properties *)

(** ** The string escaper *)

Lemma length_append (s t : string) :
  String.length (s +:+ t) = (String.length s + String.length t)%nat.
Proof.
  induction s as [|c s IH]; [reflexivity|].
  rewrite append_String. cbn [String.length]. rewrite IH. reflexivity.
Qed.

Lemma bytes_of_append (s t : string) :
  bytes_of (s +:+ t) = bytes_of s ++ bytes_of t.
Proof.
  unfold bytes_of. induction s as [|c s IH]; [reflexivity|].
  rewrite append_String. cbn [list_ascii_of_string app]. rewrite IH.
  reflexivity.
Qed.

Lemma escape_bytes_app (s t : string) :
  escape_bytes (s +:+ t) = escape_bytes s +:+ escape_bytes t.
Proof.
  induction s as [|c s IH]; [reflexivity|].
  rewrite append_String. cbn [escape_bytes]. rewrite IH, append_assoc.
  reflexivity.
Qed.

(** An escape is one byte long for a byte that is not reserved, and at
    least three bytes long for a reserved one. *)
Lemma escape_byte_length (c : ascii) :
  if strings.contains_byte escapedChars c
  then (3 <= String.length (escape_byte c))%nat
  else escape_byte c = String c EmptyString.
Proof.
  destruct c as [[] [] [] [] [] [] [] []]; vm_compute;
    first [reflexivity | lia].
Qed.

Lemma escape_bytes_length (s : string) :
  (String.length s <= String.length (escape_bytes s))%nat /\
  (String.length (escape_bytes s) = String.length s ->
   strings.IndexAny s escapedChars = -1).
Proof.
  induction s as [|c s [IHle IHeq]].
  - split; [reflexivity|]. reflexivity.
  - cbn [escape_bytes]. rewrite length_append, IndexAny_String.
    cbn [String.length].
    pose proof (escape_byte_length c) as Hc.
    destruct (strings.contains_byte escapedChars c).
    + split; [lia|]. intros Heq. lia.
    + rewrite Hc. cbn [String.length]. split; [lia|].
      intros Heq. rewrite IHeq by lia. reflexivity.
Qed.

(** The bytes of an escape are none of the nine unsafe characters. *)
Lemma escape_byte_safe (c d : ascii) :
  In d (bytes_of (escape_byte c)) -> ~ In d spec_unsafe.
Proof.
  assert (Hall : forallb (fun d => negb (existsb (Ascii.eqb d) spec_unsafe))
                   (bytes_of (escape_byte c)) = true).
  { destruct c as [[] [] [] [] [] [] [] []]; vm_compute; reflexivity. }
  intros Hd Hin. rewrite forallb_forall in Hall. specialize (Hall d Hd).
  apply negb_true_iff in Hall.
  assert (Hex : existsb (Ascii.eqb d) spec_unsafe = true).
  { apply existsb_exists. exists d. split; [exact Hin|apply Ascii.eqb_refl]. }
  congruence.
Qed.

(** Every escape starts with a percent sign or an ampersand. *)
Lemma escape_byte_marks (c : ascii) :
  strings.contains_byte escapedChars c = true ->
  exists d, In d (bytes_of (escape_byte c)) /\ In d spec_reserved.
Proof.
  intros Hc.
  destruct c as [[] [] [] [] [] [] [] []]; vm_compute in Hc;
    try discriminate Hc;
    first [ exists "%"%char; split; vm_compute; tauto
          | exists "&"%char; split; vm_compute; tauto ].
Qed.

(** The escape of a byte can be read back from the front of a text. *)
Lemma unescape_head_escape (c : ascii) (rest : string) :
  unescape_head (escape_byte c +:+ rest) = Some (c, rest).
Proof.
  destruct c as [[] [] [] [] [] [] [] []]; reflexivity.
Qed.

Lemma escape_bytes_inj (s t : string) :
  escape_bytes s = escape_bytes t -> s = t.
Proof.
  revert t. induction s as [|c s IH]; intros [|d t] Heq.
  - reflexivity.
  - apply (f_equal unescape_head) in Heq. cbn [escape_bytes] in Heq.
    rewrite unescape_head_escape in Heq. discriminate Heq.
  - apply (f_equal unescape_head) in Heq. cbn [escape_bytes] in Heq.
    rewrite unescape_head_escape in Heq. discriminate Heq.
  - apply (f_equal unescape_head) in Heq. cbn [escape_bytes] in Heq.
    rewrite !unescape_head_escape in Heq. injection Heq as -> Heq.
    f_equal. apply IH. exact Heq.
Qed.

Lemma clean_IndexAny (s : string) :
  clean s <-> strings.IndexAny s escapedChars = -1.
Proof.
  rewrite IndexAny_none. unfold clean, bytes_of. split.
  - intros Hclean c Hc.
    destruct (strings.contains_byte escapedChars c) eqn:E; [|reflexivity].
    apply contains_escapedChars in E. destruct (Hclean c Hc E).
  - intros Hnone c Hc Hin. apply contains_escapedChars in Hin.
    rewrite (Hnone c Hc) in Hin. discriminate Hin.
Qed.

(** X1: escaping a concatenation gives the concatenation of the escapes:
    [EscapeString] works byte by byte, left to right. *)
Theorem EscapeString_app (s t : string) :
  exists a b,
    EscapeString s = Return a /\ EscapeString t = Return b /\
    EscapeString (s +:+ t) = Return (a +:+ b).
Proof.
  exists (escape_bytes s), (escape_bytes t).
  rewrite !EscapeString_spec, escape_bytes_app. repeat split.
Qed.

(** X2: the result of [EscapeString] holds none of the apostrophe, the
    angle brackets, the double quote, the asterisk, the square brackets,
    the colon and the space. *)
Theorem EscapeString_safe (s : string) :
  exists out,
    EscapeString s = Return out /\
    forall c, In c (bytes_of out) -> ~ In c spec_unsafe.
Proof.
  exists (escape_bytes s). split; [apply EscapeString_spec|].
  induction s as [|d s IH]; [intros c []|].
  cbn [escape_bytes]. intros c. rewrite bytes_of_append, in_app_iff.
  intros [Hc|Hc]; [exact (escape_byte_safe d c Hc)|exact (IH c Hc)].
Qed.

(** X3: [EscapeString] keeps different strings different. *)
Theorem EscapeString_injective (s t : string) :
  EscapeString s = EscapeString t -> s = t.
Proof.
  rewrite !EscapeString_spec. intros [= Heq]. apply escape_bytes_inj, Heq.
Qed.

Lemma EscapeString_injective_witness :
  EscapeString "a b" = EscapeString "a b" /\ "a b" = "a b".
Proof.
  assert (Heq : EscapeString "a b" = EscapeString "a b") by reflexivity.
  split; [exact Heq|]. exact (EscapeString_injective "a b" "a b" Heq).
Defined.

(** X4: the result of [EscapeString] is never shorter than the string, and
    it is the string itself exactly when the string is clean. *)
Theorem EscapeString_identity_iff (s : string) :
  exists out,
    EscapeString s = Return out /\
    (String.length s <= String.length out)%nat /\
    (out = s <-> clean s).
Proof.
  exists (escape_bytes s). split; [apply EscapeString_spec|].
  destruct (escape_bytes_length s) as [Hle Heq]. split; [exact Hle|].
  rewrite clean_IndexAny. split.
  - intros Hs. apply Heq. rewrite Hs. reflexivity.
  - apply escape_bytes_clean.
Qed.

(** X5: escaping twice is escaping once only on clean strings: as soon as
    [EscapeString] has changed a string, escaping the result changes it
    again. *)
Theorem EscapeString_twice (s : string) :
  exists out out2,
    EscapeString s = Return out /\ EscapeString out = Return out2 /\
    (out2 = out <-> clean s).
Proof.
  exists (escape_bytes s), (escape_bytes (escape_bytes s)).
  rewrite !EscapeString_spec. split; [reflexivity|]. split; [reflexivity|].
  split.
  - intros Hfix.
    assert (Hout : clean (escape_bytes s)).
    { apply clean_IndexAny. apply (proj2 (escape_bytes_length _)).
      rewrite Hfix. reflexivity. }
    apply clean_IndexAny, IndexAny_none. intros c Hc.
    destruct (strings.contains_byte escapedChars c) eqn:E; [|reflexivity].
    destruct (escape_byte_marks c E) as (d & Hd & Hres).
    exfalso. apply (Hout d); [|exact Hres].
    clear -Hc Hd. induction s as [|e s IH]; [destruct Hc|].
    cbn [escape_bytes]. rewrite bytes_of_append. apply in_app_iff.
    destruct Hc as [->|Hc]; [left; exact Hd|right; apply IH; exact Hc].
  - intros Hclean. apply clean_IndexAny in Hclean.
    rewrite (escape_bytes_clean s Hclean). apply escape_bytes_clean, Hclean.
Qed.

(** ** The record decoder *)

(** Decoding an object with one more member is decoding the object and
    then reading the member. *)
Lemma unmarshalNode_insert (template : gmap string value) (k : string)
  (v : value) :
  template !! k = None ->
  unmarshalNode (<[k := v]> template) =
  match unmarshalNode template with
  | Err e => Err e
  | Ok node => unmarshalNodeEntry k v node
  end.
Proof.
  intros Hfresh. unfold unmarshalNode.
  rewrite (unmarshalNodeRange_order (map_to_list (<[k := v]> template))
             (map_to_list template ++ [(k, v)])).
  - rewrite unmarshalNodeRange_app.
    destruct (unmarshalNodeRange (map_to_list template) new_NeoTemplate)
      as [node|e]; [|reflexivity].
    cbn [unmarshalNodeRange]. destruct (unmarshalNodeEntry k v node); reflexivity.
  - apply NoDup_fst_map_to_list.
  - rewrite map_to_list_insert by assumption.
    apply Permutation_cons_append.
Qed.

(** Case analysis on a key against every key name of the source. *)
Ltac split_key k :=
  destruct (String.eqb_spec k "self") as [->|?];
  [|destruct (String.eqb_spec k "traverse") as [->|?];
  [|destruct (String.eqb_spec k "property") as [->|?];
  [|destruct (String.eqb_spec k "properties") as [->|?];
  [|destruct (String.eqb_spec k "outgoing_relationships") as [->|?];
  [|destruct (String.eqb_spec k "incoming_relationships") as [->|?];
  [|destruct (String.eqb_spec k "all_relationships") as [->|?];
  [|destruct (String.eqb_spec k "create_relationship") as [->|?];
  [|destruct (String.eqb_spec k "start") as [->|?];
  [|destruct (String.eqb_spec k "end") as [->|?];
  [|destruct (String.eqb_spec k "type") as [->|?];
  [|destruct (String.eqb_spec k "length") as [->|?];
  [|destruct (String.eqb_spec k "indexed") as [->|?];
  [|destruct (String.eqb_spec k "data") as [->|?];
  [|destruct (String.eqb_spec k "extensions") as [->|?];
  [|destruct (String.eqb_spec k "nodes") as [->|?];
  [|destruct (String.eqb_spec k "relationships") as [->|?]]]]]]]]]]]]]]]]].

(** Lookups in a map with one more member, at the key names. *)
Ltac insert_lookups Hfresh :=
  unfold record_of, string_at, object_at, array_at;
  rewrite ?lookup_insert_eq;
  rewrite ?lookup_insert_ne by (first [assumption | discriminate]);
  rewrite ?Hfresh.

Lemma unmarshalNodeEntry_record (template : gmap string value) (k : string)
  (v : value) (id : N) :
  template !! k = None ->
  (forall self, (k, v) <> ("self", Str self)) ->
  unmarshalNodeEntry k v (record_of template id) =
  Ok (record_of (<[k := v]> template) id).
Proof.
  intros Hfresh Hns.
  split_key k; destruct v as [| | |u| |];
    try (exfalso; apply (Hns u); reflexivity);
    case_keys; try congruence; insert_lookups Hfresh; reflexivity.
Qed.

Lemma unmarshalNodeEntry_record_self (template : gmap string value)
  (self : string) (id0 id : N) :
  template !! "self" = None ->
  set_ID id (set_Self self (record_of template id0)) =
  record_of (<["self" := Str self]> template) id.
Proof.
  intros Hfresh. insert_lookups Hfresh. reflexivity.
Qed.

Lemma self_link_insert_ne (template : gmap string value) (k : string)
  (v : value) :
  (forall self, (k, v) <> ("self", Str self)) ->
  template !! k = None ->
  self_link (<[k := v]> template) = self_link template.
Proof.
  intros Hns Hfresh. unfold self_link.
  destruct (String.eqb_spec k "self") as [->|Hk].
  - rewrite lookup_insert_eq, Hfresh.
    destruct v as [| | |u| |]; try reflexivity. destruct (Hns u). reflexivity.
  - rewrite lookup_insert_ne by assumption. reflexivity.
Qed.

(** What [unmarshalNode] returns, field by field. *)
Lemma unmarshalNode_record (template : gmap string value) :
  unmarshalNode template =
  match self_link template with
  | Some self =>
      match parse_self self with
      | Ok id => Ok (record_of template id)
      | Err e => Err e
      end
  | None => Ok (record_of template 0%N)
  end.
Proof.
  induction template as [|k v template Hfresh IH] using map_ind.
  - reflexivity.
  - rewrite unmarshalNode_insert by assumption. rewrite IH.
    assert (Hcase : (exists self, (k, v) = ("self", Str self)) \/
                    (forall self, (k, v) <> ("self", Str self))).
    { destruct (String.eqb_spec k "self") as [->|Hk];
        [|right; intros self [= E _]; exact (Hk E)].
      destruct v as [| | |u| |]; try (right; intros self [= E]; fail).
      left. eauto. }
    destruct Hcase as [[self [= -> ->]]|Hns'].
    + unfold self_link at 1 2. rewrite Hfresh, lookup_insert_eq.
      rewrite unmarshalNodeEntry_self.
      destruct (parse_self self) as [id|e]; [|reflexivity].
      rewrite unmarshalNodeEntry_record_self by assumption. reflexivity.
    + rewrite (self_link_insert_ne template k v Hns' Hfresh).
      destruct (self_link template) as [self|].
      * destruct (parse_self self) as [id|e]; [|reflexivity].
        apply unmarshalNodeEntry_record; assumption.
      * apply unmarshalNodeEntry_record; assumption.
Qed.

Lemma unmarshalNodeEntry_not_stored (k : string) (v : value)
  (node : NeoTemplate) :
  stored k v = false -> unmarshalNodeEntry k v node = Ok node.
Proof.
  unfold stored, existsb, unmarshalNodeEntry.
  destruct v; try reflexivity; intros Hs;
    repeat match goal with
           | |- context [String.eqb k ?name] =>
               destruct (String.eqb k name) eqn:?;
               [cbn in Hs; rewrite ?orb_true_r in Hs; discriminate Hs|]
           end; reflexivity.
Qed.

(** The decimal writing of [FormatUint] reads back as the number. *)
Lemma decimal_value_of_uint_acc (d : Decimal.uint) (acc : positive) :
  decimal_value (NilEmpty.string_of_uint d) (Npos acc) =
  Some (Npos (Pos.of_uint_acc d acc)).
Proof.
  revert acc. induction d as [|d IH|d IH|d IH|d IH|d IH|d IH|d IH|d IH|d IH|d IH];
    intros acc; [reflexivity|..];
    cbn [NilEmpty.string_of_uint decimal_value Pos.of_uint_acc];
    change (strconv.digit _) with (Some 0%N) ||
    change (strconv.digit _) with (Some 1%N) ||
    change (strconv.digit _) with (Some 2%N) ||
    change (strconv.digit _) with (Some 3%N) ||
    change (strconv.digit _) with (Some 4%N) ||
    change (strconv.digit _) with (Some 5%N) ||
    change (strconv.digit _) with (Some 6%N) ||
    change (strconv.digit _) with (Some 7%N) ||
    change (strconv.digit _) with (Some 8%N) ||
    change (strconv.digit _) with (Some 9%N);
    cbv iota; rewrite <- IH; f_equal; lia.
Qed.

Lemma decimal_value_of_uint (d : Decimal.uint) :
  decimal_value (NilEmpty.string_of_uint d) 0 = Some (Pos.of_uint d).
Proof.
  induction d as [|d IH|d IH|d IH|d IH|d IH|d IH|d IH|d IH|d IH|d IH];
    [reflexivity|exact IH|..];
    cbn [NilEmpty.string_of_uint decimal_value Pos.of_uint];
    apply decimal_value_of_uint_acc.
Qed.

Lemma FormatUint_nonempty (n : N) : strconv.FormatUint n <> EmptyString.
Proof.
  unfold strconv.FormatUint. intros Hempty.
  assert (Hnil : N.to_uint n = Decimal.Nil).
  { destruct (N.to_uint n); [reflexivity|discriminate Hempty..]. }
  pose proof (DecimalN.Unsigned.of_to n) as Hn. rewrite Hnil in Hn.
  cbn in Hn. subst n. discriminate Hnil.
Qed.

Lemma decimal_number_FormatUint (n : N) :
  decimal_number (strconv.FormatUint n) = Some n.
Proof.
  pose proof (FormatUint_nonempty n) as Hne. unfold decimal_number.
  destruct (strconv.FormatUint n) eqn:E; [congruence|]. rewrite <- E.
  unfold strconv.FormatUint. rewrite decimal_value_of_uint.
  f_equal. apply DecimalN.Unsigned.of_to.
Qed.

(** A string of decimal digits holds no slash. *)
Lemma decimal_value_no_slash (s : string) (acc n : N) :
  decimal_value s acc = Some n -> ~ In "/"%char (bytes_of s).
Proof.
  revert acc. induction s as [|c s IH]; intros acc; [intros _ []|].
  cbn [decimal_value]. destruct (strconv.digit c) as [d|] eqn:Hd; [|discriminate].
  intros Hn Hin. unfold bytes_of in Hin. cbn [list_ascii_of_string] in Hin.
  destruct Hin as [->|Hin]; [discriminate Hd|]. exact (IH _ Hn Hin).
Qed.

Lemma Split_app (a b : string) (sep : ascii) :
  strings.Split (a +:+ String sep b) sep =
  strings.Split a sep ++ strings.Split b sep.
Proof.
  induction a as [|c a IH].
  - change ("" +:+ String sep b) with (String sep b).
    cbn [strings.Split]. rewrite Ascii.eqb_refl. reflexivity.
  - rewrite append_String. cbn [strings.Split]. rewrite IH.
    destruct (Ascii.eqb c sep); [reflexivity|].
    pose proof (Split_nonempty a sep) as Hne.
    destruct (strings.Split a sep) as [|p ps]; [congruence|]. reflexivity.
Qed.

Lemma Split_no_sep (s : string) (sep : ascii) :
  ~ In sep (bytes_of s) -> strings.Split s sep = [s].
Proof.
  induction s as [|c s IH]; [reflexivity|]. intros Hno.
  cbn [strings.Split]. destruct (Ascii.eqb_spec c sep) as [->|Hc].
  - destruct Hno. left. reflexivity.
  - rewrite IH; [reflexivity|]. intros Hin. apply Hno. right. exact Hin.
Qed.

Lemma last_app_nonempty (l1 l2 : list string) :
  l2 <> [] -> List.last (l1 ++ l2) EmptyString = List.last l2 EmptyString.
Proof.
  intros Hne. induction l1 as [|x l1 IH]; [reflexivity|].
  cbn [app]. destruct (l1 ++ l2) eqn:E.
  - apply app_eq_nil in E as [_ E]. congruence.
  - rewrite <- IH. reflexivity.
Qed.

Lemma parse_self_FormatUint (prefix : string) (id : N) :
  (id < 2 ^ 64)%N ->
  parse_self (prefix +:+ "/" +:+ strconv.FormatUint id) = Ok id.
Proof.
  intros Hid. unfold parse_self, last_element.
  change (prefix +:+ "/" +:+ strconv.FormatUint id)
    with (prefix +:+ String "/" (strconv.FormatUint id)).
  rewrite Split_app.
  pose proof (decimal_number_FormatUint id) as Hdec.
  assert (Hno : ~ In "/"%char (bytes_of (strconv.FormatUint id))).
  { unfold decimal_number in Hdec.
    destruct (strconv.FormatUint id) eqn:E; [discriminate Hdec|].
    rewrite <- E in *. eapply decimal_value_no_slash, Hdec. }
  rewrite (Split_no_sep _ _ Hno), last_app_nonempty by discriminate.
  cbn [List.last]. apply ParseUint_decimal. split; assumption.
Qed.

(** X6: the record that [unmarshalNode] builds does not depend on the
    order in which Go visits the members of the object: every
    arrangement of the members gives the result of [unmarshalNode]. *)
Theorem unmarshalNode_any_order (template : gmap string value)
  (entries : list (string * value)) :
  entries ≡ₚ map_to_list template ->
  unmarshalNodeRange entries new_NeoTemplate = unmarshalNode template.
Proof.
  intros Hperm. unfold unmarshalNode. symmetry.
  apply unmarshalNodeRange_order; [apply NoDup_fst_map_to_list|].
  symmetry. exact Hperm.
Qed.

Lemma unmarshalNode_any_order_witness :
  let template : gmap string value :=
    <["self" := Str "http://h/node/7"]> (<["data" := Map ∅]> ∅) in
  let entries := [("self", Str "http://h/node/7"); ("data", Map ∅)] in
  entries ≡ₚ map_to_list template /\
  unmarshalNodeRange entries new_NeoTemplate = unmarshalNode template.
Proof.
  cbv zeta.
  assert (Hperm :
    [("self", Str "http://h/node/7"); ("data", Map ∅)]
    ≡ₚ map_to_list
         (<["self" := Str "http://h/node/7"]> (<["data" := Map ∅]> ∅)
            : gmap string value)).
  { rewrite map_to_list_insert by (vm_compute; reflexivity).
    rewrite map_to_list_insert by (vm_compute; reflexivity).
    rewrite map_to_list_empty. reflexivity. }
  split; [exact Hperm|]. exact (unmarshalNode_any_order _ _ Hperm).
Defined.

(** X7: every field of the record that [unmarshalNode] returns is read
    from one key of the object: a string field holds the string under its
    key, [Data] and [Extensions] the object, [Nodes] and
    [TRelationships] the array, and a field is at its zero value when
    the key is missing or holds a value of another type; [Relationships]
    is never filled. The only error is that of the self link. *)
Theorem unmarshalNode_fields (template : gmap string value) :
  match unmarshalNode template with
  | Ok node =>
      node = record_of template (ID node) /\
      (self_link template = None -> ID node = 0%N)
  | Err e =>
      exists self, template !! "self" = Some (Str self) /\
                   strconv.ParseUint
                     (last_element (strings.Split self "/")) 0 = Err e
  end.
Proof.
  rewrite unmarshalNode_record. unfold self_link, parse_self.
  destruct (template !! "self") as [[| | |self| |]|];
    try (split; [reflexivity|reflexivity]).
  destruct (strconv.ParseUint (last_element (strings.Split self "/")) 0)
    as [id|e] eqn:Hparse.
  - split; [reflexivity|discriminate].
  - exists self. split; [reflexivity|exact Hparse].
Qed.

(** X8: a member that the decoder does not store (a number, a boolean,
    null, a key that it does not know, or a known key with a value of
    another type) changes nothing: the object decodes as it does without
    that member. *)
Theorem unmarshalNode_ignores (template : gmap string value) (k : string)
  (v : value) :
  stored k v = false ->
  unmarshalNode (<[k := v]> template) = unmarshalNode (delete k template).
Proof.
  intros Hs. rewrite <- insert_delete_eq.
  rewrite unmarshalNode_insert by apply lookup_delete_eq.
  destruct (unmarshalNode (delete k template)) as [node|e]; [|reflexivity].
  apply unmarshalNodeEntry_not_stored, Hs.
Qed.

Lemma unmarshalNode_ignores_witness :
  let template : gmap string value := {[ "self" := Str "http://h/node/7" ]} in
  stored "count" (Float64 "3") = false /\
  unmarshalNode (<["count" := Float64 "3"]> template) =
  unmarshalNode (delete "count" template).
Proof.
  cbv zeta.
  assert (Hs : stored "count" (Float64 "3") = false) by reflexivity.
  split; [exact Hs|]. exact (unmarshalNode_ignores _ _ _ Hs).
Defined.

(** X9: the identifier survives the trip through a self link: an object
    whose self link is a prefix, a slash and [FormatUint id], as in the
    URL that [GetNode] requests, decodes to a record with [ID] equal to
    [id], for every [id] below 2^64. *)
Theorem unmarshalNode_FormatUint (template : gmap string value)
  (prefix : string) (id : N) :
  (id < 2 ^ 64)%N ->
  template !! "self" = Some (Str (prefix +:+ "/" +:+ strconv.FormatUint id)) ->
  exists node, unmarshalNode template = Ok node /\ ID node = id /\
               Self node = prefix +:+ "/" +:+ strconv.FormatUint id.
Proof.
  intros Hid Hself. rewrite unmarshalNode_record. unfold self_link.
  rewrite Hself, parse_self_FormatUint by assumption.
  eexists. split; [reflexivity|]. split; [reflexivity|].
  cbn [Self record_of]. unfold string_at. rewrite Hself. reflexivity.
Qed.

Lemma unmarshalNode_FormatUint_witness :
  let template : gmap string value :=
    {[ "self" := Str ("http://h/node" +:+ "/" +:+ strconv.FormatUint 42) ]} in
  (42 < 2 ^ 64)%N /\
  template !! "self"
    = Some (Str ("http://h/node" +:+ "/" +:+ strconv.FormatUint 42)) /\
  exists node, unmarshalNode template = Ok node /\ ID node = 42%N /\
               Self node = "http://h/node" +:+ "/" +:+ strconv.FormatUint 42.
Proof.
  cbv zeta.
  assert (Hid : (42 < 2 ^ 64)%N) by reflexivity.
  assert (Hself :
    let template : gmap string value :=
      {[ "self" := Str ("http://h/node" +:+ "/" +:+ strconv.FormatUint 42) ]} in
    template !! "self"
    = Some (Str ("http://h/node" +:+ "/" +:+ strconv.FormatUint 42))).
  { vm_compute. reflexivity. }
  cbv zeta in Hself.
  split; [exact Hid|]. split; [exact Hself|].
  exact (unmarshalNode_FormatUint _ "http://h/node" 42 Hid Hself).
Defined.

Section DecoderMore.
Context `{Env}.



End DecoderMore.

(** ** The status classifier *)

Lemma errorList_messages (op : Operation) (code : Z) (e : error) :
  errorList op !! code = Some e -> exists msg, e = errors_New msg.
Proof.
  intros He. destruct op; unfold errorList in He;
    repeat (apply lookup_insert_Some in He as [[_ <-]|[_ He]]; [eauto|]);
    rewrite lookup_empty in He; discriminate He.
Qed.

(** X11: an operation reports a status code as an error only if the code
    is 204, 400, 404, 409 or 500, and then with a message of the tables;
    every other code, 401, 403 or 503 for instance, is taken for
    success. *)
Theorem classify_error_codes (op : Operation) (this : Neo4j) (e : error) :
  classify op this = Some e ->
  In (StatusCode this) [204; 400; 404; 409; 500] /\
  exists msg, e = errors_New msg.
Proof.
  rewrite classify_lookup. intros He.
  apply lookup_insert_Some in He as [[<- <-]|[_ He]].
  - split; [cbn; tauto|]. unfold fatal_error. eauto.
  - split; [|exact (errorList_messages op _ e He)].
    destruct (errorList_codes op (StatusCode this)) as [E|[E|[E|E]]];
      [eauto|rewrite E; cbn; tauto..].
Qed.

Lemma classify_error_codes_witness :
  let this := {| Method := "delete"; StatusCode := 409; URL := "" |} in
  classify OpDelNode this =
    Some (errors_New "Unable to delete node. May still have relationships.") /\
  In (StatusCode this) [204; 400; 404; 409; 500] /\
  exists msg,
    errors_New "Unable to delete node. May still have relationships."
    = errors_New msg.
Proof.
  cbv zeta.
  assert (Hc : classify OpDelNode
                 {| Method := "delete"; StatusCode := 409; URL := "" |} =
               Some (errors_New
                       "Unable to delete node. May still have relationships."))
    by (vm_compute; reflexivity).
  split; [exact Hc|]. exact (classify_error_codes _ _ _ Hc).
Defined.

(** X12: the status 404 is an error for every operation but [CreateNode],
    [SearchIdx] and [CreateIdx], for which it is taken for success; the
    status 400 is an error exactly for the operations that send data. *)
Theorem errorList_404_400 (op : Operation) (this : Neo4j) :
  (classify op (with_status this 404) = None <->
   op = OpCreateNode \/ op = OpSearchIdx \/ op = OpCreateIdx) /\
  (classify op (with_status this 400)
     = Some (errors_New "Invalid data sent.") <->
   In op [OpSetProperty; OpCreateProperty; OpCreateNode; OpSetRelationship;
          OpCreateRelationship; OpSearchIdx; OpCreateIdx]) /\
  (classify op (with_status this 400) = None <->
   ~ In op [OpSetProperty; OpCreateProperty; OpCreateNode; OpSetRelationship;
            OpCreateRelationship; OpSearchIdx; OpCreateIdx]).
Proof.
  rewrite !classify_lookup. cbn [with_status StatusCode].
  rewrite !lookup_insert_ne by discriminate.
  destruct op; vm_compute; repeat split; intros;
    try discriminate; try tauto; try reflexivity;
    repeat match goal with
           | H : _ \/ _ |- _ => destruct H
           | H : _ = _ |- _ => discriminate H
           | H : False |- _ => destruct H
           | H : ~ _ |- _ => exfalso; apply H; tauto
           end.
Qed.

(** ** The words and the URL templates of the traversal *)

Lemma strip_prefix_refl (s : string) :
  strings.strip_prefix s s = Some EmptyString.
Proof.
  induction s as [|c s IH]; [reflexivity|].
  cbn [strings.strip_prefix]. rewrite Ascii.eqb_refl. exact IH.
Qed.

(** The first occurrence is the one at the end when the first byte of
    [old] does not occur before it. *)
Lemma strings_Replace_last (prefix new : string) (c : ascii) (old : string) :
  ~ In c (bytes_of prefix) ->
  strings_Replace (prefix +:+ String c old) (String c old) new
  = prefix +:+ new.
Proof.
  induction prefix as [|b prefix IH]; intros Hc.
  -    rewrite append_empty_l.
    destruct old as [|o old].
    + cbn [strings_Replace strings.strip_prefix]. rewrite Ascii.eqb_refl.
      apply append_empty_r.
    + cbn [strings_Replace]. rewrite strip_prefix_refl.
      apply append_empty_r.
  - rewrite !append_String. cbn [strings_Replace strings.strip_prefix].
    destruct (Ascii.eqb_spec c b) as [->|Hne].
    + exfalso. apply Hc. left. reflexivity.
    + rewrite IH; [reflexivity|]. intros Hin. apply Hc. right. exact Hin.
Qed.

Lemma allowed_returnType_cases (returnType : string) :
  (In (strings_ToLower returnType) return_types /\
   allowed_returnType returnType = strings_ToLower returnType) \/
  (~ In (strings_ToLower returnType) return_types /\
   allowed_returnType returnType = "node").
Proof.
  unfold allowed_returnType, return_types. cbv zeta.
  destruct (String.eqb_spec (strings_ToLower returnType) "relationship") as [E|N1].
  { left. split; [rewrite E; cbn; tauto|reflexivity]. }
  destruct (String.eqb_spec (strings_ToLower returnType) "path") as [E|N2].
  { left. split; [rewrite E; cbn; tauto|reflexivity]. }
  destruct (String.eqb_spec (strings_ToLower returnType) "fullpath") as [E|N3].
  { left. split; [rewrite E; cbn; tauto|reflexivity]. }
  destruct (String.eqb_spec (strings_ToLower returnType) "node") as [E|N4].
  { left. split; [rewrite E; cbn; tauto|reflexivity]. }
  right. split; [|reflexivity]. cbn. intros [E|[E|[E|[E|[]]]]]; congruence.
Qed.

(** ** The client *)

Lemma append_nonempty_r (a b : string) :
  b <> EmptyString -> a +:+ b <> EmptyString.
Proof.
  intros Hb. destruct a as [|c a]; [exact Hb|].
  rewrite append_String. discriminate.
Qed.

Lemma append_nonempty_l (a b : string) :
  a <> EmptyString -> a +:+ b <> EmptyString.
Proof.
  intros Ha. destruct a as [|c a]; [congruence|].
  rewrite append_String. discriminate.
Qed.

Section ClientMore.
Context `{Env} `{EnvBody}.

Lemma request_url_nonempty (this : Neo4j) (url : string) :
  url <> EmptyString -> request_url this url = url.
Proof.
  intros Hne. unfold request_url. destruct url as [|c url]; [congruence|].
  cbn [String.length].
  destruct (Z.ltb_spec (Z.of_nat (S (String.length url))) 1); [lia|reflexivity].
Qed.

Lemma request_url_never_empty (this : Neo4j) (url : string) :
  request_url this url <> EmptyString.
Proof.
  unfold request_url. destruct url as [|c url].
  - cbn. apply append_nonempty_r. discriminate.
  - cbn [String.length].
    destruct (Z.ltb_spec (Z.of_nat (S (String.length url))) 1); [lia|].
    discriminate.
Qed.

(** The request of each verb: a GET and a DELETE carry neither the data
    nor a content type. *)
Lemma build_request_shape (method url data : string) :
  let req := build_request method url data in
  reqURL req = url /\
  match reqVerb req with
  | GET | DELETE => reqBody req = EmptyString /\ reqContentType req = None
  | POST | PUT =>
      reqBody req = data /\ reqContentType req = Some "application/json"
  end.
Proof.
  cbv zeta. unfold build_request.
  repeat (destruct (String.eqb _ _)); repeat split.
Qed.

(** What [GetNode] does for an identifier above zero. *)
Lemma GetNode_spec (id : N) (st : State) :
  (1 <= id)%N ->
  GetNode id st =
  let req := node_request (client st) id in
  let this := with_method (client st) "get" in
  match http_Do (wire st) req with
  | Err err =>
      Return ((None, Some err), {| client := this; wire := wire st ++ [req] |})
  | Ok resp =>
      let st1 := {| client := with_status this (respStatusCode resp);
                    wire := wire st ++ [req] |} in
      match unmarshal (respBody resp) with
      | Err err => Return ((None, Some err), st1)
      | Ok template =>
          Return ((template !! 0, classify OpGetNode (client st1)), st1)
      end
  end.
Proof.
  intros Hid. cbv zeta. unfold GetNode.
  destruct (N.ltb_spec id 1) as [|_]; [lia|].
  unfold bind at 1. cbn [set_Method]. unfold bind at 1. cbn [get_this client].
  unfold bind at 1. rewrite send_spec. cbv zeta.
  cbn [client wire with_method Method URL].
  rewrite request_url_nonempty
    by (apply append_nonempty_r, FormatUint_nonempty).
  change (build_request "get" ?u ?d) with (mkRequest GET u "" None).
  fold (node_request (client st) id).
  destruct (http_Do (wire st) (node_request (client st) id)) as [resp|err];
    [|reflexivity].
  destruct (unmarshal (respBody resp)) as [template|e]; reflexivity.
Qed.

(** [GetNode] that returns no error has left a status other than 404 and
    500 on the client. *)
Lemma GetNode_ok_status (id : N) (st st1 : State) (node : option NeoTemplate) :
  GetNode id st = Return ((node, None), st1) ->
  (1 <= id)%N /\ StatusCode (client st1) <> 404 /\
  StatusCode (client st1) <> 500.
Proof.
  intros Hget. destruct (N.lt_ge_cases id 1) as [Hlt|Hge].
  - unfold GetNode in Hget. destruct (N.ltb_spec id 1); [|lia].
    discriminate Hget.
  - split; [exact Hge|]. rewrite GetNode_spec in Hget by assumption.
    cbv zeta in Hget.
    destruct (http_Do _ _) as [resp|err]; [|discriminate Hget].
    destruct (unmarshal (respBody resp)) as [template|e]; [|discriminate Hget].
    injection Hget as _ Hc <-. cbn [client] in *.
    rewrite classify_lookup in Hc. split; intros E; rewrite E in Hc;
      vm_compute in Hc; discriminate Hc.
Qed.

(** X13: [send] never panics and issues exactly one request, to a URL
    that is not empty; a GET and a DELETE carry no body; [send] leaves
    the method and the base URL of the client as they are, and changes
    the stored status code only when a response has come: after an
    error of the transport the client still holds the status of an
    earlier request. *)
Theorem send_effect (url data : string) (st : State) :
  exists r st' req,
    send url data st = Return (r, st') /\
    wire st' = wire st ++ [req] /\
    reqURL req <> EmptyString /\
    match reqVerb req with
    | GET | DELETE => reqBody req = EmptyString /\ reqContentType req = None
    | POST | PUT =>
        reqBody req = data /\ reqContentType req = Some "application/json"
    end /\
    Method (client st') = Method (client st) /\
    URL (client st') = URL (client st) /\
    match r with
    | Err err =>
        http_Do (wire st) req = Err err /\
        StatusCode (client st') = StatusCode (client st)
    | Ok body =>
        exists resp,
          http_Do (wire st) req = Ok resp /\ body = respBody resp /\
          StatusCode (client st') = respStatusCode resp
    end.
Proof.
  rewrite send_spec. cbv zeta.
  set (req := build_request (Method (client st))
                (request_url (client st) url) data).
  destruct (build_request_shape (Method (client st))
              (request_url (client st) url) data) as [Hurl Hshape].
  fold req in Hurl, Hshape.
  assert (Hne : reqURL req <> EmptyString).
  { rewrite Hurl. apply request_url_never_empty. }
  destruct (http_Do (wire st) req) as [resp|err] eqn:Hdo.
  - eexists _, _, req. split; [reflexivity|]. cbn [wire client].
    repeat (split; [first [reflexivity | assumption]|]).
    exists resp. split; [exact Hdo|]. split; reflexivity.
  - eexists _, _, req. split; [reflexivity|]. cbn [wire client].
    repeat (split; [first [reflexivity | assumption]|]).
    reflexivity.
Qed.

(** X14: what is refused before any request: the identifier 0, by
    [GetNode] and by every operation that starts with it; an empty
    property name, by [GetProperty], whatever the identifier. Each
    returns its error and leaves the client and the wire untouched: not
    even the method of the client is set. *)
Theorem refused_without_request (st : State) :
  GetNode 0 st = Return ((None, Some invalid_id), st) /\
  (forall data replace,
     SetProperty 0 data replace st = Return (Some invalid_id, st) /\
     CreateProperty 0 data replace st = Return (Some invalid_id, st)) /\
  (forall s, DelProperty 0 s st = Return (Some invalid_id, st)) /\
  DelNode 0 st = Return (Some invalid_id, st) /\
  GetProperties 0 st = Return ((None, Some invalid_id), st) /\
  (forall name direction,
     GetRelationshipsOnNode 0 name direction st
       = Return ((None, Some invalid_id), st)) /\
  (forall key value cat idxType,
     CreateIdx 0 key value cat idxType st = Return (Some invalid_id, st)) /\
  (forall returnType order uniqueness relationships depth prune filter,
     TraverseNode 0 returnType order uniqueness relationships depth prune
       filter st = Return ((None, Some invalid_id), st)) /\
  (forall src data rType,
     CreateRelationship src 0 data rType st = Return (Some invalid_id, st)) /\
  (forall src relationships depth algo paths,
     TraversePath src 0 relationships depth algo paths st
       = Return ((None, Some invalid_id), st)) /\
  (forall id, GetProperty id "" st = Return (("", Some empty_name), st)) /\
  (forall c name,
     GetProperty 0 (String c name) st = Return (("", Some invalid_id), st)).
Proof.
  repeat split; try reflexivity.
  intros c name. unfold GetProperty, is_empty. cbn [String.length].
  destruct (Z.ltb_spec (Z.of_nat (S (String.length name))) 1); [lia|].
  reflexivity.
Qed.

(** X15: when [GetNode] returns an error (the node is missing, the
    transport failed, the body does not decode), every operation that
    starts with [GetNode] returns that error and stops there: it issues
    no request of its own, so nothing is written to or deleted from a
    node that could not be read. *)
Theorem GetNode_failure_stops (id : N) (st st1 : State)
  (node : option NeoTemplate) (e : error) :
  GetNode id st = Return ((node, Some e), st1) ->
  (forall data replace,
     SetProperty id data replace st = Return (Some e, st1) /\
     CreateProperty id data replace st = Return (Some e, st1)) /\
  (forall s, DelProperty id s st = Return (Some e, st1)) /\
  DelNode id st = Return (Some e, st1) /\
  GetProperties id st = Return ((None, Some e), st1) /\
  (forall c name,
     GetProperty id (String c name) st = Return (("", Some e), st1)) /\
  (forall name direction,
     GetRelationshipsOnNode id name direction st
       = Return ((None, Some e), st1)) /\
  (forall key value cat idxType,
     CreateIdx id key value cat idxType st = Return (Some e, st1)) /\
  (forall returnType order uniqueness relationships depth prune filter,
     TraverseNode id returnType order uniqueness relationships depth prune
       filter st = Return ((None, Some e), st1)) /\
  (forall src data rType,
     CreateRelationship src id data rType st = Return (Some e, st1)) /\
  (forall src relationships depth algo paths,
     TraversePath src id relationships depth algo paths st
       = Return ((None, Some e), st1)).
Proof.
  intros Hget.
  repeat split; intros;
    unfold SetProperty, CreateProperty, DelProperty, DelNode, GetProperties,
      GetProperty, GetRelationshipsOnNode, CreateIdx, TraverseNode,
      CreateRelationship, TraversePath, is_empty, bind;
    cbn [String.length];
    try match goal with
        | |- context [Z.of_nat (S ?n) <? 1] =>
            destruct (Z.ltb_spec (Z.of_nat (S n)) 1); [lia|]
        end;
    rewrite Hget; reflexivity.
Qed.



(** The decoder on the text of an empty array. *)
Lemma unmarshal_empty_array (s : string) :
  json_decode s = Some (Slice []) -> unmarshal s = Ok ∅.
Proof.
  intros Hs. unfold unmarshal, Unmarshal_templateNode, Unmarshal_templateSet.
  rewrite Hs. reflexivity.
Qed.

(** X17: when the server answers the request of [GetNode] with an empty
    JSON array and a status other than 404 and 500, [GetNode] returns
    neither a node nor an error, and the operations that then read a
    link of the node panic on the nil pointer. *)
Theorem nil_node_panics (id : N) (st : State) (resp : Response) :
  (1 <= id)%N ->
  http_Do (wire st) (node_request (client st) id) = Ok resp ->
  json_decode (respBody resp) = Some (Slice []) ->
  respStatusCode resp <> 404 ->
  respStatusCode resp <> 500 ->
  (exists st1, GetNode id st = Return ((None, None), st1)) /\
  DelNode id st = Panic nil_dereference /\
  (forall s, DelProperty id s st = Panic nil_dereference) /\
  (forall c name, GetProperty id (String c name) st = Panic nil_dereference) /\
  GetProperties id st = Panic nil_dereference /\
  (forall name direction,
     GetRelationshipsOnNode id name direction st = Panic nil_dereference) /\
  (forall key value cat idxType,
     CreateIdx id key value cat idxType st = Panic nil_dereference) /\
  (forall data s,
     json_Marshal data = Ok s ->
     SetProperty id data true st = Panic nil_dereference /\
     CreateProperty id data true st = Panic nil_dereference).
Proof.
  intros Hid Hdo Hbody H404 H500.
  assert (Hget : exists st1, GetNode id st = Return ((None, None), st1)).
  { rewrite GetNode_spec by assumption. cbv zeta.
    rewrite Hdo, (unmarshal_empty_array _ Hbody). eexists. f_equal. f_equal.
    f_equal. rewrite classify_lookup. cbn [client with_status StatusCode].
    rewrite lookup_insert_ne by congruence.
    unfold errorList. rewrite lookup_insert_ne by congruence.
    apply lookup_empty. }
  destruct Hget as [st1 Hget]. split; [eauto|].
  repeat split; intros;
    unfold SetProperty, CreateProperty, DelProperty, DelNode, GetProperties,
      GetProperty, GetRelationshipsOnNode, CreateIdx, is_empty, bind;
    cbn [String.length];
    try match goal with
        | |- context [Z.of_nat (S ?n) <? 1] =>
            destruct (Z.ltb_spec (Z.of_nat (S n)) 1); [lia|]
        end;
    rewrite Hget; cbn [fst snd set_Method];
    try match goal with
        | Hs : json_Marshal _ = Ok _ |- _ => rewrite Hs
        end;
    reflexivity.
Qed.

(** X18: the request of [CreateIdx]. After a successful [GetNode] it
    issues one POST whose body is the quoted self link of the node. The
    request goes to the relationship index only when the category is not
    empty and the index type lowers to relationship: with an empty
    category the index type is overwritten, and the category segment of
    the URL stays empty. [CreateIdx] drops the error of the POST: when
    the transport fails, it returns the classification of the status
    that [GetNode] left on the client, which is success unless that
    status was 400. *)
Theorem CreateIdx_request (id : N) (key value cat idxType : string)
  (st st1 : State) (node : NeoTemplate) :
  GetNode id st = Return ((Some node, None), st1) ->
  let kind := match cat with
              | EmptyString => "node"
              | _ => index_kind idxType
              end in
  let url := ((URL (client st1) +:+ "/index/") +:+ kind)
             +:+ ((((((("/" +:+ cat) +:+ "/") +:+ key) +:+ "/") +:+ value)
                   +:+ "/")) in
  let req := mkRequest POST url (strconv_Quote (Self node))
               (Some "application/json") in
  exists res st2,
    CreateIdx id key value cat idxType st = Return (res, st2) /\
    wire st2 = wire st1 ++ [req] /\
    match http_Do (wire st1) req with
    | Ok resp =>
        res = if respStatusCode resp =? 500 then Some fatal_error
              else if respStatusCode resp =? 400
                   then Some (errors_New "Invalid data sent.")
              else None
    | Err _ =>
        res = if StatusCode (client st1) =? 400
              then Some (errors_New "Invalid data sent.")
              else None
    end.
Proof.
  intros Hget. cbv zeta.
  destruct (GetNode_ok_status _ _ _ _ Hget) as (_ & H404 & H500).
  assert (Hurl : forall this,
            create_idx_url this key value cat idxType
            = ((URL this +:+ "/index/")
                 +:+ match cat with
                     | EmptyString => "node"
                     | _ => index_kind idxType
                     end)
              +:+ ((((((("/" +:+ cat) +:+ "/") +:+ key) +:+ "/") +:+ value)
                    +:+ "/"))).
  { intros this. unfold create_idx_url. cbv zeta.
    destruct cat as [|c cat]; [reflexivity|]. unfold is_empty.
    cbn [String.length].
    destruct (Z.ltb_spec (Z.of_nat (S (String.length cat))) 1); [lia|].
    reflexivity. }
  unfold CreateIdx. unfold bind at 1. rewrite Hget. cbn [fst snd deref].
  unfold bind at 1. cbn [ret]. unfold bind at 1. cbn [get_this].
  unfold bind at 1. cbn [set_Method]. unfold bind at 1.
  rewrite send_spec. cbv zeta. cbn [client wire with_method Method URL].
  rewrite Hurl.
  rewrite request_url_nonempty
    by (apply append_nonempty_r, append_nonempty_r; discriminate).
  change (build_request "post" ?u ?d)
    with (mkRequest POST u d (Some "application/json")).
  destruct (http_Do _ _) as [resp|err].
  - eexists _, _. split; [unfold bind; cbn [get_this ret]; reflexivity|].
    cbn [wire client]. split; [reflexivity|].
    rewrite classify_lookup. cbn [StatusCode with_status].
    destruct (Z.eqb_spec (respStatusCode resp) 500) as [->|N500];
      [reflexivity|].
    rewrite lookup_insert_ne by congruence. unfold errorList.
    destruct (Z.eqb_spec (respStatusCode resp) 400) as [->|N400];
      [reflexivity|].
    rewrite lookup_insert_ne by congruence. apply lookup_empty.
  - eexists _, _. split; [unfold bind; cbn [get_this ret]; reflexivity|].
    cbn [wire client]. split; [reflexivity|].
    rewrite classify_lookup. cbn [StatusCode with_method].
    rewrite lookup_insert_ne by congruence. unfold errorList.
    destruct (Z.eqb_spec (StatusCode (client st1)) 400) as [->|N400];
      [reflexivity|].
    rewrite lookup_insert_ne by congruence. apply lookup_empty.
Qed.

(** X19: [NewNeo4j] never panics. It gives the client the URL it was
    passed, or the local default for an empty one, and issues exactly
    one request, a GET of that URL. Its error is the error of the
    transport alone: whatever status the server answers, 404 and 500
    included, the constructor reports no error. *)
Theorem NewNeo4j_probe (u : string) (earlier : list Request) :
  let url := match u with
             | EmptyString => "http://127.0.0.1:7474/db/data"
             | _ => u
             end in
  let probe := mkRequest GET url EmptyString None in
  exists res st,
    NewNeo4j u earlier = Return (res, st) /\
    URL (client st) = url /\
    wire st = earlier ++ [probe] /\
    match http_Do earlier probe with
    | Ok resp => res = None /\ StatusCode (client st) = respStatusCode resp
    | Err err => res = Some err /\ StatusCode (client st) = 0
    end.
Proof.
  cbv zeta. unfold NewNeo4j. cbv zeta. rewrite send_spec. cbv zeta.
  cbn [client wire Method URL StatusCode].
  assert (Hu : (if is_empty u then "http://127.0.0.1:7474/db/data" else u)
               = match u with
                 | EmptyString => "http://127.0.0.1:7474/db/data"
                 | _ => u
                 end).
  { destruct u as [|c u]; [reflexivity|]. unfold is_empty.
    cbn [String.length].
    destruct (Z.ltb_spec (Z.of_nat (S (String.length u))) 1); [lia|].
    reflexivity. }
  rewrite Hu. clear Hu.
  set (url := match u with
              | EmptyString => "http://127.0.0.1:7474/db/data"
              | _ => u
              end).
  assert (Hne : url <> EmptyString) by (subst url; destruct u; discriminate).
  rewrite request_url_nonempty by exact Hne.
  change (build_request "" ?x ?d) with (mkRequest GET x "" None).
  destruct (http_Do earlier (mkRequest GET url "" None)) as [resp|err].
  - eexists _, _. split; [reflexivity|]. cbn [client wire URL with_status
      StatusCode]. repeat split.
  - eexists _, _. split; [reflexivity|]. cbn [client wire URL StatusCode].
    repeat split.
Qed.

(** X20: the request of [Traverse]. After a successful [GetNode] and a
    body that serializes, [Traverse] issues one POST with that body. The
    return type in the URL is always one of relationship, path, fullpath
    and node: the lowered argument when it is one of them, node
    otherwise. When the traverse link of the node ends in the
    placeholder and has no brace before it, the URL is the link with the
    placeholder replaced by that word. The body holds order, max depth
    and uniqueness, and each of the three maps exactly when it is not
    nil. *)
Theorem Traverse_request (id : N) (returnType order uniqueness : string)
  (relationships : option (gmap string string)) (depth : Z)
  (prune filter : option (gmap string string)) (st st1 : State)
  (node : NeoTemplate) (s : string) :
  GetNode id st = Return ((Some node, None), st1) ->
  let j := traverse_body order uniqueness depth relationships prune filter in
  json_Marshal_body j = Ok s ->
  exists word,
    In word return_types /\
    (In (strings_ToLower returnType) return_types ->
     word = strings_ToLower returnType) /\
    (~ In (strings_ToLower returnType) return_types -> word = "node") /\
    wire_after (TraverseNode id returnType order uniqueness relationships
                  depth prune filter) st
    = Some (wire st1 ++
            [mkRequest POST
               (request_url (client st1)
                  (strings_Replace (Traverse node) "{returnType}" word))
               s (Some "application/json")]) /\
    (forall prefix,
       Traverse node = prefix +:+ "{returnType}" ->
       ~ In "{"%char (bytes_of prefix) ->
       strings_Replace (Traverse node) "{returnType}" word
       = prefix +:+ word) /\
    j !! "order" = Some (BString order) /\
    j !! "max depth" = Some (BInt depth) /\
    j !! "uniqueness" = Some (BString uniqueness) /\
    j !! "relationships" = (fun _ => BMap relationships) <$> relationships /\
    j !! "prune evaluator" = (fun _ => BMap prune) <$> prune /\
    j !! "return filter" = (fun _ => BMap filter) <$> filter.
Proof.
  intros Hget j Hs. exists (allowed_returnType returnType).
  assert (Hword := allowed_returnType_cases returnType).
  split.
  { destruct Hword as [[Hin ->]|[_ ->]]; [exact Hin|]. cbn. tauto. }
  split.
  { intros Hin. destruct Hword as [[_ E]|[Hn _]]; [exact E|contradiction]. }
  split.
  { intros Hn. destruct Hword as [[Hin _]|[_ E]]; [contradiction|exact E]. }
  split.
  { unfold wire_after, TraverseNode. unfold bind at 1. rewrite Hget.
    cbn [fst snd]. fold j. rewrite Hs.
    unfold bind at 1. cbn [set_Method]. unfold bind at 1. cbn [deref ret].
    unfold bind at 1. rewrite send_spec. cbv zeta.
    cbn [client wire with_method Method URL].
    change (build_request "post" ?u ?d)
      with (mkRequest POST u d (Some "application/json")).
    change (request_url (with_method (client st1) "post") ?u)
      with (request_url (client st1) u).
    destruct (http_Do _ _) as [resp|err]; [|reflexivity].
    unfold bind. cbn [ret get_this].
    destruct (unmarshal (respBody resp)); reflexivity. }
  split.
  { intros prefix -> Hbrace. apply strings_Replace_last. exact Hbrace. }
  unfold j, traverse_body.
  destruct relationships, prune, filter; cbn [fmap option_fmap option_map];
    repeat split; simplify_map_eq; reflexivity.
Qed.

(** X21: [SearchIdx] never panics and issues exactly one request, a GET.
    A query that is not empty takes the place of the key and the value
    in the URL. The query, or else the value, goes into the URL escaped;
    the key is trimmed of white space and not escaped; the category is
    copied as it is. A transport or decoding error comes without a
    result set; a status of 400 or 500 comes with the decoded set and
    the error together. *)
Theorem SearchIdx_request (key value query cat idxType : string)
  (st : State) :
  let base := ((URL (client st) +:+ "/index/") +:+ index_kind idxType)
                +:+ ("/" +:+ cat) in
  let url := match query with
             | EmptyString =>
                 base +:+ (("/" +:+ strings.TrimSpace key) +:+ "/")
                      +:+ escape_bytes value
             | _ => base +:+ ("?query=" +:+ escape_bytes query)
             end in
  let req := mkRequest GET url EmptyString None in
  exists res st',
    SearchIdx key value query cat idxType st = Return (res, st') /\
    wire st' = wire st ++ [req] /\
    (index_kind idxType = "relationship" \/ index_kind idxType = "node") /\
    match http_Do (wire st) req with
    | Err err => res = (None, Some err)
    | Ok resp =>
        match unmarshal (respBody resp) with
        | Err err => res = (None, Some err)
        | Ok template =>
            res = (Some template,
                   <[500 := fatal_error]> (errorList OpSearchIdx)
                     !! respStatusCode resp)
        end
    end.
Proof.
  cbv zeta.
  set (base := ((URL (client st) +:+ "/index/") +:+ index_kind idxType)
                 +:+ ("/" +:+ cat)).
  set (url := match query with
              | EmptyString =>
                  base +:+ (("/" +:+ strings.TrimSpace key) +:+ "/")
                       +:+ escape_bytes value
              | _ => base +:+ ("?query=" +:+ escape_bytes query)
              end).
  assert (Hurl : search_url (client st) key value query cat idxType
                 = Return url).
  { unfold search_url. cbv zeta. rewrite !EscapeString_spec. fold base.
    subst url. destruct query as [|c query]; [reflexivity|].
    cbn [String.length].
    destruct (Z.ltb_spec 0 (Z.of_nat (S (String.length query)))); [|lia].
    reflexivity. }
  assert (Hne : url <> EmptyString).
  { subst url. destruct query.
    - apply append_nonempty_r, append_nonempty_l, append_nonempty_r.
      discriminate.
    - apply append_nonempty_r. discriminate. }
  assert (Hkind : index_kind idxType = "relationship"
                  \/ index_kind idxType = "node").
  { unfold index_kind. destruct (String.eqb _ _); [left|right]; reflexivity. }
  unfold SearchIdx. unfold bind at 1. cbn [get_this]. rewrite Hurl.
  unfold bind at 1. cbn [lift_outcome ret]. unfold bind at 1.
  cbn [set_Method]. unfold bind at 1. rewrite send_spec. cbv zeta.
  cbn [client wire with_method Method URL].
  rewrite request_url_nonempty by exact Hne.
  change (build_request "get" ?u ?d) with (mkRequest GET u "" None).
  destruct (http_Do (wire st) (mkRequest GET url "" None)) as [resp|err].
  - destruct (unmarshal (respBody resp)) as [template|e] eqn:Hdec.
    + eexists _, _. split; [unfold bind; cbn [ret get_this]; reflexivity|].
      cbn [wire client]. split; [reflexivity|]. split; [exact Hkind|].
      rewrite classify_lookup. reflexivity.
    + eexists _, _. split; [reflexivity|]. cbn [wire].
      split; [reflexivity|]. split; [exact Hkind|]. reflexivity.
  - eexists _, _. split; [reflexivity|]. cbn [wire].
    split; [reflexivity|]. split; [exact Hkind|]. reflexivity.
Qed.

Lemma GetNode_ok_wire (id : N) (st st1 : State) (node : option NeoTemplate) :
  GetNode id st = Return ((node, None), st1) ->
  wire st1 = wire st ++ [node_request (client st) id] /\
  URL (client st1) = URL (client st).
Proof.
  intros Hget. destruct (GetNode_ok_status _ _ _ _ Hget) as (Hid & _).
  rewrite GetNode_spec in Hget by exact Hid. cbv zeta in Hget.
  destruct (http_Do _ _) as [resp|err]; [|discriminate Hget].
  destruct (unmarshal (respBody resp)) as [template|e]; [|discriminate Hget].
  injection Hget as _ _ <-. split; reflexivity.
Qed.

(** X22: the deletions. After a successful [GetNode], [DelNode] issues
    one DELETE to the self link of the node (to the default path when
    the node has none) and [DelProperty] one DELETE to the property
    below the properties link. An error of the transport is returned as
    it is; otherwise the status of the answer decides: 500 is the fatal
    error, 404 is not found, 409 tells for [DelNode] that the node still
    has relationships, and every other status is success. *)
Theorem delete_after_GetNode (id : N) (st st1 : State) (node : NeoTemplate) :
  GetNode id st = Return ((Some node, None), st1) ->
  (let req := mkRequest DELETE (request_url (client st1) (Self node))
                EmptyString None in
   exists res st2,
     DelNode id st = Return (res, st2) /\
     wire st2 = wire st1 ++ [req] /\
     match http_Do (wire st1) req with
     | Err err => res = Some err
     | Ok resp =>
         res = if respStatusCode resp =? 500 then Some fatal_error
               else if respStatusCode resp =? 404
                    then Some (errors_New "Node not found.")
               else if respStatusCode resp =? 409
                    then Some (errors_New
                           "Unable to delete node. May still have relationships.")
               else None
     end) /\
  (forall s,
     let req := mkRequest DELETE (Properties node +:+ "/" +:+ s)
                  EmptyString None in
     exists res st2,
       DelProperty id s st = Return (res, st2) /\
       wire st2 = wire st1 ++ [req] /\
       match http_Do (wire st1) req with
       | Err err => res = Some err
       | Ok resp =>
           res = if respStatusCode resp =? 500 then Some fatal_error
                 else if respStatusCode resp =? 404
                      then Some (errors_New "Node or Property not found.")
                 else None
       end).
Proof.
  intros Hget. split; [|intros s]; cbv zeta.
  - unfold DelNode. unfold bind at 1. rewrite Hget. cbn [fst snd].
    unfold bind at 1. cbn [set_Method]. unfold bind at 1. cbn [deref ret].
    unfold bind at 1. rewrite send_spec. cbv zeta.
    cbn [client wire with_method Method URL].
    change (build_request "delete" ?u ?d) with (mkRequest DELETE u "" None).
    change (request_url (with_method (client st1) "delete") ?u)
      with (request_url (client st1) u).
    destruct (http_Do _ _) as [resp|err].
    + eexists _, _. split; [unfold bind; cbn [get_this ret]; reflexivity|].
      cbn [wire client]. split; [reflexivity|].
      rewrite classify_lookup. cbn [StatusCode with_status].
      destruct (Z.eqb_spec (respStatusCode resp) 500) as [->|N500];
        [reflexivity|].
      rewrite lookup_insert_ne by congruence. unfold errorList.
      destruct (Z.eqb_spec (respStatusCode resp) 404) as [->|N404];
        [reflexivity|].
      rewrite lookup_insert_ne by congruence.
      destruct (Z.eqb_spec (respStatusCode resp) 409) as [->|N409];
        [reflexivity|].
      rewrite lookup_insert_ne by congruence. apply lookup_empty.
    + eexists _, _. split; [reflexivity|]. split; reflexivity.
  - unfold DelProperty. unfold bind at 1. rewrite Hget. cbn [fst snd].
    unfold bind at 1. cbn [set_Method]. unfold bind at 1. cbn [deref ret].
    unfold bind at 1. rewrite send_spec. cbv zeta.
    cbn [client wire with_method Method URL].
    rewrite request_url_slash.
    change (build_request "delete" ?u ?d) with (mkRequest DELETE u "" None).
    destruct (http_Do _ _) as [resp|err].
    + eexists _, _. split; [unfold bind; cbn [get_this ret]; reflexivity|].
      cbn [wire client]. split; [reflexivity|].
      rewrite classify_lookup. cbn [StatusCode with_status].
      destruct (Z.eqb_spec (respStatusCode resp) 500) as [->|N500];
        [reflexivity|].
      rewrite lookup_insert_ne by congruence. unfold errorList.
      destruct (Z.eqb_spec (respStatusCode resp) 404) as [->|N404];
        [reflexivity|].
      rewrite lookup_insert_ne by congruence. apply lookup_empty.
    + eexists _, _. split; [reflexivity|]. split; reflexivity.
Qed.

(** X23: the operations on two nodes, [CreateRelationship] and
    [TraversePath], look up the destination first and the source second,
    and then issue one POST: to the create link of the source, and to
    the self link of the source followed by /path or /paths. The body
    names the self link of the destination under the key to; the maps
    [data] and [relationships] go into it as they are, nil included. *)
Theorem two_node_requests (src dst : N) (st st1 st2 : State)
  (d s : NeoTemplate) :
  GetNode dst st = Return ((Some d, None), st1) ->
  GetNode src st1 = Return ((Some s, None), st2) ->
  wire st2 = wire st ++ [node_request (client st) dst;
                         node_request (client st) src] /\
  (forall data rType text,
     json_Marshal_body
       (<["data" := BMap data]>
          (<["type" := BString rType]>
             (<["to" := BString (Self d)]> ∅))) = Ok text ->
     wire_after (CreateRelationship src dst data rType) st
     = Some (wire st2 ++
             [mkRequest POST
                (request_url (client st2) (RelationshipsCreate s))
                text (Some "application/json")])) /\
  (forall relationships depth algo paths text,
     json_Marshal_body
       (<["relationships" := BMap relationships]>
          (<["algorithm" := BString algo]>
             (<["max depth" := BUint depth]>
                (<["to" := BString (Self d)]> ∅)))) = Ok text ->
     wire_after (TraversePath src dst relationships depth algo paths) st
     = Some (wire st2 ++
             [mkRequest POST
                (Self s +:+ (if paths then "/paths" else "/path"))
                text (Some "application/json")])).
Proof.
  intros Hdst Hsrc.
  destruct (GetNode_ok_wire _ _ _ _ Hdst) as [Hw1 Hu1].
  destruct (GetNode_ok_wire _ _ _ _ Hsrc) as [Hw2 _].
  split.
  { rewrite Hw2, Hw1, <- app_assoc. unfold node_request. rewrite Hu1.
    reflexivity. }
  split.
  - intros data rType text Htext.
    unfold wire_after, CreateRelationship. unfold bind at 1. rewrite Hdst.
    cbn [fst snd]. unfold bind at 1. rewrite Hsrc. cbn [fst snd].
    unfold bind at 1. cbn [deref ret]. cbv zeta.
    rewrite insert_insert_eq, Htext.
    unfold bind at 1. cbn [set_Method]. unfold bind at 1. cbn [deref ret].
    unfold bind at 1. rewrite send_spec. cbv zeta.
    cbn [client wire with_method Method URL].
    change (build_request "post" ?u ?x)
      with (mkRequest POST u x (Some "application/json")).
    change (request_url (with_method (client st2) "post") ?u)
      with (request_url (client st2) u).
    destruct (http_Do _ _) as [resp|err]; reflexivity.
  - intros relationships depth algo paths text Htext.
    unfold wire_after, TraversePath. unfold bind at 1. rewrite Hdst.
    cbn [fst snd]. unfold bind at 1. rewrite Hsrc. cbn [fst snd].
    unfold bind at 1. cbn [deref ret]. cbv zeta.
    rewrite insert_insert_eq, Htext.
    unfold bind at 1. cbn [set_Method]. unfold bind at 1. cbn [deref ret].
    unfold bind at 1. rewrite send_spec. cbv zeta.
    cbn [client wire with_method Method URL].
    rewrite request_url_nonempty
      by (apply append_nonempty_r; destruct paths; discriminate).
    change (build_request "post" ?u ?x)
      with (mkRequest POST u x (Some "application/json")).
    destruct (http_Do _ _) as [resp|err]; [|reflexivity].
    unfold bind. cbn [ret get_this].
    destruct (unmarshal (respBody resp)); reflexivity.
Qed.

(** X24: the operations that need no lookup. For a property map that
    serializes, [SetRelationship] issues one PUT of the text to the
    properties of the relationship, for every identifier, 0 included,
    and [CreateNode] one POST of the text to the node collection.
    Neither panics. An error of the transport is returned as it is;
    [CreateNode] returns the error of the decoder before it looks at the
    status, and a record together with the error of a status 400 or
    500. *)
Theorem direct_requests (data : gmap string string) (s : string)
  (st : State) :
  json_Marshal data = Ok s ->
  (forall id,
     let req := mkRequest PUT
                  (((URL (client st) +:+ "/relationship/")
                      +:+ strconv.FormatUint id) +:+ "/properties")
                  s (Some "application/json") in
     exists res st',
       SetRelationship id data st = Return (res, st') /\
       wire st' = wire st ++ [req] /\
       match http_Do (wire st) req with
       | Err err => res = Some err
       | Ok resp =>
           res = if respStatusCode resp =? 500 then Some fatal_error
                 else if respStatusCode resp =? 404
                      then Some (errors_New "Relationship not found.")
                 else if respStatusCode resp =? 400
                      then Some (errors_New "Invalid data sent.")
                 else None
       end) /\
  (let req := mkRequest POST (URL (client st) +:+ "/node") s
                (Some "application/json") in
   exists res st',
     CreateNode data st = Return (res, st') /\
     wire st' = wire st ++ [req] /\
     match http_Do (wire st) req with
     | Err err => res = (None, Some err)
     | Ok resp =>
         match unmarshal (respBody resp) with
         | Err err => res = (None, Some err)
         | Ok template =>
             res = (template !! 0,
                    if respStatusCode resp =? 500 then Some fatal_error
                    else if respStatusCode resp =? 400
                         then Some (errors_New "Invalid data sent.")
                    else None)
         end
     end).
Proof.
  intros Hs. split; [intros id|]; cbv zeta.
  - unfold SetRelationship. unfold bind at 1. cbn [set_Method].
    unfold bind at 1. cbn [get_this]. rewrite Hs.
    unfold bind at 1. rewrite send_spec. cbv zeta.
    cbn [client wire with_method Method URL].
    rewrite request_url_nonempty by (apply append_nonempty_r; discriminate).
    change (build_request "put" ?u ?d)
      with (mkRequest PUT u d (Some "application/json")).
    destruct (http_Do _ _) as [resp|err].
    + eexists _, _. split; [unfold bind; cbn [get_this ret]; reflexivity|].
      cbn [wire client]. split; [reflexivity|].
      rewrite classify_lookup. cbn [StatusCode with_status].
      destruct (Z.eqb_spec (respStatusCode resp) 500) as [->|N500];
        [reflexivity|].
      rewrite lookup_insert_ne by congruence. unfold errorList.
      destruct (Z.eqb_spec (respStatusCode resp) 404) as [->|N404];
        [reflexivity|].
      rewrite lookup_insert_ne by congruence.
      destruct (Z.eqb_spec (respStatusCode resp) 400) as [->|N400];
        [reflexivity|].
      rewrite lookup_insert_ne by congruence. apply lookup_empty.
    + eexists _, _. split; [reflexivity|]. split; reflexivity.
  - unfold CreateNode. rewrite Hs. unfold bind at 1. cbn [set_Method].
    unfold bind at 1. cbn [get_this].
    unfold bind at 1. rewrite send_spec. cbv zeta.
    cbn [client wire with_method Method URL].
    rewrite request_url_nonempty by (apply append_nonempty_r; discriminate).
    change (build_request "post" ?u ?d)
      with (mkRequest POST u d (Some "application/json")).
    destruct (http_Do _ _) as [resp|err].
    + destruct (unmarshal (respBody resp)) as [template|e].
      * eexists _, _. split; [unfold bind; cbn [get_this ret]; reflexivity|].
        cbn [wire client]. split; [reflexivity|]. f_equal.
        rewrite classify_lookup. cbn [StatusCode with_status].
        destruct (Z.eqb_spec (respStatusCode resp) 500) as [->|N500];
          [reflexivity|].
        rewrite lookup_insert_ne by congruence. unfold errorList.
        destruct (Z.eqb_spec (respStatusCode resp) 400) as [->|N400];
          [reflexivity|].
        rewrite lookup_insert_ne by congruence. apply lookup_empty.
      * eexists _, _. split; [reflexivity|]. split; reflexivity.
    + eexists _, _. split; [reflexivity|]. split; reflexivity.
Qed.

(** X25: the reads that follow a lookup. After a successful [GetNode],
    [GetProperty] issues one GET below the properties link and returns
    the body as it came, not decoded, with the error of the status: 500,
    404, and 204 for a node without properties.
    [GetRelationshipsOnNode] issues one GET below the link that the
    lowered direction selects: in, out, and the link of all
    relationships for every other word. *)
Theorem reads_after_GetNode (id : N) (st st1 : State) (node : NeoTemplate) :
  GetNode id st = Return ((Some node, None), st1) ->
  (forall c name,
     let req := mkRequest GET (Properties node +:+ "/" +:+ String c name)
                  EmptyString None in
     exists res st2,
       GetProperty id (String c name) st = Return (res, st2) /\
       wire st2 = wire st1 ++ [req] /\
       match http_Do (wire st1) req with
       | Err err => res = (EmptyString, Some err)
       | Ok resp =>
           res = (respBody resp,
                  if respStatusCode resp =? 500 then Some fatal_error
                  else if respStatusCode resp =? 404
                       then Some (errors_New "Node or Property not found.")
                  else if respStatusCode resp =? 204
                       then Some (errors_New "No properties found.")
                  else None)
       end) /\
  (forall name direction,
     let link := if String.eqb (strings_ToLower direction) "in"
                 then RelationshipsIn node
                 else if String.eqb (strings_ToLower direction) "out"
                      then RelationshipsOut node
                      else RelationshipsAll node in
     let req := mkRequest GET (link +:+ "/" +:+ name) EmptyString None in
     exists res st2,
       GetRelationshipsOnNode id name direction st = Return (res, st2) /\
       wire st2 = wire st1 ++ [req] /\
       match http_Do (wire st1) req with
       | Err err => res = (None, Some err)
       | Ok resp =>
           match unmarshal (respBody resp) with
           | Err err => res = (None, Some err)
           | Ok template =>
               res = (Some template,
                      if respStatusCode resp =? 500 then Some fatal_error
                      else if respStatusCode resp =? 404
                           then Some (errors_New "Node not found.")
                      else None)
           end
       end).
Proof.
  intros Hget. split; [intros c name|intros name direction]; cbv zeta.
  - unfold GetProperty, is_empty. cbn [String.length].
    destruct (Z.ltb_spec (Z.of_nat (S (String.length name))) 1); [lia|].
    unfold bind at 1. rewrite Hget. cbn [fst snd].
    unfold bind at 1. cbn [set_Method]. unfold bind at 1. cbn [deref ret].
    unfold bind at 1. rewrite send_spec. cbv zeta.
    cbn [client wire with_method Method URL].
    rewrite request_url_slash.
    change (build_request "get" ?u ?d) with (mkRequest GET u "" None).
    destruct (http_Do _ _) as [resp|err].
    + eexists _, _. split; [unfold bind; cbn [get_this ret]; reflexivity|].
      cbn [wire client]. split; [reflexivity|]. f_equal.
      rewrite classify_lookup. cbn [StatusCode with_status].
      destruct (Z.eqb_spec (respStatusCode resp) 500) as [->|N500];
        [reflexivity|].
      rewrite lookup_insert_ne by congruence. unfold errorList.
      destruct (Z.eqb_spec (respStatusCode resp) 404) as [->|N404];
        [reflexivity|].
      rewrite lookup_insert_ne by congruence.
      destruct (Z.eqb_spec (respStatusCode resp) 204) as [->|N204];
        [reflexivity|].
      rewrite lookup_insert_ne by congruence. apply lookup_empty.
    + eexists _, _. split; [reflexivity|]. split; reflexivity.
  - unfold GetRelationshipsOnNode. unfold bind at 1. rewrite Hget.
    cbn [fst snd].
    unfold bind at 1. cbn [set_Method]. unfold bind at 1. cbn [deref ret].
    unfold bind at 1. rewrite send_spec. cbv zeta.
    cbn [client wire with_method Method URL].
    rewrite request_url_slash.
    change (build_request "get" ?u ?d) with (mkRequest GET u "" None).
    unfold relationships_url. cbv zeta.
    destruct (http_Do _ _) as [resp|err].
    + destruct (unmarshal (respBody resp)) as [template|e].
      * eexists _, _. split; [unfold bind; cbn [get_this ret]; reflexivity|].
        cbn [wire client]. split; [reflexivity|]. f_equal.
        rewrite classify_lookup. cbn [StatusCode with_status].
        destruct (Z.eqb_spec (respStatusCode resp) 500) as [->|N500];
          [reflexivity|].
        rewrite lookup_insert_ne by congruence. unfold errorList.
        destruct (Z.eqb_spec (respStatusCode resp) 404) as [->|N404];
          [reflexivity|].
        rewrite lookup_insert_ne by congruence. apply lookup_empty.
      * eexists _, _. split; [reflexivity|]. split; reflexivity.
    + eexists _, _. split; [reflexivity|]. split; reflexivity.
Qed.

End ClientMore.

(** ** The properties of the client at concrete servers *)

Lemma GetNode_failure_stops_witness :
  let E := Scripted.env [Scripted.answer 404 "{}"] in
  exists node e st1,
    @GetNode E 7 Scripted.fresh = Return ((node, Some e), st1) /\
    @DelNode E 7 Scripted.fresh = Return (Some e, st1) /\
    wire st1 = [node_request (client Scripted.fresh) 7].
Proof.
  cbv zeta. eexists _, _, _.
  split; [vm_compute; reflexivity|].
  split; [|reflexivity].
  refine (proj1 (proj2 (proj2
            (@GetNode_failure_stops _ Scripted.env_body 7 Scripted.fresh
               _ _ _ _)))).
  vm_compute. reflexivity.
Defined.


Lemma nil_node_panics_witness :
  let E := Scripted.env [Scripted.answer 200 "[]"] in
  (exists st1, @GetNode E 7 Scripted.fresh = Return ((None, None), st1)) /\
  @DelNode E 7 Scripted.fresh = Panic nil_dereference.
Proof.
  cbv zeta.
  assert (Hall := @nil_node_panics (Scripted.env [Scripted.answer 200 "[]"])
                    Scripted.env_body 7 Scripted.fresh
                    (mkResponse 200 "[]")).
  destruct Hall as (Hget & Hdel & _).
  - vm_compute. discriminate.
  - vm_compute. reflexivity.
  - vm_compute. reflexivity.
  - cbn. discriminate.
  - cbn. discriminate.
  - split; [exact Hget|exact Hdel].
Defined.

Lemma CreateIdx_request_witness :
  let E := Scripted.env
             [Scripted.answer 200 (Scripted.node_text "http://h/node/7")] in
  exists st2,
    @CreateIdx E 7 "name" "neo" "" "relationship" Scripted.fresh
    = Return (None, st2) /\
    wire st2 = [node_request (client Scripted.fresh) 7;
                mkRequest POST "http://h/index/node//name/neo/"
                  (quoted "http://h/node/7") (Some "application/json")].
Proof.
  cbv zeta.
  edestruct (@CreateIdx_request
               (Scripted.env
                  [Scripted.answer 200 (Scripted.node_text "http://h/node/7")])
               7 "name" "neo" "" "relationship" Scripted.fresh)
    as (res & st2 & Hrun & Hwire & Hres).
  - vm_compute. reflexivity.
  - vm_compute in Hres. exists st2. rewrite Hrun, Hres, Hwire.
    split; vm_compute; reflexivity.
Defined.

Lemma Traverse_request_witness :
  let E := Scripted.env
             [Scripted.answer 200 (Scripted.node_text "http://h/node/7");
              Scripted.answer 200 "[]"] in
  exists body,
    wire_after (@TraverseNode E Scripted.env_body 7 "Path" "depth_first"
                  "node_global" None 3 None None) Scripted.fresh
    = Some [node_request (client Scripted.fresh) 7;
            mkRequest POST "http://h/node/7/traverse/path" body
              (Some "application/json")].
Proof.
  cbv zeta.
  edestruct (@Traverse_request
               (Scripted.env
                  [Scripted.answer 200 (Scripted.node_text "http://h/node/7");
                   Scripted.answer 200 "[]"])
               Scripted.env_body 7 "Path" "depth_first" "node_global" None 3
               None None Scripted.fresh)
    as (word & _ & Hlower & _ & Hwire & _).
  - vm_compute. reflexivity.
  - vm_compute. reflexivity.
  - rewrite Hlower in Hwire by (right; left; reflexivity).
    eexists. rewrite Hwire. vm_compute. reflexivity.
Defined.

Lemma delete_after_GetNode_witness :
  let E := Scripted.env
             [Scripted.answer 200 (Scripted.node_text "http://h/node/7");
              Scripted.answer 409 ""] in
  exists st2,
    @DelNode E 7 Scripted.fresh
    = Return (Some (errors_New
                      "Unable to delete node. May still have relationships."),
              st2).
Proof.
  cbv zeta.
  edestruct (@delete_after_GetNode
               (Scripted.env
                  [Scripted.answer 200 (Scripted.node_text "http://h/node/7");
                   Scripted.answer 409 ""])
               7 Scripted.fresh)
    as [(res & st2 & Hrun & _ & Hres) _].
  - vm_compute. reflexivity.
  - vm_compute in Hres. exists st2. rewrite Hrun, Hres. reflexivity.
Defined.

Lemma two_node_requests_witness :
  let E := Scripted.env
             [Scripted.answer 200 (Scripted.node_text "http://h/node/8");
              Scripted.answer 200 (Scripted.node_text "http://h/node/7")] in
  exists d s st1 st2,
    @GetNode E 8 Scripted.fresh = Return ((Some d, None), st1) /\
    @GetNode E 7 st1 = Return ((Some s, None), st2) /\
    wire st2 = [node_request (client Scripted.fresh) 8;
                node_request (client Scripted.fresh) 7].
Proof.
  cbv zeta. eexists _, _, _, _.
  split; [vm_compute; reflexivity|].
  split; [vm_compute; reflexivity|].
  refine (proj1 (@two_node_requests _ Scripted.env_body 7 8 Scripted.fresh
                   _ _ _ _ _ _)).
  - vm_compute. reflexivity.
  - vm_compute. reflexivity.
Defined.

Lemma direct_requests_witness :
  let E := Scripted.env [Scripted.answer 404 ""] in
  exists s st',
    @json_Marshal E example_data = Ok s /\
    @SetRelationship E 0 example_data Scripted.fresh
    = Return (Some (errors_New "Relationship not found."), st') /\
    wire st' = [mkRequest PUT "http://h/relationship/0/properties" s
                  (Some "application/json")].
Proof.
  cbv zeta.
  edestruct (@direct_requests (Scripted.env [Scripted.answer 404 ""])
               example_data) as [Hset _].
  - vm_compute. reflexivity.
  - destruct (Hset 0%N) as (res & st' & Hrun & Hwire & Hres).
    vm_compute in Hres. eexists _, st'.
    split; [vm_compute; reflexivity|].
    rewrite Hrun, Hres, Hwire. split; reflexivity.
Defined.

Lemma reads_after_GetNode_witness :
  let E := Scripted.env
             [Scripted.answer 200 (Scripted.node_text "http://h/node/7");
              Scripted.answer 204 ""] in
  exists st2,
    @GetProperty E 7 "name" Scripted.fresh
    = Return (("", Some (errors_New "No properties found.")), st2) /\
    wire st2 = [node_request (client Scripted.fresh) 7;
                mkRequest GET "http://h/node/7/properties/name" "" None].
Proof.
  cbv zeta.
  edestruct (@reads_after_GetNode
               (Scripted.env
                  [Scripted.answer 200 (Scripted.node_text "http://h/node/7");
                   Scripted.answer 204 ""])
               7 Scripted.fresh) as [Hprop _].
  - vm_compute. reflexivity.
  - destruct (Hprop "n"%char "ame") as (res & st2 & Hrun & Hwire & Hres).
    vm_compute in Hres. exists st2.
    rewrite Hrun, Hres, Hwire. split; reflexivity.
Defined.
